(** * Zoologix front end: pagination window, URL query state, paged fetch
      and HTTP error normalisation

    A shallow embedding of the logic of the React front end:

    - [Components/Pagination.jsx]: the sliding window of page buttons;
    - [utils/fetchWrapper.js]: [CustomError] and [FetchWrapper.sendRequest];
    - [Pages/Habitats/Habitats.jsx], [Pages/Species/Species.jsx]: decoding
      and encoding of the address-bar query, the search gate;
    - [Pages/CreateResource], [Pages/DeleteResource]: the drain loop over
      the pages of a collection, the field check of the create form and its
      duplicate-key handler.

    JavaScript numbers that hold page numbers and counts are integers; they
    are modelled by [Z].  JavaScript strings are modelled by [string], read
    as the UTF-8 bytes of the text (the form [URLSearchParams] serialises). *)

From Stdlib Require Import ZArith List Bool Lia String Ascii.
Import ListNotations.

Set Warnings "-register-all".

Open Scope Z_scope.

(** ** Components/Pagination.jsx *)

Module Pagination.

(** The [<li>] elements pushed to [items].  [Previous] and [Next] carry the
    page their [onClick] passes to [onPageChange]; a numbered button carries
    its label [i] and whether its class list holds [active]. *)
Inductive item : Type :=
| Previous (target : Z)
| PageButton (label : Z) (active : bool)
| Next (target : Z).

(** [startPage] and [endPage] after the clamp of lines 21-27;
    [Math.floor (visiblePages / 2)] is [visiblePages / 2] on [Z]. *)
Definition window (page totalPages visiblePages : Z) : Z * Z :=
  let startPage := Z.max 1 (page - visiblePages / 2) in
  let endPage := startPage + visiblePages - 1 in
  if endPage >? totalPages
  then (Z.max 1 (totalPages - visiblePages + 1), totalPages)
  else (startPage, endPage).

Definition startPage (page totalPages visiblePages : Z) : Z :=
  fst (window page totalPages visiblePages).

Definition endPage (page totalPages visiblePages : Z) : Z :=
  snd (window page totalPages visiblePages).

(** [for (let i = startPage; i <= endPage; i++) items.push(...)].  The loop
    leaves through its own test; [fuel] only bounds the recursion and
    [numbered_fuel] below shows that the bound chosen is never the one that
    stops it. *)
Fixpoint numbered (fuel : nat) (page i endPage : Z) : list item :=
  match fuel with
  | O => []
  | S fuel' =>
      if i <=? endPage
      then PageButton i (page =? i) :: numbered fuel' page (i + 1) endPage
      else []
  end.

Definition Pagination (page totalPages visiblePages : Z) : list item :=
  let '(startPage, endPage) := window page totalPages visiblePages in
  (if page >? 1 then [Previous (page - 1)] else [])
  ++ numbered (Z.to_nat (endPage + 1 - startPage)) page startPage endPage
  ++ (if page <? totalPages then [Next (page + 1)] else []).

(** The default of the destructured prop, [visiblePages = 5]. *)
Definition defaultVisiblePages : Z := 5.

(** Observations on the rendered list. *)
Fixpoint labels (items : list item) : list Z :=
  match items with
  | [] => []
  | PageButton i _ :: rest => i :: labels rest
  | _ :: rest => labels rest
  end.

Fixpoint activeLabels (items : list item) : list Z :=
  match items with
  | [] => []
  | PageButton i true :: rest => i :: activeLabels rest
  | _ :: rest => activeLabels rest
  end.

Definition isPrevious (it : item) : bool :=
  match it with Previous _ => true | _ => false end.

Definition isNext (it : item) : bool :=
  match it with Next _ => true | _ => false end.

Definition showPrevious (items : list item) : bool := existsb isPrevious items.
Definition showNext (items : list item) : bool := existsb isNext items.

(** A run of consecutive integers. *)
Fixpoint consecutive (l : list Z) : Prop :=
  match l with
  | a :: (b :: _) as rest => b = a + 1 /\ consecutive rest
  | _ => True
  end.

(** The run [from, from + 1, ...] of length [n]. *)
Fixpoint run (n : nat) (from : Z) : list Z :=
  match n with
  | O => []
  | S n' => from :: run n' (from + 1)
  end.

End Pagination.

(** ** JavaScript primitives used by the pages *)

Module JS.

Definition code (c : ascii) : Z := Z.of_N (N_of_ascii c).
Definition char (n : Z) : ascii := ascii_of_N (Z.to_N n).

Definition str1 (c : ascii) : string := String c EmptyString.

(** Truthiness of a string: every string but the empty one. *)
Definition truthy (s : string) : bool :=
  match s with
  | EmptyString => false
  | String _ _ => true
  end.

(** *** White space

    [WhiteSpace] and [LineTerminator] of ECMAScript, the class that
    [String.prototype.trim], the regular-expression escape [\s] and the
    prefix skipped by [parseInt] share: TAB, LF, VT, FF, CR, SP, and, as
    UTF-8 sequences, U+00A0, U+1680, U+2000..U+200A, U+2028, U+2029, U+202F,
    U+205F, U+3000 and U+FEFF. *)
Definition isWhiteSpace1 (c1 : Z) : bool :=
  ((9 <=? c1) && (c1 <=? 13)) || (c1 =? 32).

Definition isWhiteSpace2 (c1 c2 : Z) : bool :=
  (c1 =? 194) && (c2 =? 160).

Definition isWhiteSpace3 (c1 c2 c3 : Z) : bool :=
  ((c1 =? 225) && (c2 =? 154) && (c3 =? 128))
  || ((c1 =? 226) && (c2 =? 128)
      && (((128 <=? c3) && (c3 <=? 138)) || (c3 =? 168) || (c3 =? 169)
          || (c3 =? 175)))
  || ((c1 =? 226) && (c2 =? 129) && (c3 =? 159))
  || ((c1 =? 227) && (c2 =? 128) && (c3 =? 128))
  || ((c1 =? 239) && (c2 =? 187) && (c3 =? 191)).

(** A string cut into its white-space characters and its other bytes. *)
Inductive token : Type :=
| WhiteSpace (bytes : string)
| Other (c : ascii).

Fixpoint tokens (s : string) : list token :=
  match s with
  | EmptyString => []
  | String c1 r1 =>
      if isWhiteSpace1 (code c1) then WhiteSpace (str1 c1) :: tokens r1
      else
        match r1 with
        | EmptyString => Other c1 :: tokens r1
        | String c2 r2 =>
            if isWhiteSpace2 (code c1) (code c2)
            then WhiteSpace (String c1 (str1 c2)) :: tokens r2
            else
              match r2 with
              | EmptyString => Other c1 :: tokens r1
              | String c3 r3 =>
                  if isWhiteSpace3 (code c1) (code c2) (code c3)
                  then WhiteSpace (String c1 (String c2 (str1 c3))) :: tokens r3
                  else Other c1 :: tokens r1
              end
        end
  end.

Definition tokenBytes (t : token) : string :=
  match t with
  | WhiteSpace bytes => bytes
  | Other c => str1 c
  end.

Fixpoint untokens (ts : list token) : string :=
  match ts with
  | [] => EmptyString
  | t :: rest => tokenBytes t ++ untokens rest
  end.

Fixpoint dropWhiteSpace (ts : list token) : list token :=
  match ts with
  | WhiteSpace _ :: rest => dropWhiteSpace rest
  | _ => ts
  end.

Definition isWS (t : token) : bool :=
  match t with WhiteSpace _ => true | Other _ => false end.

(** The tokens left once the white space at both ends is dropped. *)
Definition core (l : list token) : list token :=
  rev (dropWhiteSpace (rev (dropWhiteSpace l))).

(** [String.prototype.trimStart] and [String.prototype.trim]. *)
Definition trimStart (s : string) : string :=
  untokens (dropWhiteSpace (tokens s)).

Definition trim (s : string) : string :=
  untokens (rev (dropWhiteSpace (rev (dropWhiteSpace (tokens s))))).

(** *** Numbers as text *)

Definition digitChar (d : Z) : ascii := char (48 + d).

Fixpoint digitsOf (fuel : nat) (n : Z) (acc : string) : string :=
  match fuel with
  | O => acc
  | S fuel' =>
      let acc' := String (digitChar (n mod 10)) acc in
      if n / 10 =? 0 then acc' else digitsOf fuel' (n / 10) acc'
  end.

(** [Number.MAX_SAFE_INTEGER]: up to it every integer is a JavaScript number
    and [+ 1] is exact. *)
Definition MAX_SAFE_INTEGER : Z := 2 ^ 53 - 1.

(** [Number::toString] on an integer: the decimal numeral, with a leading
    [-] below zero.  JavaScript prints an integer this way below 10^21 and
    with an exponent from there on, and the integers that are numbers
    without rounding are those up to [MAX_SAFE_INTEGER] on either side of
    zero: this is the range in which the definition is [Number::toString],
    and the statements about the pages keep their numbers in it. *)
Definition Number_toString (n : Z) : string :=
  if n <? 0
  then String "-" (digitsOf (S (Z.to_nat (Z.log2 (- n)))) (- n) EmptyString)
  else digitsOf (S (Z.to_nat (Z.log2 n))) n EmptyString.

(** A decimal digit, and a string of decimal digits. *)
Definition isDigit (c : ascii) : bool := (48 <=? code c) && (code c <=? 57).

Definition isNumeral (s : string) : Prop :=
  forall c, In c (list_ascii_of_string s) -> isDigit c = true.

(** The value of a character as a digit of a radix up to 36. *)
Definition digitValue (c : ascii) : option Z :=
  let k := code c in
  if (48 <=? k) && (k <=? 57) then Some (k - 48)
  else if (97 <=? k) && (k <=? 122) then Some (k - 87)
  else if (65 <=? k) && (k <=? 90) then Some (k - 55)
  else None.

(** The longest prefix of digits of radix [R], read as a number; [acc] is
    [None] as long as no digit was read. *)
Fixpoint parseDigits (R : Z) (s : string) (acc : option Z) : option Z :=
  match s with
  | EmptyString => acc
  | String c rest =>
      match digitValue c with
      | Some d =>
          if d <? R
          then parseDigits R rest
                 (Some (match acc with Some a => a | None => 0 end * R + d))
          else acc
      | None => acc
      end
  end.

(** The sign and the prefix [0x] or [0X] that [parseInt] strips. *)
Definition stripSign (s : string) : Z * string :=
  match s with
  | String c r =>
      if Ascii.eqb c "-" then (-1, r)
      else if Ascii.eqb c "+" then (1, r)
      else (1, s)
  | EmptyString => (1, s)
  end.

Definition stripHexPrefix (s : string) : Z * string :=
  match s with
  | String c1 (String c2 r) =>
      if Ascii.eqb c1 "0" && (Ascii.eqb c2 "x" || Ascii.eqb c2 "X")
      then (16, r) else (10, s)
  | _ => (10, s)
  end.

(** [parseInt (string)] without a radix; [None] is [NaN].  Leading white
    space is skipped, a sign is read, [0x] or [0X] switches to radix 16, and
    the digits that follow are read as far as they go.  The result here is
    the integer the digits denote; the engine gives the nearest double,
    which is that integer up to [MAX_SAFE_INTEGER] on either side of zero,
    a rounded one beyond, and [Infinity] from about 309 digits on.  The
    statements about the pages keep what is read within that range. *)
Definition parseInt (input : string) : option Z :=
  let '(sign, S1) := stripSign (trimStart input) in
  let '(R, S2) := stripHexPrefix S1 in
  match parseDigits R S2 None with
  | None => None
  | Some v => Some (sign * v)
  end.

(** [parseInt] of what [URLSearchParams.get] returns: [null] is first turned
    into the string [null]. *)
Definition parseIntOf (v : option string) : option Z :=
  parseInt (match v with Some s => s | None => "null" end).

(** [n || d] for a number [n]: [NaN] and [0] are falsy. *)
Definition numberOr (n : option Z) (d : Z) : Z :=
  match n with
  | Some v => if v =? 0 then d else v
  | None => d
  end.

(** [s || ''] for what [URLSearchParams.get] returns. *)
Definition stringOrEmpty (v : option string) : string :=
  match v with
  | Some s => s
  | None => EmptyString
  end.

(** [parseInt (string, 10)]: as [parseInt], but [0x] does not switch the
    radix, so the digits end at the [x].  As for [parseInt], the result is
    the engine's up to [MAX_SAFE_INTEGER] on either side of zero. *)
Definition parseInt10 (input : string) : option Z :=
  let '(sign, S1) := stripSign (trimStart input) in
  match parseDigits 10 S1 None with
  | None => None
  | Some v => Some (sign * v)
  end.

(** [String.prototype.includes]. *)
Fixpoint includes (needle s : string) : bool :=
  prefix needle s
  || match s with
     | EmptyString => false
     | String _ rest => includes needle rest
     end.

(** *** Values

    What [response.json ()] yields and what is posted: JSON data, and
    [undefined] for what is absent.  Numbers are integers. *)
Inductive JSValue : Type :=
| JUndefined
| JNull
| JBool (b : bool)
| JNumber (n : Z)
| JString (s : string)
| JArray (items : list JSValue)
| JObject (fields : list (string * JSValue)).

Fixpoint getField (key : string) (fields : list (string * JSValue)) : JSValue :=
  match fields with
  | [] => JUndefined
  | (k, v) :: rest => if String.eqb k key then v else getField key rest
  end.

(** [obj[key] = v]: an own property keeps its place, a new one is added
    last. *)
Fixpoint setField (key : string) (v : JSValue)
    (fields : list (string * JSValue)) : list (string * JSValue) :=
  match fields with
  | [] => [(key, v)]
  | (k, old) :: rest =>
      if String.eqb k key then (k, v) :: rest
      else (k, old) :: setField key v rest
  end.

(** [v?.key], for the property names the pages read ([message], [code],
    [id]): only an object can own them; on [null] and [undefined] the
    optional chain stops, and strings, numbers, booleans and arrays have no
    such property. *)
Definition optChain (v : JSValue) (key : string) : JSValue :=
  match v with
  | JObject fields => getField key fields
  | _ => JUndefined
  end.

Definition truthyValue (v : JSValue) : bool :=
  match v with
  | JUndefined | JNull => false
  | JBool b => b
  | JNumber n => negb (n =? 0)
  | JString s => truthy s
  | JArray _ | JObject _ => true
  end.

(** [ToString], as a template literal and the [Error] constructor apply it. *)
Fixpoint ToString (v : JSValue) : string :=
  match v with
  | JUndefined => "undefined"
  | JNull => "null"
  | JBool true => "true"
  | JBool false => "false"
  | JNumber n => Number_toString n
  | JString s => s
  | JArray items =>
      (fix joinItems (l : list JSValue) : string :=
         match l with
         | [] => EmptyString
         | x :: rest =>
             let sx := match x with
                       | JUndefined | JNull => EmptyString
                       | _ => ToString x
                       end in
             match rest with
             | [] => sx
             | _ :: _ => (sx ++ String "," (joinItems rest))%string
             end
         end) items
  | JObject _ => "[object Object]"
  end.

(** All of [s] read as digits of radix [R]; [None] when [s] is empty or
    holds another character. *)
Definition parseAllDigits (R : Z) (s : string) : option Z :=
  match s with
  | EmptyString => None
  | String _ _ =>
      (fix go (rest : string) (acc : Z) : option Z :=
         match rest with
         | EmptyString => Some acc
         | String c rest' =>
             match digitValue c with
             | Some d => if d <? R then go rest' (acc * R + d) else None
             | None => None
             end
         end) s 0
  end.

(** [StringToNumber] on the numerals that denote an integer: white space
    around is dropped, the empty string is [0], then a signed decimal
    numeral or an unsigned [0x], [0o] or [0b] one.  [None] is [NaN].  The
    numbers of this model are the integers: a numeral with a fraction or an
    exponent, and [Infinity], are outside it. *)
Definition StringToNumber (s : string) : option Z :=
  match trim s with
  | EmptyString => Some 0
  | String "0" (String "x" r) | String "0" (String "X" r) => parseAllDigits 16 r
  | String "0" (String "o" r) | String "0" (String "O" r) => parseAllDigits 8 r
  | String "0" (String "b" r) | String "0" (String "B" r) => parseAllDigits 2 r
  | String "-" r => option_map Z.opp (parseAllDigits 10 r)
  | String "+" r => parseAllDigits 10 r
  | r => parseAllDigits 10 r
  end.

(** [ToNumber]; arrays and objects go through their string. *)
Definition ToNumber (v : JSValue) : option Z :=
  match v with
  | JUndefined => None
  | JNull => Some 0
  | JBool b => Some (if b then 1 else 0)
  | JNumber n => Some n
  | JString s => StringToNumber s
  | JArray _ => StringToNumber (ToString v)
  | JObject _ => None
  end.

(** [n <= v] for a number [n]: false when [v] is [NaN]. *)
Definition lessEq (n : Z) (v : JSValue) : bool :=
  match ToNumber v with
  | Some m => n <=? m
  | None => false
  end.

(** [a || b]. *)
Definition valueOr (a b : JSValue) : JSValue :=
  if truthyValue a then a else b.

(** The string cut at its code points (a lead byte and the continuation
    bytes after it): what spreading a string yields. *)
Definition isContinuation (c : ascii) : bool :=
  (128 <=? code c) && (code c <=? 191).

Fixpoint codePoints (s : string) : list string :=
  match s with
  | EmptyString => []
  | String c rest =>
      match codePoints rest with
      | h :: tl =>
          match h with
          | String c' _ =>
              if isContinuation c' then String c h :: tl
              else str1 c :: h :: tl
          | EmptyString => str1 c :: tl
          end
      | [] => [str1 c]
      end
  end.

(** [s.length], the number of UTF-16 code units: one for each character,
    two for a character that takes four bytes. *)
Fixpoint utf16Length (s : string) : Z :=
  match s with
  | EmptyString => 0
  | String c rest =>
      (if isContinuation c then 0 else if 240 <=? code c then 2 else 1)
      + utf16Length rest
  end.

(** [a === b] against a number literal. *)
Definition strictEqualsNumber (v : JSValue) (n : Z) : bool :=
  match v with
  | JNumber m => m =? n
  | _ => false
  end.

End JS.

(** ** Control: what a handler does, and asynchronous calls that may throw *)

Module Control.

(** What a handler does to the outside: the state setters it calls, the
    dialogs it opens and the navigation it asks for, in program order. *)
Inductive Effect : Type :=
| SetPage (n : Z)
| SetPageSize (n : Z)
| SetSearchName (s : string)
| SetFilter (s : string)
| SetFormData (fields : list (string * string))
| SetErrors (errors : list (string * string))
| SetResourceId (ids : list JS.JSValue)
| SetSelectedId (s : string)
| SwalFire (title text icon : string)
| Navigate (to : string).

Definition isNavigate (e : Effect) : bool :=
  match e with Navigate _ => true | _ => false end.

Definition isSwalFire (e : Effect) : bool :=
  match e with SwalFire _ _ _ => true | _ => false end.

(** A computation ends by returning or by throwing. *)
Inductive Result (E A : Type) : Type :=
| Returned (a : A)
| Threw (e : E).

Arguments Returned {E A} a.
Arguments Threw {E A} e.

(** Calls that await the network: the log of the requests issued so far is
    threaded through, and an exception ends the computation. *)
Definition M (L E A : Type) : Type := list L -> Result E A * list L.

Definition ret {L E A : Type} (a : A) : M L E A :=
  fun log => (Returned a, log).

Definition throw {L E A : Type} (e : E) : M L E A :=
  fun log => (Threw e, log).

Definition bind {L E A B : Type} (m : M L E A) (k : A -> M L E B) : M L E B :=
  fun log =>
    match m log with
    | (Returned a, log') => k a log'
    | (Threw e, log') => (Threw e, log')
    end.

(** [try { m } catch (error) { handler error }]. *)
Definition tryCatch {L E A : Type} (m : M L E A) (handler : E -> M L E A)
  : M L E A :=
  fun log =>
    match m log with
    | (Returned a, log') => (Returned a, log')
    | (Threw e, log') => handler e log'
    end.

Declare Scope control_scope.
Delimit Scope control_scope with control.

Notation "x <- m ;; k" := (bind m (fun x => k))
  (at level 61, m at next level, right associativity) : control_scope.

End Control.

(** ** URLSearchParams (URL standard, application/x-www-form-urlencoded) *)

Module URLSearchParams.

Import JS.

(** The list of name-value tuples of the object. *)
Definition t : Type := list (string * string).

Definition empty : t := [].

Fixpoint get (name : string) (l : t) : option string :=
  match l with
  | [] => None
  | (n, v) :: rest => if String.eqb n name then Some v else get name rest
  end.

Definition has (name : string) (l : t) : bool :=
  existsb (fun p => String.eqb (fst p) name) l.

(** [set]: the first tuple of that name takes the value and the others of
    that name go; without one, the tuple is appended. *)
Fixpoint set (name value : string) (l : t) : t :=
  match l with
  | [] => [(name, value)]
  | (n, v) :: rest =>
      if String.eqb n name
      then (n, value) :: filter (fun p => negb (String.eqb (fst p) name)) rest
      else (n, v) :: set name value rest
  end.

Definition hexDigit (n : Z) : ascii :=
  if n <? 10 then char (48 + n) else char (55 + n).

Definition hexValue (c : ascii) : option Z :=
  match digitValue c with
  | Some d => if d <? 16 then Some d else None
  | None => None
  end.

(** Bytes the serializer leaves as they are: ASCII alphanumerics and
    [*], [-], [.], [_]. *)
Definition isPlain (c : ascii) : bool :=
  let k := code c in
  ((48 <=? k) && (k <=? 57)) || ((65 <=? k) && (k <=? 90))
  || ((97 <=? k) && (k <=? 122))
  || (k =? 42) || (k =? 45) || (k =? 46) || (k =? 95).

Fixpoint percentEncode (s : string) : string :=
  match s with
  | EmptyString => EmptyString
  | String c rest =>
      if code c =? 32 then String "+" (percentEncode rest)
      else if isPlain c then String c (percentEncode rest)
      else String "%" (String (hexDigit (code c / 16))
                         (String (hexDigit (code c mod 16)) (percentEncode rest)))
  end.

Definition serializeTuple (p : string * string) : string :=
  percentEncode (fst p) ++ String "=" (percentEncode (snd p)).

Fixpoint join (sep : ascii) (parts : list string) : string :=
  match parts with
  | [] => EmptyString
  | [p] => p
  | p :: rest => p ++ String sep (join sep rest)
  end.

(** [toString]: the serializer. *)
Definition toString (l : t) : string := join "&" (map serializeTuple l).

Fixpoint splitOn (sep : ascii) (s : string) : list string :=
  match s with
  | EmptyString => [EmptyString]
  | String c rest =>
      if Ascii.eqb c sep then EmptyString :: splitOn sep rest
      else
        match splitOn sep rest with
        | [] => [str1 c]
        | h :: tl => String c h :: tl
        end
  end.

(** Name and value of one sequence: cut at the first [=]; without one the
    value is empty. *)
Fixpoint splitFirst (sep : ascii) (s : string) : string * string :=
  match s with
  | EmptyString => (EmptyString, EmptyString)
  | String c rest =>
      if Ascii.eqb c sep then (EmptyString, rest)
      else let '(n, v) := splitFirst sep rest in (String c n, v)
  end.

Fixpoint plusToSpace (s : string) : string :=
  match s with
  | EmptyString => EmptyString
  | String c rest =>
      String (if Ascii.eqb c "+" then " "%char else c) (plusToSpace rest)
  end.

(** Percent-decoding, byte by byte; an escape that is not two hexadecimal
    digits stays as it is.  A string is held as its UTF-8 bytes, so the
    decoded bytes are the decoded text whenever they are UTF-8; where they
    are not, the parser puts U+FFFD, which these bytes do not show. *)
Fixpoint percentDecode (s : string) : string :=
  match s with
  | EmptyString => EmptyString
  | String c r1 =>
      if Ascii.eqb c "%" then
        match r1 with
        | String h (String l r3) =>
            match hexValue h, hexValue l with
            | Some a, Some b => String (char (16 * a + b)) (percentDecode r3)
            | _, _ => String c (percentDecode r1)
            end
        | _ => String c (percentDecode r1)
        end
      else String c (percentDecode r1)
  end.

Definition parseTuple (bytes : string) : string * string :=
  let '(n, v) := splitFirst "=" bytes in
  (percentDecode (plusToSpace n), percentDecode (plusToSpace v)).

(** The parser: sequences between [&], the empty ones skipped. *)
Definition parse (input : string) : t :=
  map parseTuple (filter truthy (splitOn "&" input)).

(** No byte of [s] is [sep]. *)
Definition noneOf (sep : ascii) (s : string) : Prop :=
  forall c, In c (list_ascii_of_string s) -> c <> sep.

(** [new URLSearchParams (init)] for a string: one leading [?] is dropped. *)
Definition ofString (init : string) : t :=
  match init with
  | String "?" rest => parse rest
  | _ => parse init
  end.

End URLSearchParams.

(** ** The list views: Pages/Habitats/Habitats.jsx, Pages/Species/Species.jsx *)

Module ListView.

Import JS Control.

(** The [useState] cells of a list view that the address bar restores. *)
Record State : Type := mkState {
  page : Z;
  pageSize : Z;
  searchName : string;
  filter : string
}.

(** The object handed to [updateURL]; [None] is a property left out. *)
Module ParamObj.
Record t : Type := make {
  name : option string;
  filter : option string;
  page : Z;
  pageSize : Z
}.
End ParamObj.

(** [if (paramObj.name)]: the property is there and is not empty. *)
Definition given (v : option string) : bool :=
  match v with
  | Some s => truthy s
  | None => false
  end.

(** The effect on [location.search], shared word for word by the two pages:
    the four values read from the query and handed to the state setters. *)
Definition readLocationSearch (search : string) : State :=
  let params := URLSearchParams.ofString search in
  let queryPage := numberOr (parseIntOf (URLSearchParams.get "page" params)) 1 in
  let querySize := numberOr (parseIntOf (URLSearchParams.get "pageSize" params)) 5 in
  let queryName := stringOrEmpty (URLSearchParams.get "name" params) in
  let queryFilter := stringOrEmpty (URLSearchParams.get "filter" params) in
  {| page := queryPage; pageSize := querySize;
     searchName := queryName; filter := queryFilter |}.

(** The object the pages build from their state for a page click,
    [{ name: searchName, filter, page, pageSize }]. *)
Definition paramsOf (st : State) : ParamObj.t :=
  {| ParamObj.name := Some (searchName st);
     ParamObj.filter := Some (filter st);
     ParamObj.page := page st;
     ParamObj.pageSize := pageSize st |}.

Definition isLetterOrDigit (c : ascii) : bool :=
  let k := code c in
  ((48 <=? k) && (k <=? 57)) || ((65 <=? k) && (k <=? 90))
  || ((97 <=? k) && (k <=? 122)).

(** One character of the class [[A-Za-z0-9\s\-']]. *)
Definition allowedToken (t : token) : bool :=
  match t with
  | WhiteSpace _ => true
  | Other c => isLetterOrDigit c || (code c =? 45) || (code c =? 39)
  end.

(** [validPattern.test (s)] for [/^[A-Za-z0-9\s\-']+$/]: one character or
    more, all of the class. *)
Definition validPattern_test (s : string) : bool :=
  match tokens s with
  | [] => false
  | ts => forallb allowedToken ts
  end.

Definition invalidInputNotice : Effect :=
  SwalFire "Invalid input"
    "Allowed characters: letters, numbers, spaces, hyphens, apostrophes."
    "info".

End ListView.

Module Habitats.

Import JS Control ListView.

(** The argument [updateURL] builds for [navigate]: [?] followed by the
    serialized parameters.  The router makes that string [location.search]. *)
Definition updateURL_target (paramObj : ParamObj.t) : string :=
  let params := URLSearchParams.empty in
  let params :=
    if given (ParamObj.filter paramObj)
    then URLSearchParams.set "filter" (stringOrEmpty (ParamObj.filter paramObj)) params
    else params in
  let params :=
    if given (ParamObj.name paramObj)
    then URLSearchParams.set "name" (stringOrEmpty (ParamObj.name paramObj)) params
    else params in
  let params :=
    URLSearchParams.set "page" (Number_toString (ParamObj.page paramObj)) params in
  let params :=
    URLSearchParams.set "pageSize" (Number_toString (ParamObj.pageSize paramObj)) params in
  String "?" (URLSearchParams.toString params).

Definition updateURL (paramObj : ParamObj.t) : Effect :=
  Navigate (updateURL_target paramObj).

Definition handleSearchSubmit (st : State) : list Effect :=
  if negb (truthy (trim (searchName st)))
  then [SwalFire "Error" "Please enter a search term." "error"]
  else if negb (validPattern_test (searchName st))
  then [invalidInputNotice]
  else [updateURL {| ParamObj.name := Some (searchName st);
                     ParamObj.filter := Some (filter st);
                     ParamObj.page := 1;
                     ParamObj.pageSize := pageSize st |}].

Definition handleClearSearch (st : State) : list Effect :=
  [SetSearchName EmptyString; SetFilter EmptyString; SetPage 1;
   updateURL {| ParamObj.name := None; ParamObj.filter := None;
                ParamObj.page := 1; ParamObj.pageSize := pageSize st |};
   SwalFire "Cleared" "Search reset. Displaying all habitats." "success"].

Definition handlePageChange (st : State) (newPage : Z) : list Effect :=
  [SetPage newPage;
   updateURL {| ParamObj.name := Some (searchName st);
                ParamObj.filter := Some (filter st);
                ParamObj.page := newPage;
                ParamObj.pageSize := pageSize st |}].

Definition handlePageSizeChange (st : State) (newPageSize : Z) : list Effect :=
  [SetPageSize newPageSize; SetPage 1;
   updateURL {| ParamObj.name := Some (searchName st);
                ParamObj.filter := Some (filter st);
                ParamObj.page := 1;
                ParamObj.pageSize := newPageSize |}].

End Habitats.

Module Species.

Import JS Control ListView.

(** As in the habitats page, with [name] set before [filter]. *)
Definition updateURL_target (paramsObj : ParamObj.t) : string :=
  let params := URLSearchParams.empty in
  let params :=
    if given (ParamObj.name paramsObj)
    then URLSearchParams.set "name" (stringOrEmpty (ParamObj.name paramsObj)) params
    else params in
  let params :=
    if given (ParamObj.filter paramsObj)
    then URLSearchParams.set "filter" (stringOrEmpty (ParamObj.filter paramsObj)) params
    else params in
  let params :=
    URLSearchParams.set "page" (Number_toString (ParamObj.page paramsObj)) params in
  let params :=
    URLSearchParams.set "pageSize" (Number_toString (ParamObj.pageSize paramsObj)) params in
  String "?" (URLSearchParams.toString params).

Definition updateURL (paramsObj : ParamObj.t) : Effect :=
  Navigate (updateURL_target paramsObj).

Definition handleSearchSubmit (st : State) : list Effect :=
  if negb (truthy (trim (searchName st)))
  then [SwalFire "Info" "Please enter a search term to search." "info"]
  else if negb (validPattern_test (searchName st))
  then [invalidInputNotice]
  else [updateURL {| ParamObj.name := Some (searchName st);
                     ParamObj.filter := Some (filter st);
                     ParamObj.page := 1;
                     ParamObj.pageSize := pageSize st |}].

Definition handleClear (st : State) : list Effect :=
  [SetSearchName EmptyString; SetFilter EmptyString; SetPage 1;
   updateURL {| ParamObj.name := None; ParamObj.filter := None;
                ParamObj.page := 1; ParamObj.pageSize := pageSize st |};
   SwalFire "Cleared" "Search reset. Displaying all species." "success"].

Definition handlePageChange (st : State) (newPage : Z) : list Effect :=
  [SetPage newPage;
   updateURL {| ParamObj.name := Some (searchName st);
                ParamObj.filter := Some (filter st);
                ParamObj.page := newPage;
                ParamObj.pageSize := pageSize st |}].

Definition handlePageSizeChange (st : State) (newSize : Z) : list Effect :=
  [SetPageSize newSize; SetPage 1;
   updateURL {| ParamObj.name := Some (searchName st);
                ParamObj.filter := Some (filter st);
                ParamObj.page := 1;
                ParamObj.pageSize := newSize |}].

End Species.

(** The search gate of a list view, read off its submit handler: [accepted]
    is the test the handler makes, [searchGate] what a handler that obeys it
    does. *)
Module SearchGate.

Import JS Control ListView.

Definition accepted (st : State) : bool :=
  truthy (trim (searchName st)) && validPattern_test (searchName st).

(** The object a submit hands to [updateURL]. *)
Definition submitted (st : State) : ParamObj.t :=
  {| ParamObj.name := Some (searchName st);
     ParamObj.filter := Some (filter st);
     ParamObj.page := 1;
     ParamObj.pageSize := pageSize st |}.

Definition searchGate (handleSearchSubmit : State -> list Effect)
    (updateURL_target : ParamObj.t -> string) (st : State) : Prop :=
  existsb isNavigate (handleSearchSubmit st) = accepted st
  /\ (accepted st = true ->
      handleSearchSubmit st = [Navigate (updateURL_target (submitted st))]
      /\ page (readLocationSearch (updateURL_target (submitted st))) = 1
      /\ searchName (readLocationSearch (updateURL_target (submitted st)))
         = searchName st
      /\ filter (readLocationSearch (updateURL_target (submitted st)))
         = filter st)
  /\ (accepted st = false ->
      exists title text icon,
        handleSearchSubmit st = [SwalFire title text icon])
  /\ (truthy (trim (searchName st)) = true ->
      validPattern_test (searchName st) = false ->
      handleSearchSubmit st = [invalidInputNotice]).

End SearchGate.

(** ** utils/fetchWrapper.js *)

Module FetchWrapper.

Import JS Control.

Local Open Scope string_scope.

(** An error object of the platform ([TypeError], [SyntaxError],
    [DOMException]): what [fetch], [response.json ()] and [response.text ()]
    reject with.  It is never an instance of [CustomError]. *)
Module NativeError.
Record t : Type := make {
  name : string;
  message : string
}.
End NativeError.

(** [class CustomError extends Error]; its [name] is always [CustomError]. *)
Module CustomError.
Record t : Type := make {
  message : string;
  statusCode : Z;
  details : JSValue
}.
End CustomError.

(** What a [catch] clause may receive. *)
Inductive Exception : Type :=
| Native (e : NativeError.t)
| Custom (e : CustomError.t).

(** [error instanceof CustomError]. *)
Definition instanceofCustomError (error : Exception) : bool :=
  match error with
  | Custom _ => true
  | Native _ => false
  end.

(** [error.message]. *)
Definition messageOf (error : Exception) : string :=
  match error with
  | Native e => NativeError.message e
  | Custom e => CustomError.message e
  end.

(** The [options] argument of [sendRequest]. *)
Module Options.
Record t : Type := make {
  method : option string;
  headers : list (string * string);
  body : JSValue
}.
End Options.

(** The second argument of [fetch].  [body] holds the value whose JSON text
    [JSON.stringify] produces ([None] is [null]); a [JSValue] is a finite
    tree of plain data, on which [JSON.stringify] does not throw. *)
Module FetchOptions.
Record t : Type := make {
  method : string;
  headers : list (string * string);
  body : option JSValue
}.
End FetchOptions.

Record Request : Type := mkRequest {
  url : string;
  init : FetchOptions.t
}.

(** The [Response] a resolved [fetch] gives: [contentType] is
    [headers.get ('Content-Type')], [json] and [text] are what reading the
    body that way settles to. *)
Module Response.
Record t : Type := make {
  ok : bool;
  status : Z;
  statusText : string;
  contentType : option string;
  json : Result NativeError.t JSValue;
  text : Result NativeError.t string
}.
End Response.

(** The network and the server behind it: the outcome of a [fetch], which
    may depend on the requests issued before. *)
Definition Network : Type :=
  list Request -> Request -> Result NativeError.t Response.t.

(** [{ ...defaults, ...extra }] on header objects. *)
Fixpoint setHeader (k v : string) (h : list (string * string))
  : list (string * string) :=
  match h with
  | [] => [(k, v)]
  | (k', v') :: rest =>
      if String.eqb k' k then (k', v) :: rest
      else (k', v') :: setHeader k v rest
  end.

Definition spread (defaults extra : list (string * string))
  : list (string * string) :=
  fold_left (fun acc kv => setHeader (fst kv) (snd kv) acc) extra defaults.

(** [isJSON]: the content type is there and includes [application/json]. *)
Definition isJSON (response : Response.t) : bool :=
  match Response.contentType response with
  | Some contentType => includes "application/json" contentType
  | None => false
  end.

(** What [responseData] settles to: the body read as JSON when [isJSON], as
    text otherwise. *)
Definition readResponseData (response : Response.t)
  : Result NativeError.t JSValue :=
  if isJSON response then Response.json response
  else
    match Response.text response with
    | Returned txt => Returned (JString txt)
    | Threw e => Threw e
    end.

(** [responseData?.message || response.statusText || 'Unknown error'], as
    the [Error] constructor stores it. *)
Definition failureMessage (responseData : JSValue) (response : Response.t)
  : string :=
  if truthyValue (optChain responseData "message")
  then ToString (optChain responseData "message")
  else if truthy (Response.statusText response)
  then Response.statusText response
  else "Unknown error".

(** The [CustomError] of the [catch] clause around a platform error. *)
Definition wrapped (error : Exception) : CustomError.t :=
  {| CustomError.message :=
       if truthy (messageOf error) then messageOf error else "Network Error";
     CustomError.statusCode := 0;
     CustomError.details := JObject [] |}.

(** [fetchOptions] and [url] of [sendRequest]. *)
Definition fetchOptionsOf (options : Options.t) : FetchOptions.t :=
  {| FetchOptions.method :=
       match Options.method options with
       | Some m => if truthy m then m else "GET"
       | None => "GET"
       end;
     FetchOptions.headers :=
       spread [("Content-Type", "application/json"); ("Accept", "application/json")]
         (Options.headers options);
     FetchOptions.body :=
       if truthyValue (Options.body options)
       then Some (Options.body options) else None |}.

Definition requestOf (baseURL uri : string) (options : Options.t) : Request :=
  {| url := baseURL ++ uri; init := fetchOptionsOf options |}.

Section WithNetwork.

Variable network : Network.
Variable baseURL : string.

Local Open Scope control_scope.

(** [await fetch (url, fetchOptions)]: the request joins the log. *)
Definition fetch (url : string) (fetchOptions : FetchOptions.t)
  : M Request Exception Response.t :=
  fun log =>
    let request := {| url := url; init := fetchOptions |} in
    (match network log request with
     | Returned response => Returned response
     | Threw e => Threw (Native e)
     end, (log ++ [request])%list).

(** [await response.json ()] and [await response.text ()]. *)
Definition readBody {A : Type} (settled : Result NativeError.t A)
  : M Request Exception A :=
  match settled with
  | Returned a => ret a
  | Threw e => throw (Native e)
  end.

(** [sendRequest], lines 48-91; the [console.log] of the URL is left out. *)
Definition sendRequest (uri : string) (options : Options.t)
  : M Request Exception JSValue :=
  let fetchOptions := fetchOptionsOf options in
  let url := baseURL ++ uri in
  tryCatch
    (response <- fetch url fetchOptions ;;
     responseData <- readBody (readResponseData response) ;;
     if negb (Response.ok response)
     then
       throw (Custom
         {| CustomError.message := failureMessage responseData response;
            CustomError.statusCode := Response.status response;
            CustomError.details := responseData |})
     else ret responseData)
    (fun error =>
       if negb (instanceofCustomError error)
       then throw (Custom (wrapped error))
       else throw error).

Definition get (uri : string) (headers : list (string * string))
  : M Request Exception JSValue :=
  sendRequest uri
    {| Options.method := Some "GET"; Options.headers := headers;
       Options.body := JUndefined |}.

Definition post (uri : string) (body : JSValue) (headers : list (string * string))
  : M Request Exception JSValue :=
  sendRequest uri
    {| Options.method := Some "POST"; Options.headers := headers;
       Options.body := body |}.

Definition put (uri : string) (body : JSValue) (headers : list (string * string))
  : M Request Exception JSValue :=
  sendRequest uri
    {| Options.method := Some "PUT"; Options.headers := headers;
       Options.body := body |}.

(** [delete]; the name is kept apart from the keyword-like [delete] of
    other libraries. *)
Definition delete (uri : string) (body : JSValue) (headers : list (string * string))
  : M Request Exception JSValue :=
  sendRequest uri
    {| Options.method := Some "DELETE"; Options.headers := headers;
       Options.body := body |}.

End WithNetwork.

End FetchWrapper.

(** ** Pages/DeleteResource/DeleteResource.jsx *)

Module DeleteResource.

Import JS Control FetchWrapper.

Local Open Scope string_scope.
Local Open Scope control_scope.

(** What the engine throws on [undefined.map (...)] or on a property read
    from [null]; no handler reads its message. *)
Definition typeError : Exception :=
  Native {| NativeError.name := "TypeError"; NativeError.message := EmptyString |}.

(** [item.key] on an element of [res.data]. *)
Definition readProperty (key : string) (item : JSValue)
  : Result Exception JSValue :=
  match item with
  | JUndefined | JNull => Threw typeError
  | _ => Returned (optChain item key)
  end.

(** [array.map (item => item.key)]. *)
Fixpoint mapProperty (key : string) (items : list JSValue)
  : Result Exception (list JSValue) :=
  match items with
  | [] => Returned []
  | item :: rest =>
      match readProperty key item with
      | Threw e => Threw e
      | Returned v =>
          match mapProperty key rest with
          | Threw e => Threw e
          | Returned vs => Returned (v :: vs)
          end
      end
  end.

Definition lift {A : Type} (r : Result Exception A) : M Request Exception A :=
  match r with
  | Returned a => ret a
  | Threw e => throw e
  end.

(** [resourceType === 'habitats' ? item.habitat_id : item.species_id]: the
    property read. *)
Definition idKey (resourceType : string) : string :=
  if String.eqb resourceType "habitats" then "habitat_id" else "species_id".

(** [res.metadata?.total_pages || 1]. *)
Definition totalPagesOf (res : JSValue) : JSValue :=
  valueOr (optChain (optChain res "metadata") "total_pages") (JNumber 1).

Section WithNetwork.

Variable network : Network.

Definition baseURL : string := "http://localhost/species-api".

Definition pageURI (resourceType : string) (page : Z) : string :=
  "/" ++ resourceType ++ "?page=" ++ Number_toString page ++ "&pageSize=20".

(** The [do ... while (page <= totalPages)] of [fetchIds], entered at the
    top of its body.  [None] is returned when [fuel] rounds did not bring the
    loop to its exit. *)
Fixpoint drain (fuel : nat) (resourceType : string) (allIds : list JSValue)
    (page : Z) : M Request Exception (option (list JSValue)) :=
  match fuel with
  | O => ret None
  | S fuel' =>
      res <- get network baseURL (pageURI resourceType page) [] ;;
      ids <- lift
        match optChain res "data" with
        | JArray items => mapProperty (idKey resourceType) items
        | _ => Threw typeError
        end ;;
      let allIds := (allIds ++ ids)%list in
      let totalPages := totalPagesOf res in
      let page := page + 1 in
      if lessEq page totalPages
      then drain fuel' resourceType allIds page
      else ret (Some allIds)
  end.

Definition fetchIds (fuel : nat) (resourceType : string)
  : M Request Exception (option (list Effect)) :=
  tryCatch
    (r <- drain fuel resourceType [] 1 ;;
     ret (option_map
            (fun allIds => [SetResourceId allIds; SetSelectedId EmptyString]) r))
    (fun error =>
       ret (Some [SwalFire "Error"
                    ("Could not load " ++ resourceType ++ " IDs") "error"])).

End WithNetwork.

End DeleteResource.

(** ** Pages/CreateResource/CreateResource.jsx *)

Module CreateResource.

Import JS Control FetchWrapper.

Local Open Scope string_scope.
Local Open Scope control_scope.

Definition dquote : string := str1 (char 34).

(** [[...all, ...res.data]]: an array is spread into its elements, a string
    into its characters, and nothing else here can be spread. *)
Definition spreadValue (v : JSValue) : Result Exception (list JSValue) :=
  match v with
  | JArray items => Returned items
  | JString s => Returned (map JString (codePoints s))
  | _ => Threw DeleteResource.typeError
  end.

(** [err?.details] and [err?.message] on what the [catch] receives. *)
Definition detailsOf (err : Exception) : JSValue :=
  match err with
  | Custom e => CustomError.details e
  | Native _ => JUndefined
  end.

(** [parseInt (parsedData.key, 10)] as it is posted: [NaN] is written
    [null] by [JSON.stringify]. *)
Definition parsedNumber (key : string) (parsedData : list (string * JSValue))
  : JSValue :=
  match parseInt10 (ToString (getField key parsedData)) with
  | Some n => JNumber n
  | None => JNull
  end.

(** *** The field check, [validate] *)

Definition habitatFields : list string :=
  ["habitat_id"; "name"; "climate"; "location"; "long_range"; "lat_range";
   "description"].

Definition speciesFields : list string :=
  ["species_id"; "common_name"; "description"; "name_of_offspring";
   "group_behaviour"; "gestation_period"; "breeding_season";
   "num_of_offspring"; "average_lifespan"; "diet_id"; "habitat_id";
   "classification_id"].

Definition fieldsOf (resourceType : string) : list string :=
  if String.eqb resourceType "habitat" then habitatFields else speciesFields.

(** [formData[name]]. *)
Fixpoint formValue (name : string) (formData : list (string * string))
  : option string :=
  match formData with
  | [] => None
  | (k, v) :: rest => if String.eqb k name then Some v else formValue name rest
  end.

(** A letter matched under the flag [i]: [upper] or its lower case. *)
Definition ciLetter (upper c : ascii) : bool :=
  (code c =? code upper)%Z || (code c =? code upper + 32)%Z.

Definition isLetter (c : ascii) : bool :=
  ((65 <=? code c) && (code c <=? 90))%Z || ((97 <=? code c) && (code c <=? 122))%Z.

Fixpoint allOf (p : ascii -> bool) (s : string) : bool :=
  match s with
  | EmptyString => true
  | String c rest => p c && allOf p rest
  end.

(** [/^XY-\d{3}$/i] for the two letters [X], [Y]. *)
Definition idPattern (X Y : ascii) (value : string) : bool :=
  match value with
  | String a (String b (String h (String d1 (String d2 (String d3 EmptyString))))) =>
      ciLetter X a && ciLetter Y b && Ascii.eqb h "-"
      && isDigit d1 && isDigit d2 && isDigit d3
  | _ => false
  end.

(** [/^[A-Za-z]+$/] and [/^\d+$/]. *)
Definition lettersOnly (value : string) : bool :=
  truthy value && allOf isLetter value.

Definition digitsOnly (value : string) : bool :=
  truthy value && allOf isDigit value.

Fixpoint skipDigits (s : string) : string :=
  match s with
  | EmptyString => EmptyString
  | String c rest => if isDigit c then skipDigits rest else s
  end.

(** [\d+] at the head of [s]: what follows it. *)
Definition afterDigits (s : string) : option string :=
  match s with
  | String c rest => if isDigit c then Some (skipDigits rest) else None
  | EmptyString => None
  end.

(** [/^\d+[XY] to \d+[XY]$/i] for the two letters [X], [Y]. *)
Definition rangePattern (X Y : ascii) (value : string) : bool :=
  match afterDigits value with
  | Some (String l (String sp1 (String t (String o (String sp2 rest))))) =>
      (ciLetter X l || ciLetter Y l)
      && Ascii.eqb sp1 " " && ciLetter "T" t && ciLetter "O" o
      && Ascii.eqb sp2 " "
      && match afterDigits rest with
         | Some (String l' EmptyString) => ciLetter X l' || ciLetter Y l'
         | _ => false
         end
  | _ => false
  end.

(** The [switch] on the field name: the message stored for a value that is
    not empty, if any. *)
Definition fieldError (name value : string) : option string :=
  let unless (ok : bool) (message : string) :=
    if ok then None else Some message in
  if String.eqb name "habitat_id" then
    unless (idPattern "H" "A" value) "Habitat ID must be in the format HA-###"
  else if String.eqb name "name" then
    unless (negb (utf16Length value <? 1)%Z) "Name must not be empty"
  else if String.eqb name "climate" then
    unless (lettersOnly value) "Climate must contain only letters"
  else if String.eqb name "long_range" then
    unless (rangePattern "E" "W" value)
      ("Longitude range must be like " ++ dquote ++ "30E to 45W" ++ dquote)
  else if String.eqb name "lat_range" then
    unless (rangePattern "N" "S" value)
      ("Latitude range must be like " ++ dquote ++ "20N to 40S" ++ dquote)
  else if String.eqb name "description" then
    unless (negb (utf16Length value <? 10)%Z)
      "Description must be at least 10 characters long"
  else if String.eqb name "species_id" then
    unless (idPattern "S" "P" value) "Species ID must be in the format SP-###"
  else if String.eqb name "common_name" then
    unless (negb ((utf16Length value <? 1)%Z || (255 <? utf16Length value)%Z))
      ("Common name must be 1"
       ++ String (char 195) (String (char 162) (String (char 226)
            (String (char 130) (String (char 172) (String (char 226)
            (String (char 128) (String (char 156) EmptyString)))))))
       ++ "255 characters long")
  else if String.eqb name "name_of_offspring" then
    unless (negb (255 <? utf16Length value)%Z)
      "Name of offspring must be 255 characters max"
  else if String.eqb name "group_behaviour" then
    unless (negb (32 <? utf16Length value)%Z)
      "Group behaviour must be 32 characters max"
  else if String.eqb name "gestation_period" then
    unless (negb (32 <? utf16Length value)%Z)
      "Gestation period must be 32 characters max"
  else if String.eqb name "breeding_season" then
    unless (negb (16 <? utf16Length value)%Z)
      "Breeding season must be 16 characters max"
  else if String.eqb name "num_of_offspring" || String.eqb name "average_lifespan" then
    unless (digitsOnly value) "Must be an integer"
  else if String.eqb name "diet_id" then
    unless (idPattern "D" "I" value) "Diet ID must be in the format DI-###"
  else if String.eqb name "classification_id" then
    unless (idPattern "C" "L" value)
      "Classification ID must be in the format CL-###"
  else None.

(** One round of [fields.forEach]: the error stored for the field, if any.
    [value] is [formData[name]?.toString ().trim () || '']. *)
Definition checkField (formData : list (string * string)) (name : string)
  : list (string * string) :=
  let value :=
    match formValue name formData with
    | Some v => trim v
    | None => EmptyString
    end in
  if negb (truthy value) then [(name, "This field is required")]
  else
    match fieldError name value with
    | Some message => [(name, message)]
    | None => []
    end.

(** [newErrors] at the end of [validate], in the order of the fields. *)
Definition validate (resourceType : string) (formData : list (string * string))
  : list (string * string) :=
  flat_map (checkField formData) (fieldsOf resourceType).

(** [Object.keys (newErrors).length === 0], what [validate] returns. *)
Definition noErrors (newErrors : list (string * string)) : bool :=
  match newErrors with
  | [] => true
  | _ :: _ => false
  end.

Section WithNetwork.

Variable network : Network.

Definition baseURL : string := "http://localhost/species-api".

Definition pageURI (endpoint : string) (page : Z) : string :=
  endpoint ++ "?page=" ++ Number_toString page ++ "&pageSize=20".

(** [fetchAllIds], the loop of [fetchDropdownData]. *)
Fixpoint fetchAllIds_loop (fuel : nat) (endpoint : string) (all : list JSValue)
    (page : Z) : M Request Exception (option (list JSValue)) :=
  match fuel with
  | O => ret None
  | S fuel' =>
      res <- get network baseURL (pageURI endpoint page) [] ;;
      data <- DeleteResource.lift (spreadValue (optChain res "data")) ;;
      let all := (all ++ data)%list in
      let totalPages := DeleteResource.totalPagesOf res in
      let page := page + 1 in
      if lessEq page totalPages
      then fetchAllIds_loop fuel' endpoint all page
      else ret (Some all)
  end.

Definition fetchAllIds (fuel : nat) (endpoint : string)
  : M Request Exception (option (list JSValue)) :=
  fetchAllIds_loop fuel endpoint [] 1.

(** [diets.map (d => d.diet_id)] and its two siblings. *)
Definition idsOf (key : string) (records : list JSValue)
  : Result Exception (list JSValue) :=
  DeleteResource.mapProperty key records.

(** [endpoint] and [parsedData] of [handleSubmit]. *)
Definition endpointOf (resourceType : string) : string :=
  if String.eqb resourceType "habitat" then "/habitats" else "/species".

Definition parsedDataOf (resourceType : string)
    (formData : list (string * string)) : list (string * JSValue) :=
  let parsedData := map (fun kv => (fst kv, JString (snd kv))) formData in
  if String.eqb resourceType "species"
  then
    let withOffspring :=
      setField "num_of_offspring"
        (parsedNumber "num_of_offspring" parsedData) parsedData in
    setField "average_lifespan"
      (parsedNumber "average_lifespan" withOffspring) withOffspring
  else parsedData.

(** The two dialogs of the [catch] clause. *)
Definition duplicateNotice (duplicateId : JSValue) : Effect :=
  SwalFire "Duplicate ID"
    ("A record with ID " ++ dquote ++ ToString duplicateId ++ dquote
     ++ " already exists.")
    "warning".

Definition genericNotice (err : Exception) : Effect :=
  SwalFire "Error"
    (if truthy (messageOf err) then messageOf err else "Something went wrong.")
    "error".

(** [handleSubmit]: [validate ()] stores the field errors and, when there
    are some, nothing is sent. *)
Definition handleSubmit (resourceType : string)
    (formData : list (string * string))
  : M Request Exception (list Effect) :=
  let newErrors := validate resourceType formData in
  if negb (noErrors newErrors) then ret [SetErrors newErrors]
  else
    effects <-
    tryCatch
      (let endpoint := endpointOf resourceType in
       let parsedData := parsedDataOf resourceType formData in
       _ <- post network baseURL endpoint (JArray [JObject parsedData]) [] ;;
       ret [SwalFire "Success" (resourceType ++ " created successfully!") "success";
            SetFormData []])
      (fun err =>
         let code := optChain (detailsOf err) "code" in
         let duplicateId := optChain (detailsOf err) "id" in
         if strictEqualsNumber code 23000
         then ret [duplicateNotice duplicateId]
         else ret [genericNotice err]) ;;
    ret (SetErrors newErrors :: effects).

End WithNetwork.

End CreateResource.

(** ** A collection served page by page, and sample servers *)

Module PagedServer.

Import JS Control FetchWrapper.

Local Open Scope string_scope.

(** The request [api.get (uri)] sends. *)
Definition getRequest (uri : string) : Request :=
  requestOf DeleteResource.baseURL uri
    {| Options.method := Some "GET"; Options.headers := [];
       Options.body := JUndefined |}.

(** [response] is a successful answer whose body holds the records
    [records] under [data] and the count [N] under
    [metadata.total_pages]. *)
Definition servesPage (response : Response.t)
    (records : list (list (string * JSValue))) (N : Z) : Prop :=
  Response.ok response = true
  /\ exists body,
       readResponseData response = Returned body
       /\ optChain body "data" = JArray (map JObject records)
       /\ optChain (optChain body "metadata") "total_pages" = JNumber N.

(** The server answers the request for page [p] of [endpoint], at page size
    20, with the records [items p] and a constant [total_pages = N]. *)
Definition serves (network : Network) (endpoint : string)
    (items : Z -> list (list (string * JSValue))) (N : Z) : Prop :=
  forall log p, 1 <= p <= N ->
    exists response,
      network log (getRequest (CreateResource.pageURI endpoint p))
      = Returned response
      /\ servesPage response (items p) N.

(** A successful JSON answer. *)
Definition jsonResponse (status : Z) (ok : bool) (statusText : string)
    (body : JSValue) : Response.t :=
  {| Response.ok := ok; Response.status := status;
     Response.statusText := statusText;
     Response.contentType := Some "application/json; charset=utf-8";
     Response.json := Returned body;
     Response.text := Returned EmptyString |}.

Definition pageBody (records : list (list (string * JSValue))) (N : Z) : JSValue :=
  JObject [("data", JArray (map JObject records));
           ("metadata", JObject [("total_pages", JNumber N)])].

(** Three pages of habitats, two records each. *)
Definition habitat (id : string) : list (string * JSValue) :=
  [("habitat_id", JString id); ("name", JString "Savannah")].

Definition sampleItems (p : Z) : list (list (string * JSValue)) :=
  if (p =? 1)%Z then [habitat "HA-001"; habitat "HA-002"]
  else if (p =? 2)%Z then [habitat "HA-003"; habitat "HA-004"]
  else if (p =? 3)%Z then [habitat "HA-005"; habitat "HA-006"]
  else [].

Definition notFound : Response.t :=
  jsonResponse 404 false "Not Found" (JObject [("message", JString "No such page")]).

Definition sampleNetwork : Network :=
  fun _ request =>
    Returned
      (if String.eqb (url request)
            (DeleteResource.baseURL ++ "/habitats?page=1&pageSize=20")
       then jsonResponse 200 true "OK" (pageBody (sampleItems 1) 3)
       else if String.eqb (url request)
            (DeleteResource.baseURL ++ "/habitats?page=2&pageSize=20")
       then jsonResponse 200 true "OK" (pageBody (sampleItems 2) 3)
       else if String.eqb (url request)
            (DeleteResource.baseURL ++ "/habitats?page=3&pageSize=20")
       then jsonResponse 200 true "OK" (pageBody (sampleItems 3) 3)
       else notFound).

(** A habitat form that passes the field check. *)
Definition sampleHabitatForm : list (string * string) :=
  [("habitat_id", "HA-001"); ("name", "Savannah"); ("climate", "Tropical");
   ("location", "Kenya"); ("long_range", "30E to 45W");
   ("lat_range", "20N to 40S"); ("description", "Wide grass plains")].

(** A server that answers a creation with the duplicate-key payload. *)
Definition duplicateNetwork : Network :=
  fun _ _ =>
    Returned (jsonResponse 409 false "Conflict"
                (JObject [("code", JNumber 23000); ("id", JString "HA-001")])).

(** A server error whose body is announced as JSON and is not JSON. *)
Definition brokenBody : Response.t :=
  {| Response.ok := false; Response.status := 500;
     Response.statusText := "Internal Server Error";
     Response.contentType := Some "application/json";
     Response.json :=
       Threw {| NativeError.name := "SyntaxError";
                NativeError.message := "Unexpected token < in JSON at position 0" |};
     Response.text := Returned "<html>" |}.

Definition brokenBodyNetwork : Network := fun _ _ => Returned brokenBody.

(** No connection. *)
Definition offlineNetwork : Network :=
  fun _ _ =>
    Threw {| NativeError.name := "TypeError";
             NativeError.message := "Failed to fetch" |}.

End PagedServer.

(** ** What a click on the pagination does *)

Module PaginationClicks.

Import Pagination.

(** The page an element hands to [onPageChange] when it is clicked. *)
Definition onClick (it : item) : Z :=
  match it with
  | Previous target => target
  | PageButton i _ => i
  | Next target => target
  end.

End PaginationClicks.

(** ** encodeURIComponent *)

Module URI.

Import JS.

(** The characters [encodeURIComponent] leaves as they are: ASCII letters
    and digits and [- _ . ! ~ * ' ( )]. *)
Definition isUnreserved (c : ascii) : bool :=
  let k := code c in
  ((48 <=? k) && (k <=? 57)) || ((65 <=? k) && (k <=? 90))
  || ((97 <=? k) && (k <=? 122))
  || (k =? 45) || (k =? 95) || (k =? 46) || (k =? 33) || (k =? 126)
  || (k =? 42) || (k =? 39) || (k =? 40) || (k =? 41).

(** Every other byte of the UTF-8 form is written [%XX]. *)
Fixpoint encodeURIComponent (s : string) : string :=
  match s with
  | EmptyString => EmptyString
  | String c rest =>
      if isUnreserved c then String c (encodeURIComponent rest)
      else String "%" (String (URLSearchParams.hexDigit (code c / 16))
                         (String (URLSearchParams.hexDigit (code c mod 16))
                            (encodeURIComponent rest)))
  end.

End URI.

(** ** Loading a page of a list view: loadHabitats, loadSpecies *)

Module ListLoad.

Import JS Control FetchWrapper.

Local Open Scope string_scope.
Local Open Scope control_scope.

(** What these functions do to the outside: a state setter called on a
    value, a dialog, a navigation. *)
Inductive Action : Type :=
| SetState (setter : string) (value : JSValue)
| Swal (title text icon : string)
| NavigateTo (to : string).

Definition isSetState (a : Action) : bool :=
  match a with SetState _ _ => true | _ => false end.

(** [name.trim () && filterBy], as a condition. *)
Definition isSearch (name filterBy : string) : bool :=
  truthy (trim name) && truthy filterBy.

(** The part of [endPoint] after [?]. *)
Definition queryOf (pageToLoad size : Z) (name filterBy : string) : string :=
  let query :=
    "page=" ++ Number_toString pageToLoad ++ "&pageSize=" ++ Number_toString size in
  if isSearch name filterBy
  then query ++ "&" ++ URI.encodeURIComponent filterBy ++ "="
       ++ URI.encodeURIComponent name
  else query.

Definition endPointOf (collection : string) (pageToLoad size : Z)
    (name filterBy : string) : string :=
  "/" ++ collection ++ "?" ++ queryOf pageToLoad size name filterBy.

(** [v.length] for a value that is neither [null] nor [undefined]. *)
Definition lengthOf (v : JSValue) : JSValue :=
  match v with
  | JArray items => JNumber (Z.of_nat (List.length items))
  | JString s => JNumber (utf16Length s)
  | JObject fields => getField "length" fields
  | _ => JUndefined
  end.

Definition noResults : Action :=
  Swal "No Results" "No records found with the selected search criteria." "info".

Section WithNetwork.

Variable network : Network.

(** The message of the [TypeError] the engine throws when [key] is read
    from [null]; its wording is the engine's. *)
Variable nullReadMessage : string -> string.

Definition baseURL : string := "http://localhost/species-api".

(** [res.key], where [res] is what [api.get] resolved to. *)
Definition readFrom (res : JSValue) (key : string)
  : M Request Exception JSValue :=
  match res with
  | JNull | JUndefined =>
      throw (Native {| NativeError.name := "TypeError";
                       NativeError.message := nullReadMessage key |})
  | _ => ret (optChain res key)
  end.

(** [loadHabitats] and [loadSpecies] differ by the collection asked for and
    the setter of the list; [collection] is [habitats] or [species]. *)
Definition load (collection setList : string) (pageToLoad size : Z)
    (name filterBy : string) : M Request Exception (list Action) :=
  tryCatch
    (res <- get network baseURL
              (endPointOf collection pageToLoad size name filterBy) [] ;;
     resData <- readFrom res "data" ;;
     let data := valueOr resData (JArray []) in
     let total := DeleteResource.totalPagesOf res in
     ret ([SetState setList data; SetState "setTotalPages" total]
          ++ (if isSearch name filterBy && strictEqualsNumber (lengthOf data) 0
              then [noResults] else []))%list)
    (fun error =>
       ret [Swal "Error"
              ("Could not load " ++ collection ++ ": " ++ messageOf error)
              "error"]).

Definition loadHabitats : Z -> Z -> string -> string
                          -> M Request Exception (list Action) :=
  load "habitats" "setHabitatsList".

Definition loadSpecies : Z -> Z -> string -> string
                         -> M Request Exception (list Action) :=
  load "species" "setSpeciesList".

(** The effect on [location.search] of the habitats page, whole: the four
    setters, then [loadHabitats] on the values read. *)
Definition onLocationSearch (search : string)
  : M Request Exception (list Action) :=
  let st := ListView.readLocationSearch search in
  loaded <- loadHabitats (ListView.page st) (ListView.pageSize st)
              (ListView.searchName st) (ListView.filter st) ;;
  ret ([SetState "setPage" (JNumber (ListView.page st));
        SetState "setPageSize" (JNumber (ListView.pageSize st));
        SetState "setSearchName" (JString (ListView.searchName st));
        SetState "setFilter" (JString (ListView.filter st))] ++ loaded)%list.

End WithNetwork.

End ListLoad.

(** ** Pages/DeleteResource/DeleteResource.jsx: the deletion *)

Module DeleteResourcePage.

Import JS Control FetchWrapper.

Local Open Scope string_scope.
Local Open Scope control_scope.

(** [isValidIdFormat]: [/^HA-\d{3}$/] for habitats, [/^SP-\d{3}$/] for
    species, both without the flag [i]. *)
Definition isValidIdFormat (resourceType id : string) : bool :=
  match id with
  | String a (String b (String h (String d1 (String d2 (String d3 EmptyString))))) =>
      (if String.eqb resourceType "habitats"
       then Ascii.eqb a "H" && Ascii.eqb b "A"
       else Ascii.eqb a "S" && Ascii.eqb b "P")
      && Ascii.eqb h "-" && isDigit d1 && isDigit d2 && isDigit d3
  | _ => false
  end.

Definition formatName (resourceType : string) : string :=
  if String.eqb resourceType "habitats" then "HA-###" else "SP-###".

(** The dialogs of [handleDelete]. *)
Definition confirmDialog (resourceType selectedId : string) : Effect :=
  SwalFire ("Delete " ++ resourceType ++ "?")
    ("Are you sure you want to delete " ++ resourceType ++ " with ID: "
     ++ selectedId ++ "?")
    "warning".

Definition deletedDialog (resourceType selectedId : string) : Effect :=
  SwalFire "Deleted!"
    (resourceType ++ " with ID: " ++ selectedId ++ " has been deleted.")
    "success".

Definition failedDialog (resourceType : string) (err : Exception) : Effect :=
  SwalFire "Error"
    ("Could not delete " ++ resourceType ++ ". " ++ messageOf err) "error".

(** [payload]: one record that names the identifier. *)
Definition payloadOf (resourceType selectedId : string) : JSValue :=
  JArray [JObject [(DeleteResource.idKey resourceType, JString selectedId)]].

(** The request [api.delete] sends for it. *)
Definition deleteRequest (resourceType selectedId : string) : Request :=
  requestOf DeleteResource.baseURL ("/" ++ resourceType)
    {| Options.method := Some "DELETE"; Options.headers := [];
       Options.body := payloadOf resourceType selectedId |}.

Section WithNetwork.

Variable network : Network.

(** [handleDelete].  [isConfirmed] is the answer given to the confirmation
    dialog; [fuel] bounds the rounds of the [fetchIds] that refreshes the
    list, which [handleDelete] starts last and does not await. *)
Definition handleDelete (fuel : nat) (resourceType selectedId : string)
    (isConfirmed : bool) : M Request Exception (option (list Effect)) :=
  if negb (truthy selectedId)
  then ret (Some [SwalFire "Error" "Please select an ID to delete." "warning"])
  else if negb (isValidIdFormat resourceType selectedId)
  then ret (Some [SwalFire "Invalid ID Format"
                    ("The ID must match " ++ formatName resourceType ++ " format.")
                    "error"])
  else if negb isConfirmed
  then ret (Some [confirmDialog resourceType selectedId])
  else
    done <-
    tryCatch
      (_ <- delete network DeleteResource.baseURL ("/" ++ resourceType)
              (payloadOf resourceType selectedId) [] ;;
       refreshed <- DeleteResource.fetchIds network fuel resourceType ;;
       ret (option_map
              (fun effects => deletedDialog resourceType selectedId :: effects)
              refreshed))
      (fun err => ret (Some [failedDialog resourceType err])) ;;
    ret (option_map (fun effects => confirmDialog resourceType selectedId :: effects)
           done).

End WithNetwork.

End DeleteResourcePage.

(** ** Pages/CreateResource/CreateResource.jsx: typing into the form *)

Module CreateResourceForm.

Import JS Control.

Local Open Scope string_scope.

(** [{ ...obj, [name]: value }] on an object of strings. *)
Fixpoint setValue (name value : string) (obj : list (string * string))
  : list (string * string) :=
  match obj with
  | [] => [(name, value)]
  | (k, v) :: rest =>
      if String.eqb k name then (k, value) :: rest
      else (k, v) :: setValue name value rest
  end.

(** [value.replace (/\D/g, '')]: the digits of [value]. *)
Fixpoint removeNonDigits (value : string) : string :=
  match value with
  | EmptyString => EmptyString
  | String c rest =>
      if isDigit c then String c (removeNonDigits rest)
      else removeNonDigits rest
  end.

Definition isCountField (name : string) : bool :=
  String.eqb name "num_of_offspring" || String.eqb name "average_lifespan".

Definition isIdField (name : string) : bool :=
  String.eqb name "habitat_id" || String.eqb name "species_id".

Section WithUpperCase.

(** [String.prototype.toUpperCase], taken as it is. *)
Variable toUpperCase : string -> string.

Definition processedValue (name value : string) : string :=
  if isCountField name then removeNonDigits value
  else if isIdField name then toUpperCase value
  else value.

(** [handleInputChange] on the event of the field [name] holding [value]. *)
Definition handleInputChange (formData errors : list (string * string))
    (name value : string) : list Effect :=
  [SetFormData (setValue name (processedValue name value) formData);
   SetErrors (setValue name EmptyString errors)].

End WithUpperCase.

End CreateResourceForm.

(** ** The sports page (TheSportsDB) *)

Module TheSportsDB.

Import JS Control FetchWrapper ListLoad.

Local Open Scope string_scope.
Local Open Scope control_scope.

(** [toLowerCase] on text whose letters are ASCII, as is every string the
    submit handler lowers: it has passed [validPattern] or is empty. *)
Definition lowerChar (c : ascii) : ascii :=
  if ((65 <=? code c) && (code c <=? 90))%Z then char (code c + 32) else c.

Fixpoint toLowerCase (s : string) : string :=
  match s with
  | EmptyString => EmptyString
  | String c rest => String (lowerChar c) (toLowerCase rest)
  end.

(** What the effect on [location.search] reads. *)
Definition readQuery (search : string) : string * string :=
  let params := URLSearchParams.ofString search in
  (stringOrEmpty (URLSearchParams.get "c" params),
   stringOrEmpty (URLSearchParams.get "s" params)).

(** [updateURL]: the argument of [navigate]. *)
Definition updateURL_target (c s : string) : string :=
  let params := URLSearchParams.empty in
  let params := if truthy c then URLSearchParams.set "c" c params else params in
  let params := if truthy s then URLSearchParams.set "s" s params else params in
  String "?" (URLSearchParams.toString params).

(** [handleSearchSubmit] on the two fields. *)
Definition handleSearchSubmit (country sport : string) : list Action :=
  if negb (truthy (trim country)) && negb (truthy (trim sport))
  then [Swal "Missing Info" "Enter at least one search field." "warning"]
  else if (truthy country && negb (ListView.validPattern_test country))
          || (truthy sport && negb (ListView.validPattern_test sport))
  then [Swal "Invalid Input"
          "Only letters, numbers, spaces, hyphens, and apostrophes allowed."
          "info"]
  else [SetState "setSearchInitiated" (JBool true);
        NavigateTo (updateURL_target (toLowerCase (trim country))
                      (toLowerCase (trim sport)))].

Definition handleClear : list Action :=
  [SetState "setCountry" (JString EmptyString);
   SetState "setSport" (JString EmptyString);
   SetState "setSportsList" (JArray []);
   SetState "setSearchInitiated" (JBool false);
   NavigateTo EmptyString;
   Swal "Cleared" "Search reset." "success"].

(** [query.join ('&')] of [loadSports]. *)
Definition queryOf (c s : string) : string :=
  URLSearchParams.join "&"
    ((if truthy c then [append "c=" (URI.encodeURIComponent c)] else [])
     ++ (if truthy s then [append "s=" (URI.encodeURIComponent s)] else []))%list.

Definition endPointOf (c s : string) : string :=
  "/search_all_leagues.php?" ++ queryOf c s.

Definition isArray (v : JSValue) : bool :=
  match v with JArray _ => true | _ => false end.

Section WithNetwork.

Variable network : Network.
Variable nullReadMessage : string -> string.

Definition baseURL : string := "https://www.thesportsdb.com/api/v1/json/3".

Definition readFrom (res : JSValue) (key : string)
  : M Request Exception JSValue :=
  match res with
  | JNull | JUndefined =>
      throw (Native {| NativeError.name := "TypeError";
                       NativeError.message := nullReadMessage key |})
  | _ => ret (optChain res key)
  end.

Definition loadSports (c s : string) : M Request Exception (list Action) :=
  tryCatch
    (if negb (truthy c) && negb (truthy s)
     then ret [Swal "Missing Info" "Please enter at least a sport or country."
                 "warning"]
     else
       res <- get network baseURL (endPointOf c s) [] ;;
       leagues <- readFrom res "leagues" ;;
       data <-
         (if isArray leagues then ret leagues
          else
            countries <- readFrom res "countries" ;;
            ret (if isArray countries then countries else JArray [])) ;;
       ret ([SetState "setSportsList" data]
            ++ (if strictEqualsNumber (lengthOf data) 0
                then [Swal "No Results" "No leagues found for the given criteria."
                        "info"]
                else []))%list)
    (fun error =>
       ret [Swal "Error" ("Could not load sports: " ++ messageOf error) "error"]).

(** The effect on [location.search]. *)
Definition onLocationSearch (search : string)
  : M Request Exception (list Action) :=
  let '(queryCountry, querySport) := readQuery search in
  loaded <-
    (if truthy queryCountry || truthy querySport
     then loadSports queryCountry querySport else ret []) ;;
  ret ([SetState "setCountry" (JString queryCountry);
        SetState "setSport" (JString querySport)] ++ loaded)%list.

End WithNetwork.

End TheSportsDB.

(** ** Pages/SubCollection/SubCollection.jsx *)

Module SubCollection.

Import JS Control FetchWrapper ListLoad.

Local Open Scope string_scope.
Local Open Scope control_scope.

(** The comparison of [Set]: values that are not objects are compared by
    what they are; two elements of a parsed body that are arrays or objects
    are two objects, never the same one. *)
Definition sameValueZero (a b : JSValue) : bool :=
  match a, b with
  | JUndefined, JUndefined => true
  | JNull, JNull => true
  | JBool x, JBool y => Bool.eqb x y
  | JNumber x, JNumber y => (x =? y)%Z
  | JString x, JString y => String.eqb x y
  | _, _ => false
  end.

(** [[...new Set (values)]]: the values in the order of their first
    occurrence. *)
Fixpoint uniqueFrom (seen values : list JSValue) : list JSValue :=
  match values with
  | [] => []
  | v :: rest =>
      if existsb (sameValueZero v) seen then uniqueFrom seen rest
      else v :: uniqueFrom (v :: seen) rest
  end.

Definition unique (values : list JSValue) : list JSValue := uniqueFrom [] values.

Definition endPointOf (habitatId : string) (pg size : Z) : string :=
  "/habitats/" ++ habitatId ++ "/species?page=" ++ Number_toString pg
  ++ "&pageSize=" ++ Number_toString size.

Section WithNetwork.

Variable network : Network.

Definition baseURL : string := "http://localhost/species-api".

(** The loop of [fetchHabitatsId]. *)
Fixpoint fetchHabitatsId_loop (fuel : nat) (allData : list JSValue) (page : Z)
  : M Request Exception (option (list JSValue)) :=
  match fuel with
  | O => ret None
  | S fuel' =>
      res <- get network baseURL
               ("/habitats?page=" ++ Number_toString page ++ "&pageSize=20") [] ;;
      data <- DeleteResource.lift (CreateResource.spreadValue (optChain res "data")) ;;
      let allData := (allData ++ data)%list in
      let totalPages := DeleteResource.totalPagesOf res in
      let page := (page + 1)%Z in
      if lessEq page totalPages
      then fetchHabitatsId_loop fuel' allData page
      else ret (Some allData)
  end.

Definition fetchHabitatsId (fuel : nat)
  : M Request Exception (option (list Action)) :=
  tryCatch
    (drained <- fetchHabitatsId_loop fuel [] 1 ;;
     match drained with
     | None => ret None
     | Some allData =>
         ids <- DeleteResource.lift (DeleteResource.mapProperty "habitat_id" allData) ;;
         ret (Some [SetState "setHabitatsId" (JArray (unique ids))])
     end)
    (fun error => ret (Some [Swal "Error" "Failed to load all habitat IDs." "error"])).

(** [loadSubCollection]; [habitatId] is the text put into the path. *)
Definition loadSubCollection (habitatId : string) (pg size : Z)
  : M Request Exception (list Action) :=
  tryCatch
    (res <- get network baseURL (endPointOf habitatId pg size) [] ;;
     resData <- DeleteResource.lift
       match res with
       | JNull | JUndefined => Threw DeleteResource.typeError
       | _ => Returned (optChain res "data")
       end ;;
     let data := valueOr resData (JArray []) in
     ret [SetState "setSpeciesList" data;
          SetState "setTotalPages" (DeleteResource.totalPagesOf res);
          SetState "setPage" (JNumber pg);
          SetState "setPageSize" (JNumber size)])
    (fun error => ret [Swal "Error" "Failed to load sub collection." "error"]).

(** [handleHabitatChange]; [page] and [pageSize] are the state.  Without a
    choice, [loadSubCollection ([])] is called: the array is written as the
    empty text and the page and size are the defaults, the state. *)
Definition handleHabitatChange (page pageSize : Z) (habitatId : string)
  : M Request Exception (list Action) :=
  loaded <-
    (if truthy habitatId then loadSubCollection habitatId 1 pageSize
     else loadSubCollection (ToString (JArray [])) page pageSize) ;;
  ret (SetState "setSelectedHabitatId" (JString habitatId) :: loaded).

Definition handlePageChange (selectedHabitatId : string) (pageSize newPage : Z)
  : M Request Exception (list Action) :=
  loaded <- loadSubCollection selectedHabitatId newPage pageSize ;;
  ret (SetState "setPage" (JNumber newPage) :: loaded).

Definition handlePageSizeChange (selectedHabitatId : string) (newSize : Z)
  : M Request Exception (list Action) :=
  loaded <- loadSubCollection selectedHabitatId 1 newSize ;;
  ret (SetState "setPageSize" (JNumber newSize) :: SetState "setPage" (JNumber 1)
       :: loaded).

End WithNetwork.

End SubCollection.

(** ** A server that deletes *)

Module DeleteServer.

Import JS Control FetchWrapper PagedServer.

Local Open Scope string_scope.

Definition deleted : Response.t :=
  jsonResponse 200 true "OK" (JObject [("message", JString "Deleted")]).

(** [DELETE] is answered with success; the pages of the habitats are
    served as by [sampleNetwork]. *)
Definition network : Network :=
  fun log request =>
    if String.eqb (FetchOptions.method (init request)) "DELETE"
    then Returned deleted
    else sampleNetwork log request.

End DeleteServer.

(** ** A server of leagues *)

Module SportsServer.

Import JS Control FetchWrapper PagedServer.

Local Open Scope string_scope.

Definition league (name : string) : JSValue :=
  JObject [("strLeague", JString name); ("strSport", JString "Soccer")].

(** The answer holds its records under [countries]. *)
Definition network : Network :=
  fun _ _ =>
    Returned (jsonResponse 200 true "OK"
                (JObject [("countries",
                           JArray [league "Canadian Premier League"])])).

(** The answer to a search without a match. *)
Definition emptyNetwork : Network :=
  fun _ _ =>
    Returned (jsonResponse 200 true "OK" (JObject [("countries", JNull)])).

End SportsServer.

(** ** Facts about the pagination window *)

Section PaginationFacts.

Import Pagination.

Lemma labels_app (a b : list item) : labels (a ++ b) = labels a ++ labels b.
Proof.
  induction a as [|[t|i act|t] a IH]; simpl; try rewrite IH; reflexivity.
Qed.

Lemma activeLabels_app (a b : list item) :
  activeLabels (a ++ b) = activeLabels a ++ activeLabels b.
Proof.
  induction a as [|[t|i [|]|t] a IH]; simpl; try rewrite IH; reflexivity.
Qed.

Lemma showPrevious_app (a b : list item) :
  showPrevious (a ++ b) = showPrevious a || showPrevious b.
Proof. apply existsb_app. Qed.

Lemma showNext_app (a b : list item) :
  showNext (a ++ b) = showNext a || showNext b.
Proof. apply existsb_app. Qed.

(** The loop emits exactly the run [i .. endPage] as soon as the fuel covers
    it: it is the test [i <= endPage] that ends it. *)
Lemma numbered_labels (fuel : nat) (page i e : Z) :
  (Z.to_nat (e + 1 - i) <= fuel)%nat ->
  labels (numbered fuel page i e) = run (Z.to_nat (e + 1 - i)) i.
Proof.
  revert i. induction fuel as [|fuel IH]; intros i Hf.
  - assert (Z.to_nat (e + 1 - i) = 0%nat) as -> by lia. reflexivity.
  - simpl. destruct (Z.leb_spec i e) as [Hle|Hgt].
    + simpl. rewrite IH by lia.
      replace (Z.to_nat (e + 1 - i)) with (S (Z.to_nat (e + 1 - (i + 1)))) by lia.
      reflexivity.
    + assert (Z.to_nat (e + 1 - i) = 0%nat) as -> by lia. reflexivity.
Qed.

Lemma numbered_fuel (fuel : nat) (page i e : Z) :
  (Z.to_nat (e + 1 - i) <= fuel)%nat ->
  numbered fuel page i e = numbered (Z.to_nat (e + 1 - i)) page i e.
Proof.
  revert i. induction fuel as [|fuel IH]; intros i Hf.
  - assert (Z.to_nat (e + 1 - i) = 0%nat) as -> by lia. reflexivity.
  - simpl. destruct (Z.leb_spec i e) as [Hle|Hgt].
    + replace (Z.to_nat (e + 1 - i)) with (S (Z.to_nat (e + 1 - (i + 1)))) by lia.
      simpl. destruct (Z.leb_spec i e); [|lia].
      rewrite IH by lia. reflexivity.
    + assert (Z.to_nat (e + 1 - i) = 0%nat) as -> by lia. reflexivity.
Qed.

Lemma numbered_active (fuel : nat) (page i e : Z) :
  activeLabels (numbered fuel page i e)
  = filter (Z.eqb page) (labels (numbered fuel page i e)).
Proof.
  revert i. induction fuel as [|fuel IH]; intros i; simpl; [reflexivity|].
  destruct (i <=? e); [|reflexivity].
  simpl. destruct (page =? i); rewrite IH; reflexivity.
Qed.

Lemma numbered_no_affordance (fuel : nat) (page i e : Z) :
  showPrevious (numbered fuel page i e) = false
  /\ showNext (numbered fuel page i e) = false.
Proof.
  revert i. induction fuel as [|fuel IH]; intros i; simpl; [auto|].
  destruct (i <=? e); simpl; auto.
Qed.

Lemma numbered_In (fuel : nat) (page i e l : Z) (a : bool) :
  In (PageButton l a) (numbered fuel page i e) ->
  a = (page =? l) /\ i <= l <= e.
Proof.
  revert i. induction fuel as [|fuel IH]; intros i; simpl; [tauto|].
  destruct (Z.leb_spec i e) as [Hle|Hgt]; simpl; [|tauto].
  intros [Heq|Hin].
  - inversion Heq; subst. split; [reflexivity|lia].
  - apply IH in Hin. split; [tauto|lia].
Qed.

Lemma run_length (n : nat) (from : Z) : List.length (run n from) = n.
Proof. revert from. induction n; intros; simpl; [|rewrite IHn]; reflexivity. Qed.

Lemma run_consecutive (n : nat) (from : Z) : consecutive (run n from).
Proof.
  revert from. induction n as [|n IH]; intros from; simpl; [exact I|].
  destruct n as [|n]; simpl; [exact I|].
  split; [reflexivity|]. apply (IH (from + 1)).
Qed.

Lemma run_In (n : nat) (from x : Z) :
  In x (run n from) <-> from <= x < from + Z.of_nat n.
Proof.
  revert from. induction n as [|n IH]; intros from; simpl; [lia|].
  rewrite IH. lia.
Qed.

Lemma run_filter_eq (n : nat) (from page : Z) :
  from <= page < from + Z.of_nat n ->
  filter (Z.eqb page) (run n from) = [page].
Proof.
  revert from. induction n as [|n IH]; intros from H; simpl; [lia|].
  destruct (Z.eqb_spec page from) as [->|Hne].
  - f_equal.
    assert (forall m f, from < f -> filter (Z.eqb from) (run m f) = []) as Hnone.
    { clear. intros m. induction m as [|m IHm]; intros f Hf; simpl; [reflexivity|].
      destruct (Z.eqb_spec from f); [lia|]. apply IHm. lia. }
    apply Hnone. lia.
  - apply IH. lia.
Qed.

Lemma run_last (n : nat) (from : Z) :
  last (run (S n) from) 0 = from + Z.of_nat n.
Proof.
  revert from. induction n as [|n IH]; intros from.
  - simpl. lia.
  - change (run (S (S n)) from) with (from :: run (S n) (from + 1)).
    change (last (from :: run (S n) (from + 1)) 0)
      with (last (run (S n) (from + 1)) 0).
    rewrite IH. lia.
Qed.

(** The labels of the whole rendering are those of the numbered loop. *)
Lemma Pagination_labels (page totalPages visiblePages : Z) :
  labels (Pagination page totalPages visiblePages)
  = run (Z.to_nat (endPage page totalPages visiblePages + 1
                   - startPage page totalPages visiblePages))
        (startPage page totalPages visiblePages).
Proof.
  unfold Pagination, endPage, startPage.
  destruct (window page totalPages visiblePages) as [s e]; simpl fst; simpl snd.
  rewrite !labels_app, numbered_labels by lia.
  destruct (page >? 1); destruct (page <? totalPages); simpl;
    rewrite ?app_nil_r; reflexivity.
Qed.

Lemma Pagination_activeLabels (page totalPages visiblePages : Z) :
  activeLabels (Pagination page totalPages visiblePages)
  = filter (Z.eqb page) (labels (Pagination page totalPages visiblePages)).
Proof.
  unfold Pagination.
  destruct (window page totalPages visiblePages) as [s e].
  rewrite !labels_app, !activeLabels_app, numbered_active.
  destruct (page >? 1); destruct (page <? totalPages); simpl;
    rewrite ?app_nil_r; reflexivity.
Qed.

Lemma endPage_le_totalPages (page totalPages visiblePages : Z) :
  endPage page totalPages visiblePages <= totalPages.
Proof.
  unfold endPage, window.
  destruct (Z.gtb_spec (Z.max 1 (page - visiblePages / 2) + visiblePages - 1)
              totalPages); cbn [fst snd]; lia.
Qed.

End PaginationFacts.

(** ** The pagination window: centering, clamping, affordances *)

Section PaginationClaims.

Import Pagination.

Lemma window_in_range (page totalPages visiblePages : Z) :
  1 <= page <= totalPages -> 1 <= visiblePages <= totalPages ->
  let s := startPage page totalPages visiblePages in
  let e := endPage page totalPages visiblePages in
  e = s + visiblePages - 1 /\ s <= page <= e.
Proof.
  intros Hp Hv s e. subst s e. unfold startPage, endPage, window.
  assert (0 <= visiblePages / 2) by (apply Z.div_pos; lia).
  assert (visiblePages / 2 < visiblePages) by (apply Z.div_lt; lia).
  destruct (Z.gtb_spec (Z.max 1 (page - visiblePages / 2) + visiblePages - 1)
              totalPages); cbn [fst snd]; lia.
Qed.

(** C1, as amended: with [1 <= page <= totalPages] and
    [1 <= visibleCount <= totalPages], the numbered buttons are exactly
    [visibleCount] many, their labels are consecutive integers, [page] is
    among them, and the buttons marked current are exactly the one whose
    label is [page]. *)
Theorem Pagination_window_centering (page totalPages visibleCount : Z) :
  1 <= page <= totalPages ->
  1 <= visibleCount <= totalPages ->
  let items := Pagination page totalPages visibleCount in
  Z.of_nat (List.length (labels items)) = visibleCount
  /\ consecutive (labels items)
  /\ In page (labels items)
  /\ activeLabels items = [page]
  /\ (forall l a, In (PageButton l a) items -> (a = true <-> l = page)).
Proof.
  intros Hp Hv items.
  destruct (window_in_range page totalPages visibleCount Hp Hv) as [He Hs].
  assert (labels items
          = run (Z.to_nat visibleCount) (startPage page totalPages visibleCount))
    as Hl.
  { unfold items. rewrite Pagination_labels. f_equal. lia. }
  assert (In page (labels items)) as Hin.
  { rewrite Hl. apply run_In. lia. }
  repeat split.
  - rewrite Hl, run_length. lia.
  - rewrite Hl. apply run_consecutive.
  - exact Hin.
  - unfold items at 1. rewrite Pagination_activeLabels. fold items.
    rewrite Hl. apply run_filter_eq. lia.
  - intros Ha. subst a. revert H. unfold items, Pagination.
    destruct (window page totalPages visibleCount) as [s e].
    rewrite !in_app_iff. intros [Hi|[Hi|Hi]].
    + destruct (page >? 1); simpl in Hi; [destruct Hi as [Hi|[]]|destruct Hi];
        discriminate.
    + apply numbered_In in Hi. destruct Hi as [Hi _].
      symmetry in Hi. apply Z.eqb_eq in Hi. congruence.
    + destruct (page <? totalPages); simpl in Hi;
        [destruct Hi as [Hi|[]]|destruct Hi]; discriminate.
  - intros ->. revert H. unfold items, Pagination.
    destruct (window page totalPages visibleCount) as [s e].
    rewrite !in_app_iff. intros [Hi|[Hi|Hi]].
    + destruct (page >? 1); simpl in Hi; [destruct Hi as [Hi|[]]|destruct Hi];
        discriminate.
    + apply numbered_In in Hi. destruct Hi as [Hi _].
      rewrite Hi. apply Z.eqb_refl.
    + destruct (page <? totalPages); simpl in Hi;
        [destruct Hi as [Hi|[]]|destruct Hi]; discriminate.
Qed.

Lemma Pagination_window_centering_witness :
  let items := Pagination 3 10 5 in
  Z.of_nat (List.length (labels items)) = 5
  /\ consecutive (labels items)
  /\ In 3 (labels items)
  /\ activeLabels items = [3]
  /\ (forall l a, In (PageButton l a) items -> (a = true <-> l = 3)).
Proof. apply (Pagination_window_centering 3 10 5); lia. Defined.

(** C1 as it was stated asks only [visibleCount <= totalPages]: with
    [page = 20], [totalPages = 10], [visibleCount = 5] the window is
    [6 .. 10], which does not hold [20] and marks no button current. *)
Lemma Pagination_window_centering_page_beyond_total :
  5 <= 10
  /\ labels (Pagination 20 10 5) = [6; 7; 8; 9; 10]
  /\ ~ In 20 (labels (Pagination 20 10 5))
  /\ activeLabels (Pagination 20 10 5) = [].
Proof.
  split; [lia|]. split; [reflexivity|]. split; [|reflexivity].
  simpl. intros H. repeat (destruct H as [H|H]; [discriminate H|]). exact H.
Qed.

(** C3: for [page >= 1], [totalPages >= 1], [visibleCount >= 1] no numbered
    button exceeds [totalPages]; and when the window centred on [page]
    reaches [totalPages] (as for page 9 of 10 with 5 buttons), the last
    button is [totalPages]. *)
Theorem Pagination_window_clamping (page totalPages visibleCount : Z) :
  1 <= page -> 1 <= totalPages -> 1 <= visibleCount ->
  let items := Pagination page totalPages visibleCount in
  Forall (fun i => i <= totalPages) (labels items)
  /\ (totalPages <= page + (visibleCount - 1 - visibleCount / 2) ->
      labels items <> [] /\ last (labels items) 0 = totalPages).
Proof.
  intros Hp Ht Hv items. unfold items. rewrite Pagination_labels.
  pose proof (endPage_le_totalPages page totalPages visibleCount) as Hle.
  split.
  - apply Forall_forall. intros x Hx. apply run_In in Hx. lia.
  - intros Hnear.
    assert (0 <= visibleCount / 2) by (apply Z.div_pos; lia).
    assert (visibleCount / 2 < visibleCount) by (apply Z.div_lt; lia).
    assert (endPage page totalPages visibleCount = totalPages
            /\ startPage page totalPages visibleCount <= totalPages)
      as [He Hs].
    { unfold endPage, startPage, window.
      destruct (Z.gtb_spec (Z.max 1 (page - visibleCount / 2) + visibleCount - 1)
                  totalPages); cbn [fst snd]; lia. }
    rewrite He.
    set (s := startPage page totalPages visibleCount) in *.
    replace (Z.to_nat (totalPages + 1 - s)) with (S (Z.to_nat (totalPages - s)))
      by lia.
    split; [simpl; discriminate|].
    rewrite run_last. lia.
Qed.

Lemma Pagination_window_clamping_witness :
  Forall (fun i => i <= 10) (labels (Pagination 9 10 5))
  /\ (10 <= 9 + (5 - 1 - 5 / 2) ->
      labels (Pagination 9 10 5) <> [] /\ last (labels (Pagination 9 10 5)) 0 = 10).
Proof. apply (Pagination_window_clamping 9 10 5); lia. Defined.

(** C4: [Previous] is rendered exactly when [page > 1] and [Next] exactly
    when [page < totalPages]; with one page, on page 1, the rendering is the
    single button [1], marked current, for any [visiblePages >= 1] and so
    for the default of five. *)
Theorem Pagination_previous_next (page totalPages visiblePages : Z) :
  let items := Pagination page totalPages visiblePages in
  (showPrevious items = true <-> 1 < page)
  /\ (showNext items = true <-> page < totalPages)
  /\ (1 <= visiblePages -> Pagination 1 1 visiblePages = [PageButton 1 true])
  /\ Pagination 1 1 defaultVisiblePages = [PageButton 1 true].
Proof.
  intros items. unfold items.
  split; [|split; [|split; [|reflexivity]]]; try split.
  - unfold Pagination. destruct (window page totalPages visiblePages) as [s e].
    rewrite !showPrevious_app.
    destruct (numbered_no_affordance (Z.to_nat (e + 1 - s)) page s e) as [-> _].
    destruct (Z.gtb_spec page 1); destruct (page <? totalPages); simpl;
      intros; try discriminate; lia.
  - unfold Pagination. destruct (window page totalPages visiblePages) as [s e].
    destruct (Z.gtb_spec page 1); destruct (page <? totalPages); simpl;
      intros; lia.
  - unfold Pagination. destruct (window page totalPages visiblePages) as [s e].
    rewrite !showNext_app.
    destruct (numbered_no_affordance (Z.to_nat (e + 1 - s)) page s e) as [_ ->].
    destruct (page >? 1); destruct (Z.ltb_spec page totalPages); simpl;
      intros; try discriminate; lia.
  - unfold Pagination. destruct (window page totalPages visiblePages) as [s e].
    rewrite !showNext_app.
    destruct (Z.ltb_spec page totalPages); [|lia].
    intros _. simpl. rewrite !orb_true_r. reflexivity.
  - intros Hv. unfold Pagination, window.
    assert (0 <= visiblePages / 2) by (apply Z.div_pos; lia).
    replace (Z.max 1 (1 - visiblePages / 2)) with 1 by lia.
    destruct (Z.gtb_spec (1 + visiblePages - 1) 1) as [Hgt|Hle].
    + replace (Z.max 1 (1 - visiblePages + 1)) with 1 by lia. reflexivity.
    + assert (visiblePages = 1) as -> by lia. reflexivity.
Qed.

Lemma Pagination_previous_next_witness :
  let items := Pagination 1 1 5 in
  (showPrevious items = true <-> 1 < 1)
  /\ (showNext items = true <-> 1 < 1)
  /\ (1 <= 5 -> Pagination 1 1 5 = [PageButton 1 true]).
Proof.
  destruct (Pagination_previous_next 1 1 5) as [Hprev [Hnext [Hone _]]].
  split; [exact Hprev|]. split; [exact Hnext|exact Hone].
Defined.

End PaginationClaims.

(** ** Characters, white space and numerals *)

Section TextFacts.

Import JS.

Lemma code_range (c : ascii) : 0 <= code c < 256.
Proof.
  unfold code. pose proof (N_ascii_bounded c) as H. lia.
Qed.

Lemma char_code (c : ascii) : char (code c) = c.
Proof.
  unfold char, code. rewrite N2Z.id. apply ascii_N_embedding.
Qed.

Lemma code_char (n : Z) : 0 <= n < 256 -> code (char n) = n.
Proof.
  intros H. unfold char, code. rewrite N_ascii_embedding by lia. lia.
Qed.

Lemma code_inj (c d : ascii) : code c = code d -> c = d.
Proof.
  intros H. rewrite <- (char_code c), <- (char_code d), H. reflexivity.
Qed.

Lemma eqb_code (c d : ascii) : Ascii.eqb c d = (code c =? code d).
Proof.
  destruct (Ascii.eqb_spec c d) as [->|Hne].
  - symmetry. apply Z.eqb_refl.
  - symmetry. apply Z.eqb_neq. intros H. apply Hne, code_inj, H.
Qed.

(** A byte below 194 that is no white space of its own stands for itself:
    the two- and three-byte white-space sequences start at 194 or above. *)
Lemma tokens_plain (c : ascii) (r : string) :
  isWhiteSpace1 (code c) = false -> code c < 194 ->
  tokens (String c r) = Other c :: tokens r.
Proof.
  intros Hw Hc. cbn [tokens]. rewrite Hw.
  destruct r as [|c2 r2]; [reflexivity|].
  assert (isWhiteSpace2 (code c) (code c2) = false) as ->.
  { unfold isWhiteSpace2. destruct (Z.eqb_spec (code c) 194); [lia|reflexivity]. }
  destruct r2 as [|c3 r3]; [reflexivity|].
  assert (isWhiteSpace3 (code c) (code c2) (code c3) = false) as ->.
  { unfold isWhiteSpace3.
    destruct (Z.eqb_spec (code c) 225); [lia|].
    destruct (Z.eqb_spec (code c) 226); [lia|].
    destruct (Z.eqb_spec (code c) 227); [lia|].
    destruct (Z.eqb_spec (code c) 239); [lia|]. reflexivity. }
  reflexivity.
Qed.

Lemma untokens_tokens_bounded (n : nat) (s : string) :
  (String.length s <= n)%nat -> untokens (tokens s) = s.
Proof.
  revert s. induction n as [|n IH]; intros s Hlen.
  - destruct s; [reflexivity|simpl in Hlen; lia].
  - destruct s as [|c1 r1]; [reflexivity|].
    simpl in Hlen. cbn [tokens].
    destruct (isWhiteSpace1 (code c1)).
    { cbn [untokens tokenBytes str1 append]. rewrite IH by lia. reflexivity. }
    destruct r1 as [|c2 r2]; [reflexivity|].
    simpl in Hlen.
    destruct (isWhiteSpace2 (code c1) (code c2)).
    { cbn [untokens tokenBytes str1 append]. rewrite IH by lia. reflexivity. }
    destruct r2 as [|c3 r3].
    { cbn [untokens tokenBytes str1 append]. rewrite IH by (simpl; lia).
      reflexivity. }
    simpl in Hlen.
    destruct (isWhiteSpace3 (code c1) (code c2) (code c3)).
    { cbn [untokens tokenBytes str1 append]. rewrite IH by lia. reflexivity. }
    cbn [untokens tokenBytes str1 append]. rewrite IH by (simpl; lia).
    reflexivity.
Qed.

Lemma untokens_tokens (s : string) : untokens (tokens s) = s.
Proof. apply (untokens_tokens_bounded (String.length s)). lia. Qed.

(** Nothing is trimmed in front of such a byte. *)
Lemma trimStart_plain (c : ascii) (r : string) :
  isWhiteSpace1 (code c) = false -> code c < 194 ->
  trimStart (String c r) = String c r.
Proof.
  intros Hw Hc. unfold trimStart. rewrite tokens_plain by assumption.
  cbn [dropWhiteSpace]. rewrite <- (tokens_plain c r Hw Hc).
  apply untokens_tokens.
Qed.

Lemma untokens_app (a b : list token) :
  untokens (a ++ b) = (untokens a ++ untokens b)%string.
Proof.
  induction a as [|t a IH]; [reflexivity|].
  cbn [app untokens]. rewrite IH.
  generalize (tokenBytes t) as x. intros x.
  induction x as [|c x IHx]; cbn; [|rewrite IHx]; reflexivity.
Qed.

(** How [tokens] starts: with a white-space character, whatever follows it,
    or with a byte that stays what it is when the string is cut anywhere
    after it. *)
Lemma tokens_head (c1 : ascii) (r1 : string) :
  (exists b r,
      String c1 r1 = (b ++ r)%string
      /\ tokens (String c1 r1) = WhiteSpace b :: tokens r
      /\ forall X, tokens (b ++ X) = WhiteSpace b :: tokens X)
  \/ (tokens (String c1 r1) = Other c1 :: tokens r1
      /\ forall Y Z, r1 = (Y ++ Z)%string ->
           tokens (String c1 Y) = Other c1 :: tokens Y).
Proof.
  cbn [tokens].
  destruct (isWhiteSpace1 (code c1)) eqn:H1.
  { left. exists (str1 c1), r1. split; [reflexivity|]. split; [reflexivity|].
    intros X. cbn [str1 append tokens]. rewrite ?H1. reflexivity. }
  destruct r1 as [|c2 r2].
  { right. split; [reflexivity|]. intros Y Z HY.
    destruct Y; [|discriminate]. cbn [tokens]. rewrite ?H1. reflexivity. }
  destruct (isWhiteSpace2 (code c1) (code c2)) eqn:H2.
  { left. exists (String c1 (str1 c2)), r2. split; [reflexivity|].
    split; [reflexivity|].
    intros X. cbn [str1 append tokens]. rewrite ?H1, ?H2. reflexivity. }
  destruct r2 as [|c3 r3].
  { right. split; [reflexivity|]. intros Y Z HY.
    destruct Y as [|y1 Y]; [cbn [tokens]; rewrite ?H1; reflexivity|].
    cbn [append] in HY. injection HY as -> HY.
    destruct Y; [|discriminate].
    cbn [tokens]. rewrite ?H1, ?H2. reflexivity. }
  destruct (isWhiteSpace3 (code c1) (code c2) (code c3)) eqn:H3.
  { left. exists (String c1 (String c2 (str1 c3))), r3. split; [reflexivity|].
    split; [reflexivity|].
    intros X. cbn [str1 append tokens]. rewrite ?H1, ?H2, ?H3. reflexivity. }
  right. split; [reflexivity|]. intros Y Z HY.
  destruct Y as [|y1 Y]; [cbn [tokens]; rewrite ?H1; reflexivity|].
  cbn [append] in HY. injection HY as -> HY.
  destruct Y as [|y2 Y]; [cbn [tokens]; rewrite ?H1, ?H2; reflexivity|].
  cbn [append] in HY. injection HY as -> HY.
  cbn [tokens]. rewrite ?H1, ?H2, ?H3. reflexivity.
Qed.

(** A prefix and a suffix of a tokenization are tokenizations. *)
Lemma tokens_prefix (l1 : list token) :
  forall s l2, tokens s = l1 ++ l2 -> tokens (untokens l1) = l1.
Proof.
  induction l1 as [|t l1 IH]; intros s l2 Hs; [reflexivity|].
  destruct s as [|c1 r1]; [discriminate|].
  destruct (tokens_head c1 r1) as [[b [r [_ [Hhead Hany]]]]|[Hhead Hcut]];
    rewrite Hhead in Hs; cbn [app] in Hs; injection Hs as <- Hs.
  - cbn [untokens tokenBytes]. rewrite Hany. f_equal. apply (IH r l2 Hs).
  - cbn [untokens tokenBytes str1 append].
    rewrite (Hcut (untokens l1) (untokens l2)).
    + f_equal. apply (IH r1 l2 Hs).
    + rewrite <- untokens_app, <- Hs. symmetry. apply untokens_tokens.
Qed.

Lemma tokens_suffix (l1 : list token) :
  forall s l2, tokens s = l1 ++ l2 -> tokens (untokens l2) = l2.
Proof.
  induction l1 as [|t l1 IH]; intros s l2 Hs.
  - cbn [app] in Hs. rewrite <- Hs, untokens_tokens. reflexivity.
  - destruct s as [|c1 r1]; [discriminate|].
    destruct (tokens_head c1 r1) as [[b [r [_ [Hhead _]]]]|[Hhead _]];
      rewrite Hhead in Hs; cbn [app] in Hs; injection Hs as _ Hs;
      eapply IH; exact Hs.
Qed.

Lemma dropWhiteSpace_split (l : list token) :
  exists ws, l = ws ++ dropWhiteSpace l /\ forallb isWS ws = true.
Proof.
  induction l as [|t l [ws [IH Hws]]]; [exists []; split; reflexivity|].
  destruct t as [b|c].
  - exists (WhiteSpace b :: ws). cbn [dropWhiteSpace app forallb isWS andb].
    split; [f_equal; exact IH|exact Hws].
  - exists []. split; reflexivity.
Qed.

Lemma core_split (l : list token) :
  exists before after,
    l = before ++ core l ++ after
    /\ forallb isWS before = true /\ forallb isWS after = true.
Proof.
  destruct (dropWhiteSpace_split l) as [before [Hl Hb]].
  destruct (dropWhiteSpace_split (rev (dropWhiteSpace l))) as [ws [Hr Hw]].
  exists before, (rev ws). unfold core. split; [|split].
  - rewrite <- rev_app_distr, <- Hr, rev_involutive. exact Hl.
  - exact Hb.
  - rewrite forallb_forall in *. intros x Hx. apply Hw, in_rev, Hx.
Qed.

Lemma tokens_trim (s : string) : tokens (trim s) = core (tokens s).
Proof.
  unfold trim. fold (core (tokens s)).
  destruct (core_split (tokens s)) as [before [after [Hl _]]].
  apply (tokens_prefix (core (tokens s)) (untokens (core (tokens s) ++ after)) after).
  apply (tokens_suffix before (String.EmptyString ++ untokens (tokens s))%string).
  cbn [append]. rewrite untokens_tokens. exact Hl.
Qed.

Lemma code_digitChar (d : Z) : 0 <= d <= 9 -> code (digitChar d) = 48 + d.
Proof. intros H. unfold digitChar. apply code_char. lia. Qed.

Lemma isDigit_digitChar (d : Z) : 0 <= d <= 9 -> isDigit (digitChar d) = true.
Proof.
  intros H. unfold isDigit. rewrite code_digitChar by assumption.
  apply andb_true_intro. split; apply Z.leb_le; lia.
Qed.

Lemma digitValue_digitChar (d : Z) :
  0 <= d <= 9 -> digitValue (digitChar d) = Some d.
Proof.
  intros H. unfold digitValue. rewrite code_digitChar by assumption.
  destruct (Z.leb_spec 48 (48 + d)); [|lia].
  destruct (Z.leb_spec (48 + d) 57); [|lia].
  cbn [andb]. f_equal. lia.
Qed.

Lemma isDigit_bounds (c : ascii) : isDigit c = true -> 48 <= code c <= 57.
Proof.
  unfold isDigit. intros H. apply andb_prop in H. destruct H as [H1 H2].
  apply Z.leb_le in H1. apply Z.leb_le in H2. lia.
Qed.

Lemma digitsOf_numeral (fuel : nat) (n : Z) (acc : string) :
  0 <= n -> isNumeral acc -> isNumeral (digitsOf fuel n acc).
Proof.
  revert n acc. induction fuel as [|fuel IH]; intros n acc Hn Hacc; simpl.
  - exact Hacc.
  - assert (isNumeral (String (digitChar (n mod 10)) acc)) as Hacc'.
    { intros c [<-|Hc].
      - apply isDigit_digitChar. pose proof (Z.mod_pos_bound n 10). lia.
      - apply Hacc, Hc. }
    destruct (n / 10 =? 0); [exact Hacc'|].
    apply IH; [apply Z.div_pos; lia|exact Hacc'].
Qed.

Lemma digitsOf_nonempty (fuel : nat) (n : Z) (acc : string) :
  digitsOf (S fuel) n acc <> EmptyString.
Proof.
  revert n acc. induction fuel as [|fuel IH]; intros n acc.
  - simpl. destruct (n / 10 =? 0); discriminate.
  - change (digitsOf (S (S fuel)) n acc)
      with (if n / 10 =? 0 then String (digitChar (n mod 10)) acc
            else digitsOf (S fuel) (n / 10) (String (digitChar (n mod 10)) acc)).
    destruct (n / 10 =? 0); [discriminate|apply IH].
Qed.

(** Reading back the digits written: the fuel [S f] covers every [n] below
    [2 ^ S f]. *)
Lemma parseDigits_digitsOf (f : nat) (n : Z) (acc : string) :
  0 <= n < 2 ^ Z.of_nat (S f) ->
  parseDigits 10 (digitsOf (S f) n acc) None = parseDigits 10 acc (Some n).
Proof.
  revert n acc. induction f as [|f IH]; intros n acc Hn.
  - change (2 ^ Z.of_nat 1) with 2 in Hn.
    assert (n / 10 = 0) as Hq by (apply Z.div_small; lia).
    cbn [digitsOf]. rewrite Hq. cbn [Z.eqb parseDigits].
    rewrite digitValue_digitChar by (rewrite Z.mod_small; lia).
    rewrite Z.mod_small by lia.
    destruct (Z.ltb_spec n 10); [|lia]. reflexivity.
  - change (digitsOf (S (S f)) n acc)
      with (if n / 10 =? 0 then String (digitChar (n mod 10)) acc
            else digitsOf (S f) (n / 10) (String (digitChar (n mod 10)) acc)).
    pose proof (Z.mod_pos_bound n 10 ltac:(lia)) as Hm.
    pose proof (Z.div_mod n 10 ltac:(lia)) as Hdm.
    destruct (Z.eqb_spec (n / 10) 0) as [Hq|Hq].
    + cbn [parseDigits]. rewrite digitValue_digitChar by lia.
      destruct (Z.ltb_spec (n mod 10) 10); [|lia].
      f_equal. f_equal. lia.
    + rewrite IH.
      * cbn [parseDigits]. rewrite digitValue_digitChar by lia.
        destruct (Z.ltb_spec (n mod 10) 10); [|lia].
        f_equal. f_equal. lia.
      * split; [apply Z.div_pos; lia|].
        apply Z.div_lt_upper_bound; [lia|].
        replace (Z.of_nat (S (S f))) with (Z.succ (Z.of_nat (S f))) in Hn by lia.
        rewrite Z.pow_succ_r in Hn by lia. lia.
Qed.

Lemma fuel_covers (n : Z) :
  0 <= n -> 0 <= n < 2 ^ Z.of_nat (S (Z.to_nat (Z.log2 n))).
Proof.
  intros Hn. split; [exact Hn|].
  pose proof (Z.log2_nonneg n) as Hl.
  replace (Z.of_nat (S (Z.to_nat (Z.log2 n)))) with (Z.succ (Z.log2 n)) by lia.
  destruct (Z.eq_dec n 0) as [->|Hne].
  - simpl. lia.
  - apply Z.log2_spec. lia.
Qed.

Lemma stripSign_digit (c : ascii) (r : string) :
  isDigit c = true -> stripSign (String c r) = (1, String c r).
Proof.
  intros H. apply isDigit_bounds in H. unfold stripSign.
  rewrite !eqb_code.
  change (code "-") with 45. change (code "+") with 43.
  destruct (Z.eqb_spec (code c) 45); [lia|].
  destruct (Z.eqb_spec (code c) 43); [lia|]. reflexivity.
Qed.

Lemma stripHexPrefix_numeral (s : string) :
  isNumeral s -> stripHexPrefix s = (10, s).
Proof.
  intros H. destruct s as [|c1 [|c2 r]]; try reflexivity.
  unfold stripHexPrefix.
  assert (48 <= code c2 <= 57) as Hc2.
  { apply isDigit_bounds, H. simpl. auto. }
  rewrite !eqb_code.
  change (code "x") with 120. change (code "X") with 88.
  destruct (Z.eqb_spec (code c2) 120); [lia|].
  destruct (Z.eqb_spec (code c2) 88); [lia|].
  rewrite andb_false_r. reflexivity.
Qed.

Lemma trimStart_digit (c : ascii) (r : string) :
  isDigit c = true -> trimStart (String c r) = String c r.
Proof.
  intros H. apply isDigit_bounds in H. apply trimStart_plain; [|lia].
  unfold isWhiteSpace1.
  destruct (Z.leb_spec (code c) 13); [lia|].
  destruct (Z.eqb_spec (code c) 32); [lia|].
  rewrite andb_false_r. reflexivity.
Qed.

Lemma parseInt_numeral (s : string) :
  s <> EmptyString -> isNumeral s -> parseInt s = parseDigits 10 s None.
Proof.
  intros Hne Hs. destruct s as [|c r]; [congruence|].
  assert (isDigit c = true) as Hc by (apply Hs; simpl; auto).
  unfold parseInt. rewrite trimStart_digit, stripSign_digit by assumption.
  rewrite stripHexPrefix_numeral by assumption.
  destruct (parseDigits 10 (String c r) None) as [v|]; [|reflexivity].
  f_equal. lia.
Qed.

(** [parseInt (String (n))] is [n]: of these definitions for every integer
    [n], of JavaScript for [n] up to [MAX_SAFE_INTEGER] on either side of
    zero. *)
Lemma parseInt_Number_toString (n : Z) : parseInt (Number_toString n) = Some n.
Proof.
  unfold Number_toString. destruct (Z.ltb_spec n 0) as [Hneg|Hpos].
  - set (digits := digitsOf (S (Z.to_nat (Z.log2 (- n)))) (- n) EmptyString).
    assert (isNumeral digits) as Hnum.
    { apply digitsOf_numeral; [lia|]. intros c []. }
    assert (parseDigits 10 digits None = Some (- n)) as Hval.
    { unfold digits. rewrite parseDigits_digitsOf by (apply fuel_covers; lia).
      reflexivity. }
    unfold parseInt. rewrite trimStart_plain.
    + unfold stripSign. rewrite Ascii.eqb_refl.
      rewrite stripHexPrefix_numeral by assumption.
      rewrite Hval. f_equal. lia.
    + reflexivity.
    + change (code "-") with 45. lia.
  - set (digits := digitsOf (S (Z.to_nat (Z.log2 n))) n EmptyString).
    assert (isNumeral digits) as Hnum.
    { apply digitsOf_numeral; [lia|]. intros c []. }
    assert (parseDigits 10 digits None = Some n) as Hval.
    { unfold digits. rewrite parseDigits_digitsOf by (apply fuel_covers; lia).
      reflexivity. }
    assert (digits <> EmptyString) as Hne by apply digitsOf_nonempty.
    rewrite parseInt_numeral by assumption. exact Hval.
Qed.

End TextFacts.

(** ** The query string read back *)

Section QueryFacts.

Import JS URLSearchParams.

Lemma hexDigit_code (n : Z) :
  0 <= n < 16 ->
  code (hexDigit n) = (if n <? 10 then 48 + n else 55 + n).
Proof.
  intros H. unfold hexDigit. destruct (n <? 10); apply code_char; lia.
Qed.

Lemma hexValue_hexDigit (n : Z) : 0 <= n < 16 -> hexValue (hexDigit n) = Some n.
Proof.
  intros H. unfold hexValue, digitValue. rewrite hexDigit_code by assumption.
  destruct (Z.ltb_spec n 10).
  - destruct (Z.leb_spec 48 (48 + n)); [|lia].
    destruct (Z.leb_spec (48 + n) 57); [|lia].
    cbn [andb]. replace (48 + n - 48) with n by lia.
    destruct (Z.ltb_spec n 16); [reflexivity|lia].
  - destruct (Z.leb_spec (55 + n) 57); [lia|].
    rewrite andb_false_r.
    destruct (Z.leb_spec 97 (55 + n)); [lia|].
    cbn [andb].
    destruct (Z.leb_spec 65 (55 + n)); [|lia].
    destruct (Z.leb_spec (55 + n) 90); [|lia].
    cbn [andb]. replace (55 + n - 55) with n by lia.
    destruct (Z.ltb_spec n 16); [reflexivity|lia].
Qed.

Lemma hexDigit_not (n : Z) (sep : ascii) :
  0 <= n < 16 -> code sep < 48 \/ code sep = 61 -> hexDigit n <> sep.
Proof.
  intros H Hs Heq. subst sep. rewrite hexDigit_code in Hs by assumption.
  destruct (n <? 10) eqn:E; [apply Z.ltb_lt in E|apply Z.ltb_ge in E]; lia.
Qed.

Lemma isPlain_not (c sep : ascii) :
  isPlain c = true -> In (code sep) [37; 38; 43; 61] -> c <> sep.
Proof.
  intros Hp Hs Heq. subst sep. unfold isPlain in Hp.
  simpl in Hs.
  repeat match type of Hp with
  | context [Z.leb ?a ?b] => destruct (Z.leb_spec a b)
  | context [Z.eqb ?a ?b] => destruct (Z.eqb_spec a b)
  end; simpl in Hp; try discriminate; lia.
Qed.

(** The serializer writes neither [&] nor [=]. *)
Lemma percentEncode_noneOf (s : string) (sep : ascii) :
  code sep = 38 \/ code sep = 61 -> noneOf sep (percentEncode s).
Proof.
  intros Hsep. induction s as [|c rest IH]; intros x Hx; [destruct Hx|].
  pose proof (code_range c) as Hc.
  assert (0 <= code c / 16 < 16) as Hhi
    by (split; [apply Z.div_pos|apply Z.div_lt_upper_bound]; lia).
  assert (0 <= code c mod 16 < 16) as Hlo by (apply Z.mod_pos_bound; lia).
  cbn [percentEncode] in Hx.
  destruct (code c =? 32).
  - destruct Hx as [<-|Hx]; [|apply IH, Hx].
    intros <-. change (code "+") with 43 in Hsep. lia.
  - destruct (isPlain c) eqn:Hp.
    + destruct Hx as [<-|Hx]; [|apply IH, Hx].
      apply isPlain_not; [exact Hp|]. simpl. lia.
    + destruct Hx as [<-|[<-|[<-|Hx]]]; [| | |apply IH, Hx].
      * intros <-. change (code "%") with 37 in Hsep. lia.
      * apply hexDigit_not; lia.
      * apply hexDigit_not; lia.
Qed.

Lemma percentDecode_percentEncode (s : string) :
  percentDecode (plusToSpace (percentEncode s)) = s.
Proof.
  induction s as [|c rest IH]; [reflexivity|].
  pose proof (code_range c) as Hc.
  assert (0 <= code c / 16 < 16) as Hhi
    by (split; [apply Z.div_pos|apply Z.div_lt_upper_bound]; lia).
  assert (0 <= code c mod 16 < 16) as Hlo by (apply Z.mod_pos_bound; lia).
  cbn [percentEncode].
  destruct (Z.eqb_spec (code c) 32) as [Hsp|Hsp].
  - cbn. rewrite IH. f_equal. apply code_inj. rewrite Hsp. reflexivity.
  - destruct (isPlain c) eqn:Hp.
    + cbn [plusToSpace percentDecode].
      assert (Ascii.eqb c "+" = false) as ->.
      { apply Ascii.eqb_neq, isPlain_not; [exact Hp|]. vm_compute. auto 6. }
      assert (Ascii.eqb c "%" = false) as ->.
      { apply Ascii.eqb_neq, isPlain_not; [exact Hp|]. vm_compute. auto 6. }
      rewrite IH. reflexivity.
    + cbn [plusToSpace].
      assert (Ascii.eqb (hexDigit (code c / 16)) "+" = false) as ->.
      { apply Ascii.eqb_neq, hexDigit_not; [lia|]. left. reflexivity. }
      assert (Ascii.eqb (hexDigit (code c mod 16)) "+" = false) as ->.
      { apply Ascii.eqb_neq, hexDigit_not; [lia|]. left. reflexivity. }
      change (Ascii.eqb "%" "+") with false. cbn iota.
      cbn [percentDecode]. change (Ascii.eqb "%" "%") with true. cbn iota.
      rewrite !hexValue_hexDigit by lia. rewrite IH. f_equal.
      rewrite <- (char_code c) at 3. f_equal.
      pose proof (Z.div_mod (code c) 16 ltac:(lia)). lia.
Qed.

Lemma splitFirst_append (sep : ascii) (a b : string) :
  noneOf sep a -> splitFirst sep (a ++ String sep b) = (a, b).
Proof.
  induction a as [|c a IH]; intros Ha; cbn [append splitFirst].
  - rewrite Ascii.eqb_refl. reflexivity.
  - assert (Ascii.eqb c sep = false) as ->.
    { apply Ascii.eqb_neq, Ha. simpl. auto. }
    rewrite IH; [reflexivity|]. intros x Hx. apply Ha. simpl. auto.
Qed.

Lemma splitOn_noneOf (sep : ascii) (a : string) :
  noneOf sep a -> splitOn sep a = [a].
Proof.
  induction a as [|c a IH]; intros Ha; cbn [splitOn]; [reflexivity|].
  assert (Ascii.eqb c sep = false) as ->.
  { apply Ascii.eqb_neq, Ha. simpl. auto. }
  rewrite IH; [reflexivity|]. intros x Hx. apply Ha. simpl. auto.
Qed.

Lemma splitOn_append (sep : ascii) (a b : string) :
  noneOf sep a -> splitOn sep (a ++ String sep b) = a :: splitOn sep b.
Proof.
  induction a as [|c a IH]; intros Ha; cbn [append splitOn].
  - rewrite Ascii.eqb_refl. reflexivity.
  - assert (Ascii.eqb c sep = false) as ->.
    { apply Ascii.eqb_neq, Ha. simpl. auto. }
    rewrite IH; [reflexivity|]. intros x Hx. apply Ha. simpl. auto.
Qed.

Lemma splitOn_join (sep : ascii) (parts : list string) :
  parts <> [] -> Forall (noneOf sep) parts ->
  splitOn sep (join sep parts) = parts.
Proof.
  induction parts as [|p rest IH]; intros Hne Hall; [congruence|].
  inversion Hall as [|? ? Hp Hrest]; subst.
  destruct rest as [|q rest].
  - cbn [join]. apply splitOn_noneOf, Hp.
  - change (join sep (p :: q :: rest)) with (p ++ String sep (join sep (q :: rest)))%string.
    rewrite splitOn_append by exact Hp.
    rewrite IH; [reflexivity|discriminate|exact Hrest].
Qed.

Lemma list_ascii_append (a b : string) :
  list_ascii_of_string (a ++ b) = (list_ascii_of_string a ++ list_ascii_of_string b)%list.
Proof.
  induction a as [|c a IH]; cbn; [|rewrite IH]; reflexivity.
Qed.

Lemma serializeTuple_noAmp (p : string * string) : noneOf "&" (serializeTuple p).
Proof.
  intros c Hc. unfold serializeTuple in Hc.
  rewrite list_ascii_append in Hc. apply in_app_or in Hc.
  destruct Hc as [Hc|[<-|Hc]].
  - revert c Hc. apply percentEncode_noneOf. left. reflexivity.
  - discriminate.
  - revert c Hc. apply percentEncode_noneOf. left. reflexivity.
Qed.

Lemma parseTuple_serializeTuple (p : string * string) :
  parseTuple (serializeTuple p) = p.
Proof.
  destruct p as [n v]. unfold parseTuple, serializeTuple. cbn [fst snd].
  rewrite splitFirst_append by (apply percentEncode_noneOf; right; reflexivity).
  rewrite !percentDecode_percentEncode. reflexivity.
Qed.

Lemma serializeTuple_truthy (p : string * string) :
  truthy (serializeTuple p) = true.
Proof.
  unfold serializeTuple. destruct (percentEncode (fst p)); reflexivity.
Qed.

(** Parsing what the serializer wrote gives the tuples back. *)
Lemma parse_toString (l : URLSearchParams.t) : parse (toString l) = l.
Proof.
  unfold parse, toString.
  destruct l as [|p l]; [reflexivity|].
  rewrite splitOn_join.
  - set (all := p :: l). clearbody all. clear p l.
    induction all as [|p l IH]; [reflexivity|].
    cbn [map filter]. rewrite serializeTuple_truthy. cbn [map].
    rewrite parseTuple_serializeTuple, IH. reflexivity.
  - discriminate.
  - apply Forall_forall. intros x Hx. apply in_map_iff in Hx.
    destruct Hx as [q [<- _]]. apply serializeTuple_noAmp.
Qed.

Lemma ofString_toString (l : URLSearchParams.t) :
  ofString (String "?" (toString l)) = l.
Proof. apply parse_toString. Qed.

End QueryFacts.

(** ** The list views: what the address bar restores *)

Section ListViewClaims.

Import JS Control ListView.

Lemma parseIntOf_Number_toString (n : Z) :
  parseIntOf (Some (Number_toString n)) = Some n.
Proof. apply parseInt_Number_toString. Qed.

(** What the effect on [location.search] reads from the string either page
    navigated to. *)
Lemma readLocationSearch_Habitats (p : ParamObj.t) :
  readLocationSearch (Habitats.updateURL_target p)
  = {| page := numberOr (Some (ParamObj.page p)) 1;
       pageSize := numberOr (Some (ParamObj.pageSize p)) 5;
       searchName := if given (ParamObj.name p)
                     then stringOrEmpty (ParamObj.name p) else EmptyString;
       filter := if given (ParamObj.filter p)
                 then stringOrEmpty (ParamObj.filter p) else EmptyString |}.
Proof.
  unfold readLocationSearch, Habitats.updateURL_target.
  rewrite ofString_toString.
  destruct (given (ParamObj.filter p)); destruct (given (ParamObj.name p));
    cbn -[Number_toString parseIntOf numberOr];
    rewrite !parseIntOf_Number_toString; reflexivity.
Qed.

Lemma readLocationSearch_Species (p : ParamObj.t) :
  readLocationSearch (Species.updateURL_target p)
  = {| page := numberOr (Some (ParamObj.page p)) 1;
       pageSize := numberOr (Some (ParamObj.pageSize p)) 5;
       searchName := if given (ParamObj.name p)
                     then stringOrEmpty (ParamObj.name p) else EmptyString;
       filter := if given (ParamObj.filter p)
                 then stringOrEmpty (ParamObj.filter p) else EmptyString |}.
Proof.
  unfold readLocationSearch, Species.updateURL_target.
  rewrite ofString_toString.
  destruct (given (ParamObj.filter p)); destruct (given (ParamObj.name p));
    cbn -[Number_toString parseIntOf numberOr];
    rewrite !parseIntOf_Number_toString; reflexivity.
Qed.

Lemma given_Some (s : string) :
  (if given (Some s) then stringOrEmpty (Some s) else EmptyString) = s.
Proof. destruct s; reflexivity. Qed.

Lemma numberOr_nonzero (n d : Z) : n <> 0 -> numberOr (Some n) d = n.
Proof.
  intros H. unfold numberOr. destruct (Z.eqb_spec n 0); [contradiction|reflexivity].
Qed.

(** The keys a navigation writes: [page] and [pageSize] always, [name] and
    [filter] when they are set. *)
Lemma keys_Habitats (p : ParamObj.t) :
  let q := URLSearchParams.ofString (Habitats.updateURL_target p) in
  URLSearchParams.has "page" q = true
  /\ URLSearchParams.has "pageSize" q = true
  /\ URLSearchParams.has "name" q = given (ParamObj.name p)
  /\ URLSearchParams.has "filter" q = given (ParamObj.filter p).
Proof.
  unfold Habitats.updateURL_target. cbv zeta. rewrite ofString_toString.
  destruct (given (ParamObj.filter p)); destruct (given (ParamObj.name p));
    cbn -[Number_toString]; auto.
Qed.

Lemma keys_Species (p : ParamObj.t) :
  let q := URLSearchParams.ofString (Species.updateURL_target p) in
  URLSearchParams.has "page" q = true
  /\ URLSearchParams.has "pageSize" q = true
  /\ URLSearchParams.has "name" q = given (ParamObj.name p)
  /\ URLSearchParams.has "filter" q = given (ParamObj.filter p).
Proof.
  unfold Species.updateURL_target. cbv zeta. rewrite ofString_toString.
  destruct (given (ParamObj.filter p)); destruct (given (ParamObj.name p));
    cbn -[Number_toString]; auto.
Qed.

(** C2: for a state with [page >= 1] (a safe integer) and [pageSize] one of
    5, 10, 20, whatever its search value and filter, the query either page
    writes for it holds [page] and [pageSize], holds [name] and [filter]
    exactly when they are set, and is read back as the same state. *)
Theorem URL_state_round_trip (s : State) :
  1 <= page s <= MAX_SAFE_INTEGER ->
  In (pageSize s) [5; 10; 20] ->
  let h := Habitats.updateURL_target (paramsOf s) in
  let sp := Species.updateURL_target (paramsOf s) in
  readLocationSearch h = s
  /\ readLocationSearch sp = s
  /\ (forall q, q = URLSearchParams.ofString h \/ q = URLSearchParams.ofString sp ->
      URLSearchParams.has "page" q = true
      /\ URLSearchParams.has "pageSize" q = true
      /\ URLSearchParams.has "name" q = truthy (searchName s)
      /\ URLSearchParams.has "filter" q = truthy (filter s)).
Proof.
  intros Hp Hs h sp. subst h sp.
  assert (pageSize s <> 0) as Hs0.
  { simpl in Hs. lia. }
  rewrite readLocationSearch_Habitats, readLocationSearch_Species.
  unfold paramsOf. cbn [ParamObj.name ParamObj.filter ParamObj.page ParamObj.pageSize].
  rewrite !given_Some, !numberOr_nonzero by lia.
  destruct s as [pg ps nm fl]. cbn [page pageSize searchName filter] in *.
  repeat split; try reflexivity;
    destruct H as [-> | ->];
    first [ apply (keys_Habitats (ParamObj.make (Some nm) (Some fl) pg ps))
          | apply (keys_Species (ParamObj.make (Some nm) (Some fl) pg ps)) ].
Qed.

Lemma URL_state_round_trip_witness :
  let s := {| page := 3; pageSize := 10; searchName := "lion"; filter := "name" |} in
  readLocationSearch (Habitats.updateURL_target (paramsOf s)) = s
  /\ readLocationSearch (Species.updateURL_target (paramsOf s)) = s.
Proof.
  intros s.
  assert (1 <= page s <= MAX_SAFE_INTEGER) as Hp by (vm_compute; split; discriminate).
  assert (In (pageSize s) [5; 10; 20]) as Hs by (simpl; auto).
  destruct (URL_state_round_trip s Hp Hs) as [H1 [H2 _]].
  split; assumption.
Defined.

(** C9, as amended: for every query string whose [page] and [pageSize],
    where [parseInt] reads a number in them, stay within
    [Number.MAX_SAFE_INTEGER] on either side of zero (the range in which
    [parseInt] gives the integer written, and not a rounded one or
    [Infinity]), the page and page size read are non-zero integers of that
    range; a missing, non-numeric or zero parameter gives the default, 1 or
    5; any other number is kept as it is read.  So the page is at least 1
    unless the parameter reads as a negative number, and the page size is
    one of 5, 10, 20 when the parameter is missing, non-numeric, zero or one
    of these three. *)
Theorem decoded_state_well_formed (search : string) :
  let params := URLSearchParams.ofString search in
  let queryPage := parseIntOf (URLSearchParams.get "page" params) in
  let querySize := parseIntOf (URLSearchParams.get "pageSize" params) in
  let st := readLocationSearch search in
  (forall n, queryPage = Some n -> - MAX_SAFE_INTEGER <= n <= MAX_SAFE_INTEGER) ->
  (forall n, querySize = Some n -> - MAX_SAFE_INTEGER <= n <= MAX_SAFE_INTEGER) ->
  page st <> 0 /\ pageSize st <> 0
  /\ - MAX_SAFE_INTEGER <= page st <= MAX_SAFE_INTEGER
  /\ - MAX_SAFE_INTEGER <= pageSize st <= MAX_SAFE_INTEGER
  /\ (URLSearchParams.get "page" params = None -> page st = 1)
  /\ (URLSearchParams.get "pageSize" params = None -> pageSize st = 5)
  /\ (queryPage = None \/ queryPage = Some 0 -> page st = 1)
  /\ (querySize = None \/ querySize = Some 0 -> pageSize st = 5)
  /\ (forall n, queryPage = Some n -> n <> 0 -> page st = n)
  /\ (forall n, querySize = Some n -> n <> 0 -> pageSize st = n)
  /\ (1 <= page st <-> ~ exists n, queryPage = Some n /\ n < 0)
  /\ (In (pageSize st) [5; 10; 20] <->
      querySize = None \/ exists n, querySize = Some n /\ In n [0; 5; 10; 20]).
Proof.
  intros params queryPage querySize st Hsafepage Hsafesize.
  assert (page st = numberOr queryPage 1) as Hpage by reflexivity.
  assert (pageSize st = numberOr querySize 5) as Hsize by reflexivity.
  rewrite Hpage, Hsize. clear Hpage Hsize.
  assert (URLSearchParams.get "page" params = None -> queryPage = None) as Hp0.
  { intros H. unfold queryPage. rewrite H. reflexivity. }
  assert (URLSearchParams.get "pageSize" params = None -> querySize = None) as Hs0.
  { intros H. unfold querySize. rewrite H. reflexivity. }
  clearbody queryPage querySize. unfold numberOr.
  change MAX_SAFE_INTEGER with 9007199254740991 in *.
  repeat split.
  - destruct queryPage as [n|]; [destruct (Z.eqb_spec n 0)|]; lia.
  - destruct querySize as [n|]; [destruct (Z.eqb_spec n 0)|]; lia.
  - destruct queryPage as [n|]; [|lia].
    specialize (Hsafepage n eq_refl). destruct (Z.eqb_spec n 0); lia.
  - destruct queryPage as [n|]; [|lia].
    specialize (Hsafepage n eq_refl). destruct (Z.eqb_spec n 0); lia.
  - destruct querySize as [n|]; [|lia].
    specialize (Hsafesize n eq_refl). destruct (Z.eqb_spec n 0); lia.
  - destruct querySize as [n|]; [|lia].
    specialize (Hsafesize n eq_refl). destruct (Z.eqb_spec n 0); lia.
  - intros H. rewrite (Hp0 H). reflexivity.
  - intros H. rewrite (Hs0 H). reflexivity.
  - intros [-> | ->]; reflexivity.
  - intros [-> | ->]; reflexivity.
  - intros n -> Hn. destruct (Z.eqb_spec n 0); [contradiction|reflexivity].
  - intros n -> Hn. destruct (Z.eqb_spec n 0); [contradiction|reflexivity].
  - intros H [n [-> Hn]]. destruct (Z.eqb_spec n 0); lia.
  - intros H. destruct queryPage as [n|]; [|lia].
    destruct (Z.eqb_spec n 0); [lia|].
    destruct (Z_lt_le_dec n 0) as [Hneg|Hpos]; [|lia].
    exfalso. apply H. exists n. split; [reflexivity|exact Hneg].
  - intros H. destruct querySize as [n|]; [|left; reflexivity].
    right. exists n. split; [reflexivity|].
    destruct (Z.eqb_spec n 0); simpl in *; lia.
  - intros [->|[n [-> Hn]]]; [simpl; lia|].
    destruct (Z.eqb_spec n 0); simpl in *; lia.
Qed.

Lemma decoded_state_well_formed_witness :
  let search := "?page=abc&pageSize=10"%string in
  let params := URLSearchParams.ofString search in
  let st := readLocationSearch search in
  parseIntOf (URLSearchParams.get "page" params) = None
  /\ parseIntOf (URLSearchParams.get "pageSize" params) = Some 10
  /\ page st = 1 /\ pageSize st = 10.
Proof.
  cbv zeta. split; [reflexivity|]. split; [reflexivity|].
  pose proof (decoded_state_well_formed "?page=abc&pageSize=10") as H.
  cbv zeta in H.
  assert (forall n,
            parseIntOf (URLSearchParams.get "page"
                          (URLSearchParams.ofString "?page=abc&pageSize=10"))
            = Some n ->
            - MAX_SAFE_INTEGER <= n <= MAX_SAFE_INTEGER) as Hsafepage.
  { intros n Hn. vm_compute in Hn. discriminate. }
  assert (forall n,
            parseIntOf (URLSearchParams.get "pageSize"
                          (URLSearchParams.ofString "?page=abc&pageSize=10"))
            = Some n ->
            - MAX_SAFE_INTEGER <= n <= MAX_SAFE_INTEGER) as Hsafesize.
  { intros n Hn. vm_compute in Hn. inversion Hn; subst n.
    vm_compute. split; discriminate. }
  destruct (H Hsafepage Hsafesize) as [_ [_ [_ [_ [_ [_ [Hp [_ [_ [Hs _]]]]]]]]]].
  split.
  - apply Hp. left. reflexivity.
  - apply (Hs 10); [reflexivity|discriminate].
Defined.

(** C9 as it was stated fails on a negative page and on a page size that
    is none of 5, 10, 20: both are kept as they are read. *)
Lemma decoded_state_negative_page :
  let st := readLocationSearch "?page=-3&pageSize=7" in
  page st = -3 /\ pageSize st = 7
  /\ ~ (1 <= page st /\ In (pageSize st) [5; 10; 20]).
Proof.
  split; [reflexivity|]. split; [reflexivity|].
  intros [H _]. vm_compute in H. apply H. reflexivity.
Qed.

End ListViewClaims.

(** ** The search gate *)

Section SearchGateClaims.

Import JS Control ListView SearchGate.

Lemma isWS_allowed (l : list token) :
  forallb isWS l = true -> forallb allowedToken l = true.
Proof.
  rewrite !forallb_forall. intros H x Hx. specialize (H x Hx).
  destruct x; [reflexivity|discriminate].
Qed.

Lemma core_nonempty (l : list token) : core l <> [] -> l <> [].
Proof. intros H ->. apply H. reflexivity. Qed.

(** The verdict of the pattern on a term that is not blank is its verdict
    on the trimmed term: white space is in the class. *)
Lemma validPattern_test_trim (s : string) :
  truthy (trim s) && validPattern_test s = validPattern_test (trim s).
Proof.
  unfold validPattern_test at 2. rewrite tokens_trim.
  destruct (core (tokens s)) as [|t rest] eqn:Hcore.
  - assert (trim s = EmptyString) as ->.
    { unfold trim. fold (core (tokens s)). rewrite Hcore. reflexivity. }
    reflexivity.
  - assert (truthy (trim s) = true) as ->.
    { destruct (trim s) eqn:Htrim; [|reflexivity].
      pose proof (tokens_trim s) as H. rewrite Htrim, Hcore in H. discriminate. }
    cbn [andb]. unfold validPattern_test.
    destruct (core_split (tokens s)) as [before [after [Hl [Hb Ha]]]].
    rewrite Hcore in Hl.
    destruct (tokens s) as [|t0 l0] eqn:Hts.
    { destruct before; discriminate. }
    rewrite Hl, !forallb_app, (isWS_allowed _ Hb), (isWS_allowed _ Ha).
    rewrite andb_true_r. reflexivity.
Qed.

Lemma searchGate_Habitats (st : State) :
  searchGate Habitats.handleSearchSubmit Habitats.updateURL_target st.
Proof.
  unfold searchGate, accepted, Habitats.handleSearchSubmit, Habitats.updateURL.
  fold (submitted st).
  destruct (truthy (trim (searchName st))); cbn [negb andb].
  - destruct (validPattern_test (searchName st)); cbn [negb].
    + repeat split; try discriminate.
      all: rewrite readLocationSearch_Habitats; unfold submitted;
        cbn [ParamObj.name ParamObj.filter ParamObj.page ParamObj.pageSize
             page searchName filter];
        try apply given_Some; reflexivity.
    + repeat split; try discriminate.
      intros _. unfold invalidInputNotice. eauto.
  - repeat split; try discriminate.
    intros _. eauto.
Qed.

Lemma searchGate_Species (st : State) :
  searchGate Species.handleSearchSubmit Species.updateURL_target st.
Proof.
  unfold searchGate, accepted, Species.handleSearchSubmit, Species.updateURL.
  fold (submitted st).
  destruct (truthy (trim (searchName st))); cbn [negb andb].
  - destruct (validPattern_test (searchName st)); cbn [negb].
    + repeat split; try discriminate.
      all: rewrite readLocationSearch_Species; unfold submitted;
        cbn [ParamObj.name ParamObj.filter ParamObj.page ParamObj.pageSize
             page searchName filter];
        try apply given_Some; reflexivity.
    + repeat split; try discriminate.
      intros _. unfold invalidInputNotice. eauto.
  - repeat split; try discriminate.
    intros _. eauto.
Qed.

(** C5: on submit, in the habitats page and in the species page, the URL is
    updated exactly when the search term is not blank and matches
    [/^[A-Za-z0-9\s\-']+$/], which is to say when the trimmed term matches
    it; the navigation then carries the term and the filter with the page
    back at 1.  Otherwise the handler only opens a
    notice (the allow-list notice when the pattern is what fails) and calls
    neither [navigate] nor a state setter.  [Savannah-2] passes and
    [Savannah!] is rejected without navigation. *)
Theorem search_validation_gate (st : State) :
  searchGate Habitats.handleSearchSubmit Habitats.updateURL_target st
  /\ searchGate Species.handleSearchSubmit Species.updateURL_target st
  /\ accepted st = validPattern_test (trim (searchName st))
  /\ (searchName st = "Savannah-2"%string ->
      accepted st = true)
  /\ (searchName st = "Savannah!"%string ->
      accepted st = false
      /\ Habitats.handleSearchSubmit st = [invalidInputNotice]
      /\ Species.handleSearchSubmit st = [invalidInputNotice]).
Proof.
  split; [apply searchGate_Habitats|]. split; [apply searchGate_Species|].
  split; [apply validPattern_test_trim|].
  split.
  - intros H. unfold accepted. rewrite H. reflexivity.
  - intros H. unfold accepted, Habitats.handleSearchSubmit,
      Species.handleSearchSubmit. rewrite H. repeat split; reflexivity.
Qed.

Lemma search_validation_gate_witness :
  let st := {| page := 4; pageSize := 10; searchName := "Savannah-2";
               filter := "name" |} in
  Habitats.handleSearchSubmit st
  = [Navigate "?filter=name&name=Savannah-2&page=1&pageSize=10"]
  /\ Species.handleSearchSubmit st
     = [Navigate "?name=Savannah-2&filter=name&page=1&pageSize=10"].
Proof.
  intros st.
  destruct (search_validation_gate st) as [[_ [Hh _]] [[_ [Hs _]] [_ [Hacc _]]]].
  assert (accepted st = true) as Ha by (apply Hacc; reflexivity).
  destruct (Hh Ha) as [-> _]. destruct (Hs Ha) as [-> _].
  split; reflexivity.
Defined.

End SearchGateClaims.

(** ** FetchWrapper.sendRequest *)

Section FetchWrapperClaims.

Import JS Control FetchWrapper.

Variable network : Network.
Variable baseURL : string.

(** One run of [sendRequest], case by case. *)
Lemma sendRequest_run (uri : string) (options : Options.t) (log : list Request) :
  sendRequest network baseURL uri options log
  = (match network log (requestOf baseURL uri options) with
     | Threw e => Threw (Custom (wrapped (Native e)))
     | Returned response =>
         match readResponseData response with
         | Threw e => Threw (Custom (wrapped (Native e)))
         | Returned responseData =>
             if Response.ok response then Returned responseData
             else Threw (Custom
                    {| CustomError.message := failureMessage responseData response;
                       CustomError.statusCode := Response.status response;
                       CustomError.details := responseData |})
         end
     end, (log ++ [requestOf baseURL uri options])%list).
Proof.
  unfold sendRequest, tryCatch, bind, fetch, requestOf.
  destruct (network log _) as [response|e]; [|reflexivity].
  unfold readBody.
  destruct (readResponseData response) as [responseData|e]; [|reflexivity].
  unfold ret. destruct (Response.ok response); reflexivity.
Qed.


(** C10, as amended: whatever the network does, what [sendRequest] throws
    is a [CustomError].  A rejection of [fetch] or of the body read (an
    error of the platform, never a [CustomError]) is thrown on as a
    [CustomError] with [statusCode] 0 and the empty object as [details].
    As long as responses carry an HTTP status, which is positive,
    [statusCode] is the positive HTTP status exactly on a response that was
    read and is not successful, and is 0 exactly when [fetch] rejected or
    the body of a response, whatever its status, could not be read.  So a
    [statusCode] above 0 tells a failure of the HTTP status, while a
    [statusCode] of 0 does not tell a failure of the transport from a
    response whose body was unreadable. *)
Theorem sendRequest_throws_CustomError (uri : string) (options : Options.t)
    (log : list Request) :
  let request := requestOf baseURL uri options in
  let result := fst (sendRequest network baseURL uri options log) in
  (forall error, result = Threw error -> instanceofCustomError error = true)
  /\ (forall e, network log request = Threw e ->
        result = Threw (Custom (wrapped (Native e))))
  /\ (forall response e,
        network log request = Returned response ->
        readResponseData response = Threw e ->
        result = Threw (Custom (wrapped (Native e))))
  /\ (forall error,
        CustomError.statusCode (wrapped error) = 0
        /\ CustomError.details (wrapped error) = JObject [])
  /\ ((forall response,
         network log request = Returned response -> 0 < Response.status response) ->
      forall c, result = Threw (Custom c) ->
        (CustomError.statusCode c = 0 <->
           (exists e, network log request = Threw e)
           \/ (exists response e,
                 network log request = Returned response
                 /\ readResponseData response = Threw e))
        /\ (0 < CustomError.statusCode c <->
            exists response payload,
              network log request = Returned response
              /\ readResponseData response = Returned payload
              /\ Response.ok response = false
              /\ CustomError.statusCode c = Response.status response)).
Proof.
  intros request result. subst request result.
  rewrite sendRequest_run. cbn [fst].
  split; [|split; [|split; [|split]]].
  - intros error.
    destruct (network log _) as [response|e].
    + destruct (readResponseData response) as [payload|e].
      * destruct (Response.ok response); [discriminate|].
        intros H; inversion H; reflexivity.
      * intros H; inversion H; reflexivity.
    + intros H; inversion H; reflexivity.
  - intros e ->. reflexivity.
  - intros response e -> ->. reflexivity.
  - intros error. split; reflexivity.
  - intros Hstatus c.
    destruct (network log _) as [response|e] eqn:Hnet.
    + specialize (Hstatus response eq_refl).
      destruct (readResponseData response) as [payload|e] eqn:Hbody.
      * destruct (Response.ok response) eqn:Hok; [discriminate|].
        intros H; inversion H; subst c; clear H. cbn [CustomError.statusCode].
        split; split.
        -- lia.
        -- intros [[e He]|[r [e [Hr He]]]]; [discriminate|].
           inversion Hr; subst r. congruence.
        -- intros _. exists response, payload. auto.
        -- intros _. exact Hstatus.
      * intros H; inversion H; subst c; clear H. cbn [CustomError.statusCode wrapped].
        split; split.
        -- intros _. right. exists response, e. auto.
        -- reflexivity.
        -- lia.
        -- intros [r [payload [Hr [Hp _]]]]. inversion Hr; subst r. congruence.
    + intros H; inversion H; subst c; clear H. cbn [CustomError.statusCode wrapped].
      split; split.
      * intros _. left. exists e. reflexivity.
      * reflexivity.
      * lia.
      * intros [r [payload [Hr _]]]. discriminate.
Qed.

End FetchWrapperClaims.

Section FetchWrapperScenarios.

Import JS Control FetchWrapper PagedServer.

Local Open Scope string_scope.



Lemma sendRequest_throws_CustomError_witness :
  let options := {| Options.method := Some "POST"; Options.headers := [];
                    Options.body := JArray [] |} in
  let c := {| CustomError.message := "Conflict";
              CustomError.statusCode := 409;
              CustomError.details :=
                JObject [("code", JNumber 23000); ("id", JString "HA-001")] |} in
  fst (sendRequest duplicateNetwork DeleteResource.baseURL "/habitats" options [])
  = Threw (Custom c)
  /\ (0 < CustomError.statusCode c)%Z.
Proof.
  intros options c. split; [reflexivity|].
  destruct (sendRequest_throws_CustomError duplicateNetwork
              DeleteResource.baseURL "/habitats" options [])
    as [_ [_ [_ [_ H]]]].
  assert (forall response,
            duplicateNetwork [] (requestOf DeleteResource.baseURL "/habitats" options)
            = Returned response -> (0 < Response.status response)%Z) as Hstatus.
  { intros response Hr. inversion Hr. reflexivity. }
  destruct (H Hstatus c eq_refl) as [_ [_ Hpos]].
  apply Hpos. eexists. eexists.
  split; [reflexivity|]. split; [reflexivity|]. split; reflexivity.
Defined.

(** C10 as it was stated fails: [statusCode] alone does not tell a failure
    of the transport from a failure of the HTTP status.  Without a
    connection, and against a server that answers 500 with a body announced
    as JSON that is not JSON, the errors thrown both have [statusCode] 0;
    in the second case [fetch] resolved and the status is 500. *)
Lemma statusCode_zero_without_transport_failure :
  let options := {| Options.method := Some "POST"; Options.headers := [];
                    Options.body := JArray [] |} in
  let request := requestOf DeleteResource.baseURL "/species" options in
  let offline := fst (sendRequest offlineNetwork DeleteResource.baseURL
                        "/species" options []) in
  let answered := fst (sendRequest brokenBodyNetwork DeleteResource.baseURL
                         "/species" options []) in
  (exists e, offlineNetwork [] request = Threw e)
  /\ (exists response,
        brokenBodyNetwork [] request = Returned response
        /\ Response.ok response = false
        /\ Response.status response = 500%Z)
  /\ exists c1 c2,
       offline = Threw (Custom c1)
       /\ answered = Threw (Custom c2)
       /\ CustomError.statusCode c1 = 0%Z
       /\ CustomError.statusCode c2 = 0%Z.
Proof.
  cbv zeta. split; [eexists; reflexivity|].
  split; [eexists; repeat split|].
  eexists. eexists. repeat split.
Qed.

End FetchWrapperScenarios.

(** ** The drain loops *)

Section DrainClaims.

Import JS Control FetchWrapper PagedServer.

Local Open Scope string_scope.

Variable network : Network.

Lemma mapProperty_objects (key : string) (records : list (list (string * JSValue))) :
  DeleteResource.mapProperty key (map JObject records)
  = Returned (map (getField key) records).
Proof.
  induction records as [|r rest IH]; [reflexivity|].
  cbn [map DeleteResource.mapProperty DeleteResource.readProperty optChain].
  rewrite IH. reflexivity.
Qed.

Lemma pageURI_slash (resourceType : string) (p : Z) :
  DeleteResource.pageURI resourceType p
  = CreateResource.pageURI ("/" ++ resourceType) p.
Proof. reflexivity. Qed.

(** One request of the loop against such a server: the page comes back, and
    the log grows by that request. *)
Lemma get_page (endpoint : string) (items : Z -> list (list (string * JSValue)))
    (N p : Z) (log : list Request) :
  serves network endpoint items N -> (1 <= p <= N)%Z ->
  exists body,
    get network DeleteResource.baseURL (CreateResource.pageURI endpoint p) [] log
    = (Returned body, (log ++ [getRequest (CreateResource.pageURI endpoint p)])%list)
    /\ optChain body "data" = JArray (map JObject (items p))
    /\ DeleteResource.totalPagesOf body = JNumber N.
Proof.
  intros Hserves Hp.
  destruct (Hserves log p Hp) as [response [Hnet [Hok [body [Hbody [Hdata Htotal]]]]]].
  exists body. unfold get. rewrite sendRequest_run.
  fold (getRequest (CreateResource.pageURI endpoint p)).
  rewrite Hnet, Hbody, Hok. split; [reflexivity|]. split; [exact Hdata|].
  unfold DeleteResource.totalPagesOf, valueOr. rewrite Htotal.
  cbn [truthyValue]. destruct (Z.eqb_spec N 0); [lia|reflexivity].
Qed.

Lemma lessEq_number (p N : Z) : lessEq p (JNumber N) = (p <=? N)%Z.
Proof. reflexivity. Qed.

(** The loop of [fetchIds], from page [page] with [k] pages left. *)
Lemma drain_pages (resourceType : string)
    (items : Z -> list (list (string * JSValue))) (N : Z) :
  serves network ("/" ++ resourceType) items N ->
  forall (k fuel : nat) (page : Z) (allIds : list JSValue) (log : list Request),
    (1 <= page)%Z -> (page + Z.of_nat k = N)%Z -> (S k <= fuel)%nat ->
    DeleteResource.drain network fuel resourceType allIds page log
    = (Returned
         (Some (allIds
                ++ flat_map
                     (fun p => map (getField (DeleteResource.idKey resourceType)) (items p))
                     (Pagination.run (S k) page))%list),
       (log ++ map (fun p => getRequest (DeleteResource.pageURI resourceType p))
                 (Pagination.run (S k) page))%list).
Proof.
  intros Hserves. induction k as [|k IH]; intros fuel page allIds log Hp Hk Hf.
  - destruct fuel as [|fuel]; [lia|].
    cbn [DeleteResource.drain]. unfold bind at 1.
    rewrite pageURI_slash.
    destruct (get_page ("/" ++ resourceType) items N page log Hserves ltac:(lia))
      as [body [-> [Hdata Htotal]]].
    unfold bind at 1. rewrite Hdata, mapProperty_objects.
    cbn [DeleteResource.lift]. unfold ret at 1.
    rewrite Htotal, lessEq_number.
    destruct (Z.leb_spec (page + 1) N); [lia|].
    unfold ret. cbn [Pagination.run flat_map map]. rewrite app_nil_r.
    reflexivity.
  - destruct fuel as [|fuel]; [lia|].
    cbn [DeleteResource.drain]. unfold bind at 1.
    rewrite pageURI_slash.
    destruct (get_page ("/" ++ resourceType) items N page log Hserves ltac:(lia))
      as [body [-> [Hdata Htotal]]].
    unfold bind at 1. rewrite Hdata, mapProperty_objects.
    cbn [DeleteResource.lift]. unfold ret at 1.
    rewrite Htotal, lessEq_number.
    destruct (Z.leb_spec (page + 1) N); [|lia].
    rewrite IH by lia.
    change (Pagination.run (S (S k)) page)
      with (page :: Pagination.run (S k) (page + 1)).
    cbn [flat_map map]. rewrite <- !app_assoc. reflexivity.
Qed.

(** The loop of [fetchAllIds], likewise. *)
Lemma fetchAllIds_pages (endpoint : string)
    (items : Z -> list (list (string * JSValue))) (N : Z) :
  serves network endpoint items N ->
  forall (k fuel : nat) (page : Z) (all : list JSValue) (log : list Request),
    (1 <= page)%Z -> (page + Z.of_nat k = N)%Z -> (S k <= fuel)%nat ->
    CreateResource.fetchAllIds_loop network fuel endpoint all page log
    = (Returned
         (Some (all ++ flat_map (fun p => map JObject (items p))
                         (Pagination.run (S k) page))%list),
       (log ++ map (fun p => getRequest (CreateResource.pageURI endpoint p))
                 (Pagination.run (S k) page))%list).
Proof.
  intros Hserves. induction k as [|k IH]; intros fuel page all log Hp Hk Hf.
  - destruct fuel as [|fuel]; [lia|].
    cbn [CreateResource.fetchAllIds_loop]. unfold bind at 1.
    destruct (get_page endpoint items N page log Hserves ltac:(lia))
      as [body [Hget [Hdata Htotal]]].
    change CreateResource.baseURL with DeleteResource.baseURL. rewrite Hget.
    unfold bind at 1. rewrite Hdata.
    cbn [CreateResource.spreadValue DeleteResource.lift]. unfold ret at 1.
    rewrite Htotal, lessEq_number.
    destruct (Z.leb_spec (page + 1) N); [lia|].
    unfold ret. cbn [Pagination.run flat_map map]. rewrite app_nil_r.
    reflexivity.
  - destruct fuel as [|fuel]; [lia|].
    cbn [CreateResource.fetchAllIds_loop]. unfold bind at 1.
    destruct (get_page endpoint items N page log Hserves ltac:(lia))
      as [body [Hget [Hdata Htotal]]].
    change CreateResource.baseURL with DeleteResource.baseURL. rewrite Hget.
    unfold bind at 1. rewrite Hdata.
    cbn [CreateResource.spreadValue DeleteResource.lift]. unfold ret at 1.
    rewrite Htotal, lessEq_number.
    destruct (Z.leb_spec (page + 1) N); [|lia].
    rewrite IH by lia.
    change (Pagination.run (S (S k)) page)
      with (page :: Pagination.run (S k) (page + 1)).
    cbn [flat_map map]. rewrite <- !app_assoc. reflexivity.
Qed.

Lemma mapProperty_flat_map (key : string)
    (items : Z -> list (list (string * JSValue))) (pages : list Z) :
  CreateResource.idsOf key (flat_map (fun p => map JObject (items p)) pages)
  = Returned (flat_map (fun p => map (getField key) (items p)) pages).
Proof.
  unfold CreateResource.idsOf.
  assert (flat_map (fun p => map JObject (items p)) pages
          = map JObject (flat_map items pages)) as ->.
  { induction pages as [|p rest IH]; [reflexivity|].
    cbn [flat_map]. rewrite map_app, IH. reflexivity. }
  rewrite mapProperty_objects. f_equal.
  induction pages as [|p rest IH]; [reflexivity|].
  cbn [flat_map]. rewrite map_app, IH. reflexivity.
Qed.

(** C6: against a server that answers page [p] of the collection with the
    records [items p] and a constant [total_pages = N >= 1], the loop of
    [fetchIds] and the loop of [fetchAllIds] request the pages 1, 2, ..., N
    in this order at page size 20, end after these [N] requests (any fuel
    from [N] on is enough), and hand over the identifiers of page 1, then
    those of page 2, ..., then those of page [N]: nothing left out, nothing
    added. *)
Theorem exhaustive_paged_fetch (resourceType endpoint : string)
    (items : Z -> list (list (string * JSValue))) (N : Z) (fuel : nat)
    (log : list Request) :
  (1 <= N <= MAX_SAFE_INTEGER)%Z ->
  (Z.to_nat N <= fuel)%nat ->
  let pages := Pagination.run (Z.to_nat N) 1 in
  let idsBy key := flat_map (fun p => map (getField key) (items p)) pages in
  List.length pages = Z.to_nat N
  /\ (forall p, In p pages <-> (1 <= p <= N)%Z)
  /\ (serves network ("/" ++ resourceType) items N ->
      DeleteResource.fetchIds network fuel resourceType log
      = (Returned
           (Some [SetResourceId (idsBy (DeleteResource.idKey resourceType));
                  SetSelectedId EmptyString]),
         (log ++ map (fun p => getRequest (DeleteResource.pageURI resourceType p))
                   pages)%list))
  /\ (serves network endpoint items N ->
      CreateResource.fetchAllIds network fuel endpoint log
      = (Returned (Some (flat_map (fun p => map JObject (items p)) pages)),
         (log ++ map (fun p => getRequest (CreateResource.pageURI endpoint p))
                   pages)%list)
      /\ forall key,
           CreateResource.idsOf key
             (flat_map (fun p => map JObject (items p)) pages)
           = Returned (idsBy key)).
Proof.
  intros HN Hfuel pages idsBy. subst idsBy pages.
  assert (Z.to_nat N = S (Z.to_nat (N - 1))) as HS by lia.
  split; [apply run_length|]. split.
  { intros p. rewrite run_In. lia. }
  split.
  - intros Hserves. unfold DeleteResource.fetchIds, tryCatch, bind.
    rewrite HS.
    rewrite (drain_pages resourceType items N Hserves (Z.to_nat (N - 1)))
      by lia.
    reflexivity.
  - intros Hserves. split.
    + unfold CreateResource.fetchAllIds. rewrite HS.
      rewrite (fetchAllIds_pages endpoint items N Hserves (Z.to_nat (N - 1)))
        by lia.
      reflexivity.
    + intros key. apply mapProperty_flat_map.
Qed.

End DrainClaims.

Section DrainScenario.

Import JS Control FetchWrapper PagedServer.

Local Open Scope string_scope.

Lemma sampleNetwork_serves : serves sampleNetwork "/habitats" sampleItems 3.
Proof.
  intros log p Hp.
  assert (p = 1 \/ p = 2 \/ p = 3)%Z as [-> | [-> | ->]] by lia.
  - exists (jsonResponse 200 true "OK" (pageBody (sampleItems 1) 3)).
    split; [reflexivity|]. split; [reflexivity|].
    exists (pageBody (sampleItems 1) 3). repeat split.
  - exists (jsonResponse 200 true "OK" (pageBody (sampleItems 2) 3)).
    split; [reflexivity|]. split; [reflexivity|].
    exists (pageBody (sampleItems 2) 3). repeat split.
  - exists (jsonResponse 200 true "OK" (pageBody (sampleItems 3) 3)).
    split; [reflexivity|]. split; [reflexivity|].
    exists (pageBody (sampleItems 3) 3). repeat split.
Defined.

Lemma exhaustive_paged_fetch_witness :
  fst (DeleteResource.fetchIds sampleNetwork 3 "habitats" [])
  = Returned
      (Some [SetResourceId [JString "HA-001"; JString "HA-002"; JString "HA-003";
                            JString "HA-004"; JString "HA-005"; JString "HA-006"];
             SetSelectedId EmptyString])
  /\ List.length (snd (DeleteResource.fetchIds sampleNetwork 3 "habitats" [])) = 3%nat.
Proof.
  assert (1 <= 3 <= MAX_SAFE_INTEGER)%Z as HN by (vm_compute; split; discriminate).
  assert (Z.to_nat 3 <= 3)%nat as Hfuel by (vm_compute; apply le_n).
  destruct (exhaustive_paged_fetch sampleNetwork "habitats" "/habitats"
              sampleItems 3 3 [] HN Hfuel) as [_ [_ [H _]]].
  rewrite (H sampleNetwork_serves). split; reflexivity.
Defined.

End DrainScenario.

(** ** The create form: what a failed submission shows *)

Section CreateResourceClaims.

Import JS Control FetchWrapper PagedServer.

Local Open Scope string_scope.

Variable network : Network.

(** The submission of a form that passes the field check, by what
    [api.post] settles to. *)
Lemma handleSubmit_run (resourceType : string) (formData : list (string * string))
    (log : list Request) :
  CreateResource.validate resourceType formData = [] ->
  CreateResource.handleSubmit network resourceType formData log
  = match post network CreateResource.baseURL
            (CreateResource.endpointOf resourceType)
            (JArray [JObject (CreateResource.parsedDataOf resourceType formData)])
            [] log with
    | (Returned _, log') =>
        (Returned [SetErrors [];
                   SwalFire "Success" (resourceType ++ " created successfully!")
                     "success";
                   SetFormData []], log')
    | (Threw err, log') =>
        (Returned
           [SetErrors [];
            if strictEqualsNumber (optChain (CreateResource.detailsOf err) "code") 23000
            then CreateResource.duplicateNotice
                   (optChain (CreateResource.detailsOf err) "id")
            else CreateResource.genericNotice err], log')
    end.
Proof.
  intros Hvalid. unfold CreateResource.handleSubmit. rewrite Hvalid.
  cbn [negb CreateResource.noErrors]. unfold tryCatch, bind.
  destruct (post network _ _ _ _ log) as [[v|err] log']; [reflexivity|].
  destruct (strictEqualsNumber _ 23000); reflexivity.
Qed.

Lemma strictEqualsNumber_iff (v : JSValue) (n : Z) :
  strictEqualsNumber v n = true <-> v = JNumber n.
Proof.
  destruct v; cbn [strictEqualsNumber]; split; intros H; try discriminate.
  - apply Z.eqb_eq in H. congruence.
  - inversion H. apply Z.eqb_refl.
Qed.

(** C7: when the submission of a form that passed the field check fails
    with the error [err], the handler opens one dialog: the duplicate
    notice, whose text names [err.details.id] as already existing, exactly
    when [err.details.code] is the number 23000, and otherwise the generic
    notice, titled [Error], whose text is the message of the error (derived
    by [sendRequest] from the payload) or the stock sentence.  The two
    dialogs differ. *)
Theorem duplicate_key_mapping (resourceType : string)
    (formData : list (string * string)) (log : list Request) (err : Exception) :
  CreateResource.validate resourceType formData = [] ->
  fst (post network CreateResource.baseURL
         (CreateResource.endpointOf resourceType)
         (JArray [JObject (CreateResource.parsedDataOf resourceType formData)])
         [] log) = Threw err ->
  let effects :=
    fst (CreateResource.handleSubmit network resourceType formData log) in
  let code := optChain (CreateResource.detailsOf err) "code" in
  let duplicateId := optChain (CreateResource.detailsOf err) "id" in
  (effects = Returned [SetErrors []; CreateResource.duplicateNotice duplicateId]
   <-> code = JNumber 23000)
  /\ (effects = Returned [SetErrors []; CreateResource.genericNotice err]
      <-> code <> JNumber 23000)
  /\ CreateResource.duplicateNotice duplicateId
     = SwalFire "Duplicate ID"
         ("A record with ID " ++ CreateResource.dquote ++ ToString duplicateId
          ++ CreateResource.dquote ++ " already exists.")
         "warning"
  /\ CreateResource.genericNotice err
     = SwalFire "Error"
         (if truthy (messageOf err) then messageOf err
          else "Something went wrong.") "error"
  /\ CreateResource.duplicateNotice duplicateId <> CreateResource.genericNotice err.
Proof.
  intros Hvalid Hpost effects code duplicateId. subst effects.
  rewrite handleSubmit_run by exact Hvalid.
  destruct (post network _ _ _ _ log) as [[v|e] log']; cbn [fst] in Hpost;
    [discriminate|].
  inversion Hpost; subst e; clear Hpost. cbn [fst].
  fold code. fold duplicateId.
  assert (CreateResource.duplicateNotice duplicateId
          <> CreateResource.genericNotice err) as Hdiff.
  { unfold CreateResource.duplicateNotice, CreateResource.genericNotice.
    discriminate. }
  pose proof (strictEqualsNumber_iff code 23000) as Hiff.
  destruct (strictEqualsNumber code 23000).
  - assert (code = JNumber 23000) as Hc by (apply Hiff; reflexivity).
    split; [split; [intros _; exact Hc|intros _; reflexivity]|].
    split; [split|].
    + intros H. exfalso. apply Hdiff. congruence.
    + intros H. contradiction.
    + split; [reflexivity|]. split; [reflexivity|exact Hdiff].
  - assert (code <> JNumber 23000) as Hc.
    { intros H. apply Hiff in H. discriminate. }
    split; [split|].
    + intros H. exfalso. apply Hdiff. congruence.
    + intros H. contradiction.
    + split; [split; [intros _; exact Hc|intros _; reflexivity]|].
      split; [reflexivity|]. split; [reflexivity|exact Hdiff].
Qed.

End CreateResourceClaims.

Section CreateResourceScenario.

Import JS Control FetchWrapper PagedServer.

Local Open Scope string_scope.

(** A valid habitat form whose creation is answered with
    [{ code: 23000, id: 'HA-001' }]: the dialog names [HA-001]. *)
Lemma duplicate_key_mapping_witness :
  fst (CreateResource.handleSubmit duplicateNetwork "habitat" sampleHabitatForm [])
  = Returned
      [SetErrors [];
       SwalFire "Duplicate ID"
         ("A record with ID " ++ CreateResource.dquote ++ "HA-001"
          ++ CreateResource.dquote ++ " already exists.")
         "warning"].
Proof.
  set (err := Custom
        {| CustomError.message := "Conflict";
           CustomError.statusCode := 409;
           CustomError.details :=
             JObject [("code", JNumber 23000); ("id", JString "HA-001")] |}).
  destruct (duplicate_key_mapping duplicateNetwork "habitat"
              sampleHabitatForm [] err eq_refl eq_refl) as [[_ H] _].
  rewrite (H eq_refl). reflexivity.
Defined.

End CreateResourceScenario.

(** ** Clicks on the pagination *)

Section PaginationClickFacts.

Import JS Control ListView Pagination PaginationClicks.

Lemma window_bounds (page totalPages visiblePages : Z) :
  1 <= startPage page totalPages visiblePages
  /\ endPage page totalPages visiblePages <= totalPages.
Proof.
  split; [|apply endPage_le_totalPages].
  unfold startPage, window.
  destruct (Z.max 1 (page - visiblePages / 2) + visiblePages - 1 >? totalPages);
    cbn [fst]; lia.
Qed.

Lemma numbered_only_buttons (fuel : nat) (page i e : Z) (it : item) :
  In it (numbered fuel page i e) ->
  exists l, it = PageButton l (page =? l) /\ i <= l <= e.
Proof.
  revert i. induction fuel as [|fuel IH]; intros i Hi; [destruct Hi|].
  cbn [numbered] in Hi. destruct (Z.leb_spec i e); [|destruct Hi].
  destruct Hi as [<-|Hi].
  - exists i. split; [reflexivity|lia].
  - destruct (IH _ Hi) as [l [-> Hl]]. exists l. split; [reflexivity|lia].
Qed.

(** Where each element of the rendering leads. *)
Lemma Pagination_item_cases (page totalPages visiblePages : Z) (it : item) :
  In it (Pagination page totalPages visiblePages) ->
  (it = Previous (page - 1) /\ 1 < page)
  \/ (exists i, it = PageButton i (page =? i) /\ 1 <= i <= totalPages)
  \/ (it = Next (page + 1) /\ page < totalPages).
Proof.
  pose proof (window_bounds page totalPages visiblePages) as [Hs He].
  unfold Pagination, startPage, endPage in *.
  destruct (window page totalPages visiblePages) as [s e]. cbn [fst snd] in *.
  rewrite !in_app_iff. intros [Hi|[Hi|Hi]].
  - left. destruct (Z.gtb_spec page 1); [|destruct Hi].
    destruct Hi as [<-|[]]. split; [reflexivity|lia].
  - right. left. apply numbered_only_buttons in Hi.
    destruct Hi as [i [-> Hi]]. exists i. split; [reflexivity|lia].
  - right. right. destruct (Z.ltb_spec page totalPages); [|destruct Hi].
    destruct Hi as [<-|[]]. split; [reflexivity|lia].
Qed.

(** X1: whatever the current page, the total and the number of buttons
    asked for, every numbered button carries a page between 1 and
    [totalPages]; and when the current page itself lies between 1 and
    [totalPages], so does the page any element of the pagination leads to
    ([Previous] to [page - 1], [Next] to [page + 1]). *)
Theorem Pagination_click_targets (page totalPages visiblePages : Z) (it : item) :
  In it (Pagination page totalPages visiblePages) ->
  (forall i a, it = PageButton i a -> 1 <= i <= totalPages)
  /\ (forall t, it = Previous t -> t = page - 1 /\ 1 <= t)
  /\ (forall t, it = Next t -> t = page + 1 /\ t <= totalPages)
  /\ (1 <= page <= totalPages -> 1 <= onClick it <= totalPages).
Proof.
  intros Hin.
  destruct (Pagination_item_cases page totalPages visiblePages it Hin)
    as [[-> Hp]|[[i [-> Hi]]|[-> Hn]]].
  - split; [discriminate|]. split; [intros t Ht; inversion Ht; lia|].
    split; [discriminate|]. cbn [onClick]. lia.
  - split; [intros j a Hj; inversion Hj; subst; exact Hi|].
    split; [discriminate|]. split; [discriminate|]. cbn [onClick]. lia.
  - split; [discriminate|]. split; [discriminate|].
    split; [intros t Ht; inversion Ht; lia|]. cbn [onClick]. lia.
Qed.

Lemma Pagination_click_targets_witness :
  In (Next 10) (Pagination 9 10 5) /\ 1 <= onClick (Next 10) <= 10.
Proof.
  assert (In (Next 10) (Pagination 9 10 5)) as Hin by (vm_compute; auto 10).
  split; [exact Hin|].
  destruct (Pagination_click_targets 9 10 5 (Next 10) Hin) as [_ [_ [_ H]]].
  apply H. lia.
Defined.

Lemma onClick_in_range (page totalPages visiblePages : Z) (it : item) :
  1 <= page <= totalPages ->
  In it (Pagination page totalPages visiblePages) ->
  1 <= onClick it <= totalPages.
Proof.
  intros Hp Hin.
  destruct (Pagination_item_cases page totalPages visiblePages it Hin)
    as [[-> H]|[[i [-> H]]|[-> H]]]; cbn [onClick]; lia.
Qed.

(** The state a list view restores after a navigation of its own. *)
Lemma readLocationSearch_paramsOf (st : State) (newPage newSize : Z) :
  newPage <> 0 -> newSize <> 0 ->
  let p := {| ParamObj.name := Some (searchName st);
              ParamObj.filter := Some (filter st);
              ParamObj.page := newPage;
              ParamObj.pageSize := newSize |} in
  let restored := {| page := newPage; pageSize := newSize;
                     searchName := searchName st; filter := filter st |} in
  readLocationSearch (Habitats.updateURL_target p) = restored
  /\ readLocationSearch (Species.updateURL_target p) = restored.
Proof.
  intros Hp Hs p restored. subst p restored.
  rewrite readLocationSearch_Habitats, readLocationSearch_Species.
  cbn [ParamObj.name ParamObj.filter ParamObj.page ParamObj.pageSize].
  rewrite !given_Some, !numberOr_nonzero by assumption. split; reflexivity.
Qed.

(** X2: in a list view whose current page lies between 1 and [totalPages],
    with [totalPages] and the page size within [Number.MAX_SAFE_INTEGER]
    (the integers a query holds in plain digits and [parseInt] reads as
    they are) and a page size that is not 0, a click on any element of the
    pagination sets the page to a value between 1 and [totalPages] and
    navigates to a query that is read back as that page, with the page
    size, the search term and the filter unchanged.  This holds in the
    habitats page and in the species page. *)
Theorem pagination_click_restores (st : State) (totalPages visiblePages : Z)
    (it : item) :
  1 <= page st <= totalPages ->
  totalPages <= MAX_SAFE_INTEGER ->
  - MAX_SAFE_INTEGER <= pageSize st <= MAX_SAFE_INTEGER ->
  pageSize st <> 0 ->
  In it (Pagination (page st) totalPages visiblePages) ->
  let newPage := onClick it in
  let restored := {| page := newPage; pageSize := pageSize st;
                     searchName := searchName st; filter := filter st |} in
  1 <= newPage <= totalPages
  /\ (exists to, Habitats.handlePageChange st newPage = [SetPage newPage; Navigate to]
                 /\ readLocationSearch to = restored)
  /\ (exists to, Species.handlePageChange st newPage = [SetPage newPage; Navigate to]
                 /\ readLocationSearch to = restored).
Proof.
  intros Hp Htotal Hsafe Hs Hin newPage restored.
  pose proof (onClick_in_range _ _ _ it Hp Hin) as Hrange. fold newPage in Hrange.
  destruct (readLocationSearch_paramsOf st newPage (pageSize st)
              ltac:(lia) Hs) as [Hh Hsp].
  split; [exact Hrange|]. split.
  - eexists. split; [reflexivity|exact Hh].
  - eexists. split; [reflexivity|exact Hsp].
Qed.

Lemma pagination_click_restores_witness :
  let st := {| page := 2; pageSize := 5; searchName := "lion"; filter := "name" |} in
  exists to,
    Habitats.handlePageChange st 3 = [SetPage 3; Navigate to]
    /\ readLocationSearch to
       = {| page := 3; pageSize := 5; searchName := "lion"; filter := "name" |}.
Proof.
  intros st.
  assert (In (PageButton 3 false) (Pagination (page st) 4 5)) as Hin
    by (vm_compute; auto 10).
  destruct (pagination_click_restores st 4 5 (PageButton 3 false)
              ltac:(vm_compute; split; discriminate)
              ltac:(vm_compute; discriminate)
              ltac:(vm_compute; split; discriminate)
              ltac:(vm_compute; discriminate) Hin) as [_ [H _]].
  exact H.
Defined.

(** X3: with a page size within [Number.MAX_SAFE_INTEGER] on either side
    of zero, clearing the search, in either page, resets the three cells
    and navigates to a query that holds neither [name] nor [filter] and is
    read back as page 1 without search term and filter; the page size is
    kept (a page size of 0 comes back as the default 5). *)
Theorem clear_search_restores (st : State) :
  - MAX_SAFE_INTEGER <= pageSize st <= MAX_SAFE_INTEGER ->
  let cleared := {| page := 1;
                    pageSize := if pageSize st =? 0 then 5 else pageSize st;
                    searchName := EmptyString; filter := EmptyString |} in
  (exists to notice,
     Habitats.handleClearSearch st
     = [SetSearchName EmptyString; SetFilter EmptyString; SetPage 1;
        Navigate to; notice]
     /\ isSwalFire notice = true
     /\ readLocationSearch to = cleared
     /\ URLSearchParams.has "name" (URLSearchParams.ofString to) = false
     /\ URLSearchParams.has "filter" (URLSearchParams.ofString to) = false)
  /\ (exists to notice,
        Species.handleClear st
        = [SetSearchName EmptyString; SetFilter EmptyString; SetPage 1;
           Navigate to; notice]
        /\ isSwalFire notice = true
        /\ readLocationSearch to = cleared
        /\ URLSearchParams.has "name" (URLSearchParams.ofString to) = false
        /\ URLSearchParams.has "filter" (URLSearchParams.ofString to) = false).
Proof.
  intros Hsafe cleared. subst cleared. split.
  - eexists. eexists. split; [reflexivity|]. split; [reflexivity|].
    split.
    + rewrite readLocationSearch_Habitats. reflexivity.
    + set (p := {| ParamObj.name := None; ParamObj.filter := None;
                   ParamObj.page := 1; ParamObj.pageSize := pageSize st |}).
      destruct (keys_Habitats p) as [_ [_ [Hn Hf]]]. split; assumption.
  - eexists. eexists. split; [reflexivity|]. split; [reflexivity|].
    split.
    + rewrite readLocationSearch_Species. reflexivity.
    + set (p := {| ParamObj.name := None; ParamObj.filter := None;
                   ParamObj.page := 1; ParamObj.pageSize := pageSize st |}).
      destruct (keys_Species p) as [_ [_ [Hn Hf]]]. split; assumption.
Qed.

Lemma clear_search_restores_witness :
  let st := {| page := 3; pageSize := 10; searchName := "lion"; filter := "name" |} in
  - MAX_SAFE_INTEGER <= pageSize st <= MAX_SAFE_INTEGER
  /\ exists to notice,
       Habitats.handleClearSearch st
       = [SetSearchName EmptyString; SetFilter EmptyString; SetPage 1;
          Navigate to; notice]
       /\ readLocationSearch to
          = {| page := 1; pageSize := 10; searchName := EmptyString;
               filter := EmptyString |}.
Proof.
  cbv zeta.
  assert (- MAX_SAFE_INTEGER <= 10 <= MAX_SAFE_INTEGER) as Hsafe
    by (vm_compute; split; discriminate).
  split; [exact Hsafe|].
  destruct (clear_search_restores
              {| page := 3; pageSize := 10; searchName := "lion";
                 filter := "name" |} Hsafe)
    as [[to [notice [Hrun [_ [Hread _]]]]] _].
  exists to, notice. split; [exact Hrun|exact Hread].
Defined.

(** X4: choosing a page size, in either page, sets it, puts the page back
    to 1 and navigates to a query that is read back as page 1 at the new
    size, with the search term and the filter unchanged. *)
Theorem page_size_change_restores (st : State) (newSize : Z) :
  newSize <> 0 ->
  let restored := {| page := 1; pageSize := newSize;
                     searchName := searchName st; filter := filter st |} in
  (exists to,
     Habitats.handlePageSizeChange st newSize
     = [SetPageSize newSize; SetPage 1; Navigate to]
     /\ readLocationSearch to = restored)
  /\ (exists to,
        Species.handlePageSizeChange st newSize
        = [SetPageSize newSize; SetPage 1; Navigate to]
        /\ readLocationSearch to = restored).
Proof.
  intros Hs restored.
  destruct (readLocationSearch_paramsOf st 1 newSize ltac:(lia) Hs) as [Hh Hsp].
  split; eexists; (split; [reflexivity|assumption]).
Qed.

Lemma page_size_change_restores_witness :
  let st := {| page := 4; pageSize := 5; searchName := "lion"; filter := "name" |} in
  exists to,
    Habitats.handlePageSizeChange st 20 = [SetPageSize 20; SetPage 1; Navigate to]
    /\ readLocationSearch to
       = {| page := 1; pageSize := 20; searchName := "lion"; filter := "name" |}.
Proof.
  intros st.
  destruct (page_size_change_restores st 20 ltac:(discriminate)) as [H _].
  exact H.
Defined.

End PaginationClickFacts.

(** ** Numbers in the query: what [parseInt] lets through *)

Section DecodeEdgeFacts.

Import JS Control ListView.

Lemma digitsOf_leading (f : nat) (n : Z) (acc : string) :
  1 <= n < 2 ^ Z.of_nat (S f) ->
  exists c r, digitsOf (S f) n acc = String c r /\ 49 <= code c <= 57.
Proof.
  revert n acc. induction f as [|f IH]; intros n acc Hn.
  - change (2 ^ Z.of_nat 1) with 2 in Hn. assert (n = 1) as -> by lia.
    exists (digitChar 1), acc. split; [reflexivity|].
    rewrite code_digitChar; lia.
  - change (digitsOf (S (S f)) n acc)
      with (if n / 10 =? 0 then String (digitChar (n mod 10)) acc
            else digitsOf (S f) (n / 10) (String (digitChar (n mod 10)) acc)).
    pose proof (Z.mod_pos_bound n 10 ltac:(lia)) as Hm.
    pose proof (Z.div_mod n 10 ltac:(lia)) as Hdm.
    destruct (Z.eqb_spec (n / 10) 0) as [Hq|Hq].
    + exists (digitChar (n mod 10)), acc. split; [reflexivity|].
      rewrite code_digitChar; lia.
    + apply IH. split.
      * pose proof (Z.div_pos n 10 ltac:(lia) ltac:(lia)). lia.
      * apply Z.div_lt_upper_bound; [lia|].
        replace (Z.of_nat (S (S f))) with (Z.succ (Z.of_nat (S f))) in Hn by lia.
        rewrite Z.pow_succ_r in Hn by lia. lia.
Qed.

Lemma digitValue_nondigit (c : ascii) (acc : option Z) (rest : string) :
  isDigit c = false -> parseDigits 10 (String c rest) acc = acc.
Proof.
  intros H. cbn [parseDigits]. unfold digitValue. unfold isDigit in H.
  rewrite H.
  destruct ((97 <=? code c) && (code c <=? 122)) eqn:Hl.
  - apply andb_prop in Hl. destruct Hl as [Hl _]. apply Z.leb_le in Hl.
    destruct (Z.ltb_spec (code c - 87) 10); [lia|reflexivity].
  - destruct ((65 <=? code c) && (code c <=? 90)) eqn:Hu; [|reflexivity].
    apply andb_prop in Hu. destruct Hu as [Hu _]. apply Z.leb_le in Hu.
    destruct (Z.ltb_spec (code c - 55) 10); [lia|reflexivity].
Qed.

Lemma digitValue_digit (c : ascii) :
  isDigit c = true -> exists d, digitValue c = Some d /\ 0 <= d < 10.
Proof.
  intros H. unfold digitValue. unfold isDigit in H. rewrite H.
  apply andb_prop in H. destruct H as [H1 H2].
  apply Z.leb_le in H1. apply Z.leb_le in H2.
  exists (code c - 48). split; [reflexivity|lia].
Qed.

(** What follows the digits and is no digit is not read. *)
Lemma parseDigits_tail (ds tail : string) (acc : option Z) :
  isNumeral ds ->
  match tail with
  | EmptyString => True
  | String c _ => isDigit c = false
  end ->
  parseDigits 10 (ds ++ tail) acc = parseDigits 10 ds acc.
Proof.
  intros Hds Htail. revert acc. induction ds as [|c ds IH]; intros acc.
  - cbn [append]. destruct tail as [|c rest]; [reflexivity|].
    rewrite digitValue_nondigit by exact Htail. reflexivity.
  - cbn [append parseDigits].
    destruct (digitValue_digit c) as [d [-> Hd]].
    { apply Hds. simpl. auto. }
    destruct (Z.ltb_spec d 10); [|lia].
    apply IH. intros x Hx. apply Hds. simpl. auto.
Qed.

Lemma trimStart_lead (lead s : string) :
  CreateResource.allOf (fun c => isWhiteSpace1 (code c)) lead = true ->
  trimStart (lead ++ s) = trimStart s.
Proof.
  induction lead as [|c lead IH]; intros H; [reflexivity|].
  cbn [CreateResource.allOf] in H. apply andb_prop in H. destruct H as [Hc H].
  cbn [append]. unfold trimStart at 1. cbn [tokens]. rewrite Hc.
  cbn [dropWhiteSpace]. apply IH, H.
Qed.

Lemma isNumeral_append (a b : string) :
  isNumeral a -> isNumeral b -> isNumeral (a ++ b).
Proof.
  intros Ha Hb c Hc. rewrite list_ascii_append in Hc.
  apply in_app_or in Hc. destruct Hc; auto.
Qed.

(** [parseInt] on white space, the numeral of a positive [n], and anything
    that does not go on with a digit. *)
Lemma parseInt_tolerant (lead tail : string) (n : Z) :
  1 <= n ->
  CreateResource.allOf (fun c => isWhiteSpace1 (code c)) lead = true ->
  match tail with
  | EmptyString => True
  | String c _ => isDigit c = false
  end ->
  parseInt (lead ++ Number_toString n ++ tail) = Some n.
Proof.
  intros Hn Hlead Htail. unfold parseInt. rewrite trimStart_lead by exact Hlead.
  unfold Number_toString. destruct (Z.ltb_spec n 0); [lia|].
  set (f := Z.to_nat (Z.log2 n)).
  assert (0 <= n < 2 ^ Z.of_nat (S f)) as Hf by (apply fuel_covers; lia).
  destruct (digitsOf_leading f n EmptyString ltac:(lia)) as [c [r [Hd Hc]]].
  assert (isNumeral (digitsOf (S f) n EmptyString)) as Hnum.
  { apply digitsOf_numeral; [lia|]. intros x []. }
  assert (parseDigits 10 (digitsOf (S f) n EmptyString) None = Some n) as Hval.
  { rewrite parseDigits_digitsOf by exact Hf. reflexivity. }
  rewrite Hd in *. cbn [append].
  assert (isDigit c = true) as Hdig by (apply Hnum; simpl; auto).
  rewrite trimStart_digit, stripSign_digit by exact Hdig.
  assert (stripHexPrefix (String c (r ++ tail)) = (10, String c (r ++ tail))) as ->.
  { unfold stripHexPrefix. destruct (r ++ tail)%string; [reflexivity|].
    rewrite (eqb_code c). change (code "0") with 48.
    destruct (Z.eqb_spec (code c) 48); [lia|]. reflexivity. }
  change (String c (r ++ tail)) with (String c r ++ tail)%string.
  rewrite parseDigits_tail by assumption. rewrite Hval. f_equal. lia.
Qed.

(** X5: a [page] or [pageSize] parameter that holds, after white space, the
    digits of a number from 1 to [Number.MAX_SAFE_INTEGER] and then anything
    that does not start with a digit (letters, a unit, a fraction) is read
    as that number: the effect on [location.search] keeps the digits and
    drops the rest. *)
Theorem decode_reads_leading_digits (search lead tail : string) (n : Z) :
  1 <= n <= MAX_SAFE_INTEGER ->
  CreateResource.allOf (fun c => isWhiteSpace1 (code c)) lead = true ->
  match tail with
  | EmptyString => True
  | String c _ => isDigit c = false
  end ->
  let params := URLSearchParams.ofString search in
  let value := (lead ++ Number_toString n ++ tail)%string in
  (URLSearchParams.get "page" params = Some value ->
   page (readLocationSearch search) = n)
  /\ (URLSearchParams.get "pageSize" params = Some value ->
      pageSize (readLocationSearch search) = n).
Proof.
  intros [Hn Hsafe] Hlead Htail params value.
  pose proof (parseInt_tolerant lead tail n Hn Hlead Htail) as Hparse.
  fold value in Hparse. unfold readLocationSearch. fold params.
  split; intros Hget; cbn [page pageSize]; rewrite Hget;
    unfold parseIntOf; rewrite Hparse; apply numberOr_nonzero; lia.
Qed.

Lemma decode_reads_leading_digits_witness :
  page (readLocationSearch "?page=+3abc&pageSize=10.5") = 3
  /\ pageSize (readLocationSearch "?page=+3abc&pageSize=10.5") = 10.
Proof.
  split.
  - apply (decode_reads_leading_digits "?page=+3abc&pageSize=10.5" " " "abc" 3);
      [vm_compute; split; discriminate|reflexivity|reflexivity|reflexivity].
  - apply (decode_reads_leading_digits "?page=+3abc&pageSize=10.5" EmptyString ".5" 10);
      [vm_compute; split; discriminate|reflexivity|reflexivity|reflexivity].
Defined.

End DecodeEdgeFacts.

(** ** Loading a page of a list view *)

Section ListLoadFacts.

Import JS Control FetchWrapper PagedServer ListLoad.

Local Open Scope string_scope.

Variable network : Network.
Variable nullReadMessage : string -> string.

Lemma get_log (uri : string) (log : list Request) :
  snd (get network DeleteResource.baseURL uri [] log)
  = (log ++ [getRequest uri])%list.
Proof. unfold get. rewrite sendRequest_run. reflexivity. Qed.

Lemma get_pair (uri : string) (log : list Request) :
  get network DeleteResource.baseURL uri [] log
  = (fst (get network DeleteResource.baseURL uri [] log),
     (log ++ [getRequest uri])%list).
Proof. rewrite <- get_log. apply surjective_pairing. Qed.

(** One run of [load], by what [api.get] settles to. *)
Lemma load_run (collection setList : string) (pageToLoad size : Z)
    (name filterBy : string) (log : list Request) :
  let endPoint := endPointOf collection pageToLoad size name filterBy in
  load network nullReadMessage collection setList pageToLoad size name filterBy log
  = (Returned
       match fst (get network DeleteResource.baseURL endPoint [] log) with
       | Threw err =>
           [Swal "Error" ("Could not load " ++ collection ++ ": " ++ messageOf err)
              "error"]
       | Returned JNull | Returned JUndefined =>
           [Swal "Error"
              ("Could not load " ++ collection ++ ": " ++ nullReadMessage "data")
              "error"]
       | Returned res =>
           ([SetState setList (valueOr (optChain res "data") (JArray []));
             SetState "setTotalPages" (DeleteResource.totalPagesOf res)]
            ++ (if isSearch name filterBy
                   && strictEqualsNumber
                        (lengthOf (valueOr (optChain res "data") (JArray []))) 0
                then [noResults] else []))%list
       end,
     (log ++ [getRequest endPoint])%list).
Proof.
  intros endPoint. unfold load, tryCatch, bind. fold endPoint.
  change ListLoad.baseURL with DeleteResource.baseURL.
  rewrite get_pair.
  destruct (fst (get network DeleteResource.baseURL endPoint [] log))
    as [res|err]; [|reflexivity].
  destruct res; reflexivity.
Qed.

(** X6: [loadHabitats] and [loadSpecies] send one GET request, for the
    collection, and never throw.  When the request fails, whether the
    network or the status is the cause, they open one dialog, titled
    [Error], that ends with the message of the error, and call no state
    setter: the rows shown stay. *)
Theorem load_failure (collection setList : string) (pageToLoad size : Z)
    (name filterBy : string) (log : list Request) :
  let endPoint := endPointOf collection pageToLoad size name filterBy in
  let run := load network nullReadMessage collection setList pageToLoad size
               name filterBy log in
  snd run = (log ++ [getRequest endPoint])%list
  /\ (exists actions, fst run = Returned actions)
  /\ (forall err,
        fst (get network DeleteResource.baseURL endPoint [] log) = Threw err ->
        fst run
        = Returned [Swal "Error"
                      ("Could not load " ++ collection ++ ": " ++ messageOf err)
                      "error"])
  /\ (forall actions,
        fst run = Returned actions ->
        existsb isSetState actions = true ->
        exists res,
          fst (get network DeleteResource.baseURL endPoint [] log) = Returned res).
Proof.
  intros endPoint run. subst run. rewrite load_run. fold endPoint.
  cbn [fst snd]. split; [reflexivity|]. split; [eexists; reflexivity|]. split.
  - intros err ->. reflexivity.
  - intros actions Hrun Hset.
    destruct (fst (get network DeleteResource.baseURL endPoint [] log))
      as [res|err]; [exists res; reflexivity|].
    inversion Hrun; subst actions. discriminate.
Qed.

(** X7: when the response is read and is an object, the list is set to its
    [data] when that is truthy and to the empty array otherwise (missing,
    [null], [false], 0, the empty text), and the count of pages to
    [metadata.total_pages] when that is truthy and to 1 otherwise; neither
    is ever falsy.  The notice that nothing was found is opened exactly
    when a search is active (a term that is not blank and a filter) and the
    [length] of the list set is 0: for an array, when it is empty; when
    [data] was falsy, whenever a search is active.  A passive load opens
    none. *)
Theorem load_success (collection setList : string) (pageToLoad size : Z)
    (name filterBy : string) (log : list Request)
    (fields : list (string * JSValue)) :
  let endPoint := endPointOf collection pageToLoad size name filterBy in
  fst (get network DeleteResource.baseURL endPoint [] log)
  = Returned (JObject fields) ->
  let given := getField "data" fields in
  let count := optChain (getField "metadata" fields) "total_pages" in
  let data := if truthyValue given then given else JArray [] in
  let total := if truthyValue count then count else JNumber 1 in
  exists notice,
    fst (load network nullReadMessage collection setList pageToLoad size
           name filterBy log)
    = Returned ([SetState setList data; SetState "setTotalPages" total]
                ++ notice)%list
    /\ truthyValue data = true
    /\ truthyValue total = true
    /\ (notice = [noResults]
        <-> isSearch name filterBy = true /\ lengthOf data = JNumber 0)
    /\ (notice = []
        <-> ~ (isSearch name filterBy = true /\ lengthOf data = JNumber 0))
    /\ (forall items, data = JArray items ->
          (lengthOf data = JNumber 0 <-> items = []))
    /\ (truthyValue given = false ->
        (notice = [noResults] <-> isSearch name filterBy = true)).
Proof.
  intros endPoint Hget given count data total. rewrite load_run.
  fold endPoint. rewrite Hget. cbn [fst optChain].
  unfold DeleteResource.totalPagesOf, valueOr. cbn [optChain].
  fold given count. fold data total.
  eexists. split; [reflexivity|].
  assert (truthyValue data = true) as Hdata.
  { subst data. destruct (truthyValue given) eqn:H; [exact H|reflexivity]. }
  assert (truthyValue total = true) as Htotal.
  { subst total. destruct (truthyValue count) eqn:H; [exact H|reflexivity]. }
  split; [exact Hdata|]. split; [exact Htotal|].
  assert (strictEqualsNumber (lengthOf data) 0 = true
          <-> lengthOf data = JNumber 0) as Hzero
    by apply strictEqualsNumber_iff.
  assert (forall items, data = JArray items ->
            (lengthOf data = JNumber 0 <-> items = [])) as Hitems.
  { intros items ->. cbn [lengthOf]. destruct items as [|x items].
    - split; reflexivity.
    - split; [|discriminate]. intros H.
      assert (Z.of_nat (List.length (x :: items)) = 0) as Hlen by congruence.
      cbn [List.length] in Hlen. lia. }
  split; [|split; [|split; [exact Hitems|]]].
  - destruct (isSearch name filterBy); cbn [andb];
      [|split; [discriminate|intros [H _]; discriminate]].
    destruct (strictEqualsNumber (lengthOf data) 0) eqn:Hs.
    + split; [intros _; split; [reflexivity|apply Hzero; reflexivity]|reflexivity].
    + split; [discriminate|]. intros [_ H]. apply Hzero in H. discriminate.
  - destruct (isSearch name filterBy); cbn [andb];
      [|split; [intros _ [H _]; discriminate|reflexivity]].
    destruct (strictEqualsNumber (lengthOf data) 0) eqn:Hs.
    + split; [discriminate|]. intros H. exfalso. apply H.
      split; [reflexivity|apply Hzero; reflexivity].
    + split; [|reflexivity]. intros _ [_ H]. apply Hzero in H. discriminate.
  - intros Hfalsy. subst data. rewrite Hfalsy.
    cbn [lengthOf List.length strictEqualsNumber Z.of_nat Z.eqb].
    destruct (isSearch name filterBy); cbn [andb]; split;
      try reflexivity; try discriminate.
Qed.

End ListLoadFacts.

Section ListLoadScenarios.

Import JS Control FetchWrapper PagedServer ListLoad.

Local Open Scope string_scope.

Lemma load_failure_witness :
  fst (loadHabitats offlineNetwork (fun _ => EmptyString) 1 5 "lion" "name" [])
  = Returned [Swal "Error" "Could not load habitats: Failed to fetch" "error"].
Proof.
  destruct (load_failure offlineNetwork (fun _ => EmptyString)
              "habitats" "setHabitatsList" 1 5 "lion" "name" [])
    as [_ [_ [H _]]].
  apply (H (Custom {| CustomError.message := "Failed to fetch";
                      CustomError.statusCode := 0;
                      CustomError.details := JObject [] |})).
  reflexivity.
Defined.

Lemma load_success_witness :
  fst (loadHabitats sampleNetwork (fun _ => EmptyString) 1 20
         EmptyString EmptyString [])
  = Returned [SetState "setHabitatsList"
                (JArray (map JObject (sampleItems 1)));
              SetState "setTotalPages" (JNumber 3)].
Proof.
  destruct (load_success sampleNetwork (fun _ => EmptyString)
              "habitats" "setHabitatsList" 1 20 EmptyString EmptyString []
              [("data", JArray (map JObject (sampleItems 1)));
               ("metadata", JObject [("total_pages", JNumber 3)])]
              eq_refl) as [notice [Hrun [_ [_ [_ [Hnone _]]]]]].
  unfold loadHabitats. rewrite Hrun.
  destruct Hnone as [_ Hnone].
  rewrite Hnone; [reflexivity|]. intros [Habs _]. discriminate.
Defined.

End ListLoadScenarios.

(** ** The query a list view sends to the server *)

Section ListQueryFacts.

Import JS Control FetchWrapper PagedServer ListLoad.

Local Open Scope string_scope.

Lemma isUnreserved_not (c sep : ascii) :
  URI.isUnreserved c = true -> In (code sep) [37; 38; 43; 61]%Z -> c <> sep.
Proof.
  intros Hp Hs Heq. subst sep. unfold URI.isUnreserved in Hp.
  simpl in Hs.
  repeat match type of Hp with
  | context [Z.leb ?a ?b] => destruct (Z.leb_spec a b)
  | context [Z.eqb ?a ?b] => destruct (Z.eqb_spec a b)
  end; simpl in Hp; try discriminate; lia.
Qed.

(** [encodeURIComponent] writes neither [&] nor [=]. *)
Lemma encodeURIComponent_noneOf (s : string) (sep : ascii) :
  (code sep = 38 \/ code sep = 61)%Z ->
  URLSearchParams.noneOf sep (URI.encodeURIComponent s).
Proof.
  intros Hsep. induction s as [|c rest IH]; intros x Hx; [destruct Hx|].
  pose proof (code_range c) as Hc.
  assert (0 <= code c / 16 < 16)%Z as Hhi
    by (split; [apply Z.div_pos|apply Z.div_lt_upper_bound]; lia).
  assert (0 <= code c mod 16 < 16)%Z as Hlo by (apply Z.mod_pos_bound; lia).
  cbn [URI.encodeURIComponent] in Hx.
  destruct (URI.isUnreserved c) eqn:Hp.
  - destruct Hx as [<-|Hx]; [|apply IH, Hx].
    apply isUnreserved_not; [exact Hp|]. simpl. lia.
  - destruct Hx as [<-|[<-|[<-|Hx]]]; [| | |apply IH, Hx].
    + intros <-. change (code "%") with 37%Z in Hsep. lia.
    + apply hexDigit_not; lia.
    + apply hexDigit_not; lia.
Qed.

(** A form-urlencoded parser reads back what [encodeURIComponent] wrote. *)
Lemma percentDecode_encodeURIComponent (s : string) :
  URLSearchParams.percentDecode
    (URLSearchParams.plusToSpace (URI.encodeURIComponent s)) = s.
Proof.
  induction s as [|c rest IH]; [reflexivity|].
  pose proof (code_range c) as Hc.
  assert (0 <= code c / 16 < 16)%Z as Hhi
    by (split; [apply Z.div_pos|apply Z.div_lt_upper_bound]; lia).
  assert (0 <= code c mod 16 < 16)%Z as Hlo by (apply Z.mod_pos_bound; lia).
  cbn [URI.encodeURIComponent].
  destruct (URI.isUnreserved c) eqn:Hp.
  - cbn [URLSearchParams.plusToSpace URLSearchParams.percentDecode].
    assert (Ascii.eqb c "+" = false) as ->.
    { apply Ascii.eqb_neq, isUnreserved_not; [exact Hp|]. vm_compute. auto 6. }
    assert (Ascii.eqb c "%" = false) as ->.
    { apply Ascii.eqb_neq, isUnreserved_not; [exact Hp|]. vm_compute. auto 6. }
    rewrite IH. reflexivity.
  - cbn [URLSearchParams.plusToSpace].
    assert (Ascii.eqb (URLSearchParams.hexDigit (code c / 16)) "+" = false) as ->.
    { apply Ascii.eqb_neq, hexDigit_not; [lia|]. left. reflexivity. }
    assert (Ascii.eqb (URLSearchParams.hexDigit (code c mod 16)) "+" = false) as ->.
    { apply Ascii.eqb_neq, hexDigit_not; [lia|]. left. reflexivity. }
    change (Ascii.eqb "%" "+") with false. cbn iota.
    cbn [URLSearchParams.percentDecode].
    change (Ascii.eqb "%" "%") with true. cbn iota.
    rewrite !hexValue_hexDigit by lia. rewrite IH. f_equal.
    rewrite <- (char_code c) at 3. f_equal.
    pose proof (Z.div_mod (code c) 16 ltac:(lia)). lia.
Qed.

Lemma parseTuple_encoded (k v : string) :
  URLSearchParams.parseTuple
    (URI.encodeURIComponent k ++ String "=" (URI.encodeURIComponent v)) = (k, v).
Proof.
  unfold URLSearchParams.parseTuple.
  rewrite splitFirst_append
    by (apply encodeURIComponent_noneOf; right; reflexivity).
  rewrite !percentDecode_encodeURIComponent. reflexivity.
Qed.

(** The numeral of an integer is written as it is by the serializer. *)
Lemma percentEncode_numeral (s : string) :
  isNumeral s -> URLSearchParams.percentEncode s = s.
Proof.
  induction s as [|c rest IH]; intros H; [reflexivity|].
  assert (48 <= code c <= 57)%Z as Hc.
  { apply isDigit_bounds, H. simpl. auto. }
  cbn [URLSearchParams.percentEncode].
  destruct (Z.eqb_spec (code c) 32); [lia|].
  assert (URLSearchParams.isPlain c = true) as ->.
  { unfold URLSearchParams.isPlain.
    destruct (Z.leb_spec 48 (code c)); [|lia].
    destruct (Z.leb_spec (code c) 57); [|lia]. reflexivity. }
  rewrite IH; [reflexivity|]. intros x Hx. apply H. simpl. auto.
Qed.

Lemma percentEncode_Number_toString (n : Z) :
  URLSearchParams.percentEncode (Number_toString n) = Number_toString n.
Proof.
  unfold Number_toString. destruct (Z.ltb_spec n 0).
  - cbn [URLSearchParams.percentEncode].
    change (code "-" =? 32)%Z with false.
    change (URLSearchParams.isPlain "-") with true. cbn iota.
    rewrite percentEncode_numeral; [reflexivity|].
    apply digitsOf_numeral; [lia|intros x []].
  - rewrite percentEncode_numeral; [reflexivity|].
    apply digitsOf_numeral; [lia|intros x []].
Qed.

Lemma append_assoc3 (a b c : string) : ((a ++ b) ++ c = a ++ (b ++ c))%string.
Proof. induction a as [|x a IH]; cbn; [|rewrite IH]; reflexivity. Qed.

Lemma queryOf_join (pageToLoad size : Z) (name filterBy : string) :
  queryOf pageToLoad size name filterBy
  = URLSearchParams.join "&"
      ([URLSearchParams.serializeTuple ("page", Number_toString pageToLoad);
        URLSearchParams.serializeTuple ("pageSize", Number_toString size)]
       ++ (if isSearch name filterBy
           then [append (URI.encodeURIComponent filterBy)
                        (String "=" (URI.encodeURIComponent name))]
           else []))%list.
Proof.
  unfold queryOf, URLSearchParams.serializeTuple. cbn [fst snd].
  rewrite !percentEncode_Number_toString.
  destruct (isSearch name filterBy); cbn [app URLSearchParams.join].
  - cbn. rewrite ?append_assoc3. cbn. rewrite ?append_assoc3. reflexivity.
  - reflexivity.
Qed.

Lemma parse_join (segs : list string) :
  segs <> [] ->
  Forall (URLSearchParams.noneOf "&") segs ->
  Forall (fun seg => truthy seg = true) segs ->
  URLSearchParams.parse (URLSearchParams.join "&" segs)
  = map URLSearchParams.parseTuple segs.
Proof.
  intros Hne Hamp Htruthy. unfold URLSearchParams.parse.
  rewrite splitOn_join by assumption. f_equal.
  clear Hne Hamp. induction Htruthy as [|seg rest Hseg _ IH]; [reflexivity|].
  cbn [filter]. rewrite Hseg, IH. reflexivity.
Qed.

(** X8: for a page and a page size within [Number.MAX_SAFE_INTEGER] on
    either side of zero, the query [loadHabitats] and [loadSpecies] put
    after the [?] is one a form-urlencoded parser reads as the page, the
    page size and, exactly when a search is active, one more pair: the
    filter as name and the search term as value, both as they were,
    whatever characters they hold.  The two numbers are read back by
    [parseInt]. *)
Theorem load_query_round_trip (collection : string) (pageToLoad size : Z)
    (name filterBy : string) :
  - MAX_SAFE_INTEGER <= pageToLoad <= MAX_SAFE_INTEGER ->
  - MAX_SAFE_INTEGER <= size <= MAX_SAFE_INTEGER ->
  exists query,
    endPointOf collection pageToLoad size name filterBy
    = "/" ++ collection ++ "?" ++ query
    /\ URLSearchParams.parse query
       = ([("page", Number_toString pageToLoad);
           ("pageSize", Number_toString size)]
          ++ (if isSearch name filterBy then [(filterBy, name)] else []))%list
    /\ parseInt (Number_toString pageToLoad) = Some pageToLoad
    /\ parseInt (Number_toString size) = Some size.
Proof.
  intros Hsafepage Hsafesize.
  exists (queryOf pageToLoad size name filterBy).
  split; [reflexivity|]. split; [|split; apply parseInt_Number_toString].
  rewrite queryOf_join, parse_join.
  - cbn [map app]. rewrite !parseTuple_serializeTuple.
    destruct (isSearch name filterBy); cbn [map app]; [|reflexivity].
    rewrite parseTuple_encoded. reflexivity.
  - discriminate.
  - repeat constructor; try apply serializeTuple_noAmp.
    destruct (isSearch name filterBy); repeat constructor.
    intros c Hc. rewrite list_ascii_append in Hc. apply in_app_or in Hc.
    destruct Hc as [Hc|[<-|Hc]].
    + revert c Hc. apply encodeURIComponent_noneOf. left. reflexivity.
    + discriminate.
    + revert c Hc. apply encodeURIComponent_noneOf. left. reflexivity.
  - repeat constructor; try apply serializeTuple_truthy.
    destruct (isSearch name filterBy); repeat constructor.
    destruct (URI.encodeURIComponent filterBy); reflexivity.
Qed.

End ListQueryFacts.

Section ListQueryScenarios.

Import JS Control FetchWrapper ListLoad.

Local Open Scope string_scope.

Lemma load_query_round_trip_witness :
  exists query,
    endPointOf "habitats" 2 5 "O'Brien & sons" "name"
    = "/habitats?" ++ query
    /\ URLSearchParams.parse query
       = [("page", "2"); ("pageSize", "5"); ("name", "O'Brien & sons")].
Proof.
  destruct (load_query_round_trip "habitats" 2 5 "O'Brien & sons" "name"
              ltac:(vm_compute; split; discriminate)
              ltac:(vm_compute; split; discriminate))
    as [query [Hend [Hparse _]]].
  exists query. split; [exact Hend|exact Hparse].
Defined.

End ListQueryScenarios.

(** ** Facts about the effect on the query of a list view *)

Section DeepLinkFacts.

Import JS Control FetchWrapper ListView ListLoad PagedServer.

Local Open Scope string_scope.

Variable network : Network.
Variable nullReadMessage : string -> string.

Lemma onLocationSearch_run (search : string) (log : list Request) :
  let st := readLocationSearch search in
  let loading := loadHabitats network nullReadMessage (page st) (pageSize st)
                   (searchName st) (filter st) log in
  onLocationSearch network nullReadMessage search log
  = (match fst loading with
     | Returned loaded =>
         Returned ([SetState "setPage" (JNumber (page st));
                    SetState "setPageSize" (JNumber (pageSize st));
                    SetState "setSearchName" (JString (searchName st));
                    SetState "setFilter" (JString (filter st))] ++ loaded)%list
     | Threw e => Threw e
     end, snd loading).
Proof.
  intros st loading. unfold onLocationSearch, bind. fold st. fold loading.
  destruct loading as [[loaded|e] log']; reflexivity.
Qed.

(** X9: for a state whose page and page size are not 0 and lie within
    [Number.MAX_SAFE_INTEGER] on either side of zero, the query a habitats
    page navigates to is a deep link to that state.  The effect on it
    stores the same page, page size, search term and filter, and sends one
    GET request, the one [loadHabitats] sends for those four values; what
    follows the four setters is what [loadHabitats] does with the
    response. *)
Theorem deep_link_loads_state (st : State) (log : list Request) :
  - MAX_SAFE_INTEGER <= page st <= MAX_SAFE_INTEGER ->
  - MAX_SAFE_INTEGER <= pageSize st <= MAX_SAFE_INTEGER ->
  page st <> 0 ->
  pageSize st <> 0 ->
  let search := Habitats.updateURL_target (paramsOf st) in
  let run := onLocationSearch network nullReadMessage search log in
  let loading := loadHabitats network nullReadMessage (page st) (pageSize st)
                   (searchName st) (filter st) log in
  snd run
  = (log ++ [getRequest (endPointOf "habitats" (page st) (pageSize st)
                           (searchName st) (filter st))])%list
  /\ exists loaded,
       fst loading = Returned loaded
       /\ fst run
          = Returned ([SetState "setPage" (JNumber (page st));
                       SetState "setPageSize" (JNumber (pageSize st));
                       SetState "setSearchName" (JString (searchName st));
                       SetState "setFilter" (JString (filter st))]
                      ++ loaded)%list.
Proof.
  intros Hsafepage Hsafesize Hp Hs search run loading. subst run.
  rewrite onLocationSearch_run.
  destruct (readLocationSearch_paramsOf st (page st) (pageSize st) Hp Hs)
    as [Hread _].
  cbv zeta in Hread. fold (paramsOf st) in Hread. fold search in Hread.
  rewrite Hread.
  cbn [page pageSize searchName filter]. fold loading.
  subst loading. unfold loadHabitats. rewrite load_run. cbn [fst snd].
  split; [reflexivity|]. eexists. split; reflexivity.
Qed.

End DeepLinkFacts.

Section DeepLinkScenarios.

Import JS Control FetchWrapper ListView ListLoad PagedServer.

Local Open Scope string_scope.

Lemma deep_link_loads_state_witness :
  let st := {| page := 2; pageSize := 2; searchName := "Coral Reef";
               filter := "name" |} in
  let search := Habitats.updateURL_target (paramsOf st) in
  let run := onLocationSearch PagedServer.offlineNetwork (fun key => key)
               search [] in
  (page st <> 0 /\ pageSize st <> 0)
  /\ snd run
     = [getRequest (endPointOf "habitats" 2 2 "Coral Reef" "name")].
Proof.
  cbv zeta. split; [split; discriminate|].
  apply (deep_link_loads_state PagedServer.offlineNetwork (fun key => key)
           {| page := 2; pageSize := 2; searchName := "Coral Reef";
              filter := "name" |} []);
    try discriminate; vm_compute; split; discriminate.
Defined.

End DeepLinkScenarios.

(** ** Facts about the deletion *)

Section DeleteFacts.

Import JS Control FetchWrapper PagedServer DeleteResourcePage.

Local Open Scope string_scope.

Variable network : Network.

Lemma sendRequest_pair (uri : string) (options : Options.t) (log : list Request) :
  sendRequest network DeleteResource.baseURL uri options log
  = (fst (sendRequest network DeleteResource.baseURL uri options log),
     (log ++ [requestOf DeleteResource.baseURL uri options])%list).
Proof. rewrite sendRequest_run. reflexivity. Qed.

(** The loop of [fetchIds] only adds to the log. *)
Lemma drain_log (fuel : nat) (resourceType : string) :
  forall (allIds : list JSValue) (page : Z) (log : list Request),
    exists more,
      snd (DeleteResource.drain network fuel resourceType allIds page log)
      = (log ++ more)%list.
Proof.
  induction fuel as [|fuel IH]; intros allIds page log.
  - exists []. cbn. rewrite app_nil_r. reflexivity.
  - cbn [DeleteResource.drain]. unfold bind at 1. unfold get.
    rewrite sendRequest_pair.
    destruct (fst (sendRequest _ _ _ _ _)) as [res|e];
      [|eexists; reflexivity].
    unfold bind at 1.
    destruct (match optChain res "data" with
              | JArray items => DeleteResource.mapProperty _ items
              | _ => Threw DeleteResource.typeError
              end) as [ids|e]; cbn [DeleteResource.lift];
      [|eexists; reflexivity].
    unfold ret at 1.
    destruct (lessEq _ _).
    + destruct (IH (allIds ++ ids)%list (page + 1)
                  (log ++ [requestOf DeleteResource.baseURL
                             (DeleteResource.pageURI resourceType page)
                             {| Options.method := Some "GET";
                                Options.headers := [];
                                Options.body := JUndefined |}])%list)
        as [more Hmore].
      rewrite Hmore, <- app_assoc. eexists. reflexivity.
    + eexists. reflexivity.
Qed.

(** [fetchIds] never throws, and only adds to the log. *)
Lemma fetchIds_settles (fuel : nat) (resourceType : string) (log : list Request) :
  exists refreshed more,
    DeleteResource.fetchIds network fuel resourceType log
    = (Returned refreshed, (log ++ more)%list).
Proof.
  unfold DeleteResource.fetchIds, tryCatch, bind.
  destruct (drain_log fuel resourceType [] 1 log) as [more Hmore].
  destruct (DeleteResource.drain network fuel resourceType [] 1 log)
    as [[r|e] log']; cbn [snd] in Hmore; subst log'; unfold ret;
    eexists; eexists; reflexivity.
Qed.

(** One run of [handleDelete] once the deletion is confirmed. *)
Lemma handleDelete_confirmed (fuel : nat) (resourceType selectedId : string)
    (log : list Request) :
  truthy selectedId = true ->
  isValidIdFormat resourceType selectedId = true ->
  let sent := (log ++ [deleteRequest resourceType selectedId])%list in
  handleDelete network fuel resourceType selectedId true log
  = match fst (delete network DeleteResource.baseURL ("/" ++ resourceType)
                 (payloadOf resourceType selectedId) [] log) with
    | Threw err =>
        (Returned (Some [confirmDialog resourceType selectedId;
                         failedDialog resourceType err]), sent)
    | Returned _ =>
        (Returned
           (option_map
              (fun effects =>
                 confirmDialog resourceType selectedId
                 :: deletedDialog resourceType selectedId :: effects)
              (match fst (DeleteResource.fetchIds network fuel resourceType sent) with
               | Returned refreshed => refreshed
               | Threw _ => None
               end)),
         snd (DeleteResource.fetchIds network fuel resourceType sent))
    end.
Proof.
  intros Hid Hformat sent. unfold handleDelete.
  rewrite Hid, Hformat. cbn [negb]. unfold bind at 1, tryCatch, bind at 1.
  unfold delete. rewrite sendRequest_pair.
  fold (deleteRequest resourceType selectedId). fold sent.
  destruct (fst (sendRequest _ _ _ _ _)) as [res|err]; [|reflexivity].
  unfold bind at 1.
  destruct (fetchIds_settles fuel resourceType sent) as [refreshed [more ->]].
  cbn [fst snd]. unfold ret. destruct refreshed; reflexivity.
Qed.

(** X10: [handleDelete] sends something exactly when an identifier is
    chosen, it has the format of the resource type (HA- or SP- and three
    digits) and the deletion was confirmed; otherwise the log of requests
    is as it was and one dialog is all that happens.  When it sends, the
    first request is the [DELETE] of the collection whose body names the
    identifier, and when that request fails nothing else is sent: one error
    dialog follows the confirmation, and the list of identifiers and the
    selection are not touched.  It never throws. *)
Theorem handleDelete_guard (fuel : nat) (resourceType selectedId : string)
    (isConfirmed : bool) (log : list Request) :
  let run := handleDelete network fuel resourceType selectedId isConfirmed log in
  let deletion := delete network DeleteResource.baseURL ("/" ++ resourceType)
                    (payloadOf resourceType selectedId) [] log in
  (exists outcome, fst run = Returned outcome)
  /\ (truthy selectedId && isValidIdFormat resourceType selectedId && isConfirmed
      = false ->
      snd run = log
      /\ exists dialog,
           fst run = Returned (Some [dialog]) /\ isSwalFire dialog = true)
  /\ (truthy selectedId && isValidIdFormat resourceType selectedId && isConfirmed
      = true ->
      (exists more,
         snd run = (log ++ deleteRequest resourceType selectedId :: more)%list)
      /\ forall err,
           fst deletion = Threw err ->
           run = (Returned (Some [confirmDialog resourceType selectedId;
                                  failedDialog resourceType err]),
                  (log ++ [deleteRequest resourceType selectedId])%list)).
Proof.
  intros run deletion. subst run deletion.
  destruct (truthy selectedId) eqn:Hid;
    [|unfold handleDelete; rewrite Hid; cbn; split; [eexists; reflexivity|];
      split; [intros _; split; [reflexivity|eexists; split; reflexivity]
             |discriminate]].
  destruct (isValidIdFormat resourceType selectedId) eqn:Hformat;
    [|unfold handleDelete; rewrite Hid, Hformat; cbn; split;
      [eexists; reflexivity|];
      split; [intros _; split; [reflexivity|eexists; split; reflexivity]
             |discriminate]].
  destruct isConfirmed;
    [|unfold handleDelete; rewrite Hid, Hformat; cbn; split;
      [eexists; reflexivity|];
      split; [intros _; split; [reflexivity|eexists; split; reflexivity]
             |discriminate]].
  rewrite handleDelete_confirmed by assumption. cbn [andb].
  destruct (fetchIds_settles fuel resourceType
              (log ++ [deleteRequest resourceType selectedId])%list)
    as [refreshed [more Hrefresh]].
  rewrite Hrefresh. cbn [fst snd].
  destruct (fst (delete _ _ _ _ _ _)) as [res|err0].
  - cbn [fst snd]. split; [eexists; reflexivity|]. split; [discriminate|].
    intros _. split; [|discriminate].
    exists more. rewrite <- app_assoc. reflexivity.
  - cbn [fst snd]. split; [eexists; reflexivity|]. split; [discriminate|].
    intros _. split; [exists []; reflexivity|].
    intros err Herr. inversion Herr; subst err0. reflexivity.
Qed.

(** X11: once the deletion is confirmed and the server accepts it,
    [handleDelete] announces the deletion and loads the identifiers again.
    Against a server that serves the collection on [N] pages, and with fuel
    for [N] rounds, that is the [DELETE] followed by the requests for the
    pages 1 to [N]; the identifiers served then replace the list and the
    selection is emptied. *)
Theorem handleDelete_refreshes (fuel : nat) (resourceType selectedId : string)
    (log : list Request) (items : Z -> list (list (string * JSValue))) (N : Z)
    (answer : JSValue) :
  truthy selectedId = true ->
  isValidIdFormat resourceType selectedId = true ->
  fst (delete network DeleteResource.baseURL ("/" ++ resourceType)
         (payloadOf resourceType selectedId) [] log) = Returned answer ->
  serves network ("/" ++ resourceType) items N ->
  (1 <= N)%Z ->
  (Z.to_nat N <= fuel)%nat ->
  let pages := Pagination.run (Z.to_nat N) 1 in
  handleDelete network fuel resourceType selectedId true log
  = (Returned
       (Some [confirmDialog resourceType selectedId;
              deletedDialog resourceType selectedId;
              SetResourceId
                (flat_map
                   (fun p => map (getField (DeleteResource.idKey resourceType))
                               (items p)) pages);
              SetSelectedId EmptyString]),
     (log ++ deleteRequest resourceType selectedId
          :: map (fun p => getRequest (DeleteResource.pageURI resourceType p))
               pages)%list).
Proof.
  intros Hid Hformat Hdeleted Hserves HN Hfuel pages. subst pages.
  rewrite handleDelete_confirmed by assumption. rewrite Hdeleted.
  assert (Z.to_nat N = S (Z.to_nat (N - 1))) as HS by lia.
  unfold DeleteResource.fetchIds, tryCatch, bind. rewrite HS.
  rewrite (drain_pages network resourceType items N Hserves (Z.to_nat (N - 1)))
    by lia.
  cbn [fst snd option_map app]. unfold ret. cbn [fst snd option_map].
  rewrite <- app_assoc. reflexivity.
Qed.

End DeleteFacts.

Section DeleteScenarios.

Import JS Control FetchWrapper PagedServer DeleteResourcePage.

Local Open Scope string_scope.

Lemma sampleNetwork_pages_served (network : Network) :
  (forall log p, network log (getRequest (CreateResource.pageURI "/habitats" p))
                 = sampleNetwork log
                     (getRequest (CreateResource.pageURI "/habitats" p))) ->
  serves network "/habitats" sampleItems 3.
Proof.
  intros Hsame log p Hp. rewrite Hsame.
  apply (sampleNetwork_serves log p Hp).
Qed.

Lemma handleDelete_guard_witness :
  let run := handleDelete offlineNetwork 3 "habitats" "HA-002" true [] in
  (exists outcome, fst run = Returned outcome)
  /\ snd run = [deleteRequest "habitats" "HA-002"].
Proof.
  cbv zeta.
  destruct (handleDelete_guard offlineNetwork 3 "habitats" "HA-002" true [])
    as [Hsettles [_ Hsent]].
  split; [exact Hsettles|].
  destruct (Hsent eq_refl) as [_ Hfailed].
  rewrite (Hfailed _ eq_refl). reflexivity.
Defined.

Lemma handleDelete_refreshes_witness :
  handleDelete DeleteServer.network 3 "habitats" "HA-002" true []
  = (Returned
       (Some [confirmDialog "habitats" "HA-002";
              deletedDialog "habitats" "HA-002";
              SetResourceId [JString "HA-001"; JString "HA-002"; JString "HA-003";
                             JString "HA-004"; JString "HA-005"; JString "HA-006"];
              SetSelectedId EmptyString]),
     [deleteRequest "habitats" "HA-002";
      getRequest "/habitats?page=1&pageSize=20";
      getRequest "/habitats?page=2&pageSize=20";
      getRequest "/habitats?page=3&pageSize=20"]).
Proof.
  apply (handleDelete_refreshes DeleteServer.network 3 "habitats" "HA-002" []
           sampleItems 3 (JObject [("message", JString "Deleted")])).
  - reflexivity.
  - reflexivity.
  - reflexivity.
  - apply sampleNetwork_pages_served. intros log p. reflexivity.
  - lia.
  - vm_compute. lia.
Defined.

End DeleteScenarios.

(** ** Facts about the creation form *)

Section CreateFacts.

Import JS Control FetchWrapper CreateResource.

Local Open Scope string_scope.

Variable network : Network.

Lemma checkField_required (formData : list (string * string)) (name : string) :
  match formValue name formData with
  | Some v => truthy (trim v) = false
  | None => True
  end ->
  checkField formData name = [(name, "This field is required")].
Proof.
  unfold checkField. destruct (formValue name formData) as [v|].
  - intros ->. reflexivity.
  - intros _. reflexivity.
Qed.

(** X12: [handleSubmit] sends a form only when the field check finds
    nothing.  It always stores the errors of the check and never throws.
    When there are errors, nothing is sent and nothing else happens; a
    field of the resource type that is missing or blank is one of them,
    under the message that it is required, whatever the other fields hold.
    When there are none, one [POST] is sent, to the collection of the
    resource type, with the form as the only record of its body. *)
Theorem handleSubmit_gate (resourceType : string)
    (formData : list (string * string)) (log : list Request) :
  let run := handleSubmit network resourceType formData log in
  let newErrors := validate resourceType formData in
  (exists effects, fst run = Returned (SetErrors newErrors :: effects))
  /\ (newErrors <> [] -> run = (Returned [SetErrors newErrors], log))
  /\ (newErrors = [] ->
      snd run
      = (log ++ [requestOf CreateResource.baseURL (endpointOf resourceType)
                   {| Options.method := Some "POST"; Options.headers := [];
                      Options.body :=
                        JArray [JObject (parsedDataOf resourceType formData)] |}])%list)
  /\ (forall name,
        In name (fieldsOf resourceType) ->
        match formValue name formData with
        | Some v => truthy (trim v) = false
        | None => True
        end ->
        In (name, "This field is required") newErrors
        /\ run = (Returned [SetErrors newErrors], log)).
Proof.
  intros run newErrors.
  assert (newErrors <> [] -> run = (Returned [SetErrors newErrors], log)) as Hstop.
  { intros Hne. subst run. unfold handleSubmit. fold newErrors.
    destruct newErrors; [contradiction|reflexivity]. }
  split.
  - destruct newErrors eqn:Herr.
    + subst run. rewrite handleSubmit_run by exact Herr.
      destruct (post network _ _ _ _ log) as [[v|err] log']; eexists; reflexivity.
    + rewrite Hstop by discriminate. eexists. reflexivity.
  - split; [exact Hstop|]. split.
    + intros Hnone. subst run. rewrite handleSubmit_run by exact Hnone.
      unfold post. rewrite sendRequest_run.
      destruct (network log _) as [response|e]; [|reflexivity].
      destruct (readResponseData response); [|reflexivity].
      destruct (Response.ok response); reflexivity.
    + intros name Hname Hblank.
      assert (In (name, "This field is required") newErrors) as Hin.
      { subst newErrors. unfold validate. apply in_flat_map.
        exists name. split; [exact Hname|].
        rewrite checkField_required by exact Hblank. left. reflexivity. }
      split; [exact Hin|]. apply Hstop. intros Hnil. rewrite Hnil in Hin.
      destruct Hin.
Qed.

End CreateFacts.

(** ** Facts about the count fields of the creation form *)

Section CountFieldFacts.

Import JS Control FetchWrapper CreateResource CreateResourceForm.

Local Open Scope string_scope.

Lemma allOf_isNumeral (s : string) : allOf isDigit s = true -> isNumeral s.
Proof.
  induction s as [|c s IH]; intros H x Hx; [destruct Hx|].
  cbn [allOf] in H. apply andb_prop in H. destruct H as [Hc Hs].
  destruct Hx as [<-|Hx]; [exact Hc|]. apply IH; assumption.
Qed.

Lemma removeNonDigits_digits (value : string) :
  allOf isDigit (removeNonDigits value) = true.
Proof.
  induction value as [|c value IH]; [reflexivity|].
  cbn [removeNonDigits]. destruct (isDigit c) eqn:Hc; [|exact IH].
  cbn [allOf]. rewrite Hc, IH. reflexivity.
Qed.

Lemma tokens_digits (s : string) :
  allOf isDigit s = true -> tokens s = map Other (list_ascii_of_string s).
Proof.
  induction s as [|c s IH]; intros H; [reflexivity|].
  cbn [allOf] in H. apply andb_prop in H. destruct H as [Hc Hs].
  apply isDigit_bounds in Hc.
  rewrite tokens_plain; [cbn [list_ascii_of_string map]; rewrite IH by exact Hs;
                         reflexivity| |lia].
  unfold isWhiteSpace1.
  destruct (Z.leb_spec (code c) 13); [lia|].
  destruct (Z.eqb_spec (code c) 32); [lia|].
  rewrite andb_false_r. reflexivity.
Qed.

Lemma dropWhiteSpace_others (l : list ascii) :
  dropWhiteSpace (map Other l) = map Other l.
Proof. destruct l; reflexivity. Qed.

Lemma untokens_others (s : string) :
  untokens (map Other (list_ascii_of_string s)) = s.
Proof.
  induction s as [|c s IH]; [reflexivity|].
  cbn [list_ascii_of_string map untokens tokenBytes str1 append].
  rewrite IH. reflexivity.
Qed.

(** Nothing is trimmed from a string of digits. *)
Lemma trim_digits (s : string) : allOf isDigit s = true -> trim s = s.
Proof.
  intros H. unfold trim. rewrite tokens_digits by exact H.
  rewrite dropWhiteSpace_others, <- map_rev, dropWhiteSpace_others, map_rev,
    rev_involutive, <- tokens_digits by exact H.
  apply untokens_tokens.
Qed.

Lemma formValue_setValue (name value : string) (obj : list (string * string)) :
  formValue name (setValue name value obj) = Some value.
Proof.
  induction obj as [|[k v] obj IH]; cbn [setValue formValue].
  - rewrite String.eqb_refl. reflexivity.
  - destruct (String.eqb k name) eqn:Hk; cbn [formValue]; rewrite Hk;
      [reflexivity|exact IH].
Qed.

Lemma parseDigits_digits (s : string) :
  allOf isDigit s = true ->
  forall a, 0 <= a -> exists n, parseDigits 10 s (Some a) = Some n /\ 0 <= n.
Proof.
  induction s as [|c s IH]; intros H a Ha.
  - exists a. split; [reflexivity|exact Ha].
  - cbn [allOf] in H. apply andb_prop in H. destruct H as [Hc Hs].
    destruct (digitValue_digit c Hc) as [d [Hd Hrange]].
    cbn [parseDigits]. rewrite Hd.
    destruct (Z.ltb_spec d 10); [|lia].
    apply IH; [exact Hs|lia].
Qed.

(** [parseInt (s, 10)] on digits: a number from 0 on, never [NaN]. *)
Lemma parseInt10_digits (s : string) :
  truthy s = true -> allOf isDigit s = true ->
  exists n, parseInt10 s = Some n /\ 0 <= n.
Proof.
  intros Ht H. destruct s as [|c s]; [discriminate|].
  pose proof H as Hall.
  cbn [allOf] in H. apply andb_prop in H. destruct H as [Hc Hs].
  unfold parseInt10. rewrite trimStart_digit, stripSign_digit by exact Hc.
  destruct (digitValue_digit c Hc) as [d [Hd Hrange]].
  cbn [parseDigits]. rewrite Hd.
  destruct (Z.ltb_spec d 10); [|lia].
  destruct (parseDigits_digits s Hs (0 * 10 + d) ltac:(lia)) as [n [-> Hn]].
  exists n. split; [f_equal; lia|exact Hn].
Qed.

Lemma dropWhiteSpace_app (before l : list token) :
  forallb isWS before = true ->
  dropWhiteSpace (before ++ l) = dropWhiteSpace l.
Proof.
  induction before as [|t before IH]; intros H; [reflexivity|].
  cbn [forallb] in H. apply andb_prop in H. destruct H as [Ht H].
  destruct t; [|discriminate]. cbn [app dropWhiteSpace]. apply IH, H.
Qed.

(** The white space [trim] drops at the end does not start with a digit. *)
Lemma after_not_digit (s : string) (l1 after : list token) :
  tokens s = (l1 ++ after)%list -> forallb isWS after = true ->
  match untokens after with
  | EmptyString => True
  | String c _ => isDigit c = false
  end.
Proof.
  intros Hs Hws. pose proof (tokens_suffix l1 s after Hs) as Hsuffix.
  destruct (untokens after) as [|c r] eqn:Hu; [exact I|].
  destruct (isDigit c) eqn:Hc; [|reflexivity].
  apply isDigit_bounds in Hc.
  rewrite tokens_plain in Hsuffix; [| |lia].
  - destruct after as [|[b|x] after]; [discriminate|discriminate|discriminate].
  - unfold isWhiteSpace1.
    destruct (Z.leb_spec (code c) 13); [lia|].
    destruct (Z.eqb_spec (code c) 32); [lia|].
    rewrite andb_false_r. reflexivity.
Qed.

(** [parseInt (v, 10)] reads a value that is digits once trimmed as its
    trimmed text. *)
Lemma parseInt10_trim (v : string) :
  truthy (trim v) = true -> allOf isDigit (trim v) = true ->
  parseInt10 v = parseInt10 (trim v).
Proof.
  intros Ht Hd.
  destruct (core_split (tokens v)) as [before [after [Hl [Hb Ha]]]].
  pose proof (tokens_trim v) as Hcore.
  remember (core (tokens v)) as middle eqn:Hmiddle.
  rewrite tokens_digits in Hcore by exact Hd.
  assert (trimStart v = trim v ++ untokens after) as Hstart.
  { unfold trimStart. rewrite Hl, dropWhiteSpace_app by exact Hb.
    rewrite <- Hcore.
    destruct (trim v) as [|c r]; [discriminate|].
    cbn [list_ascii_of_string map app dropWhiteSpace].
    change (Other c :: (map Other (list_ascii_of_string r) ++ after)%list)
      with ((map Other (list_ascii_of_string (String c r))) ++ after)%list.
    rewrite untokens_app, untokens_others. reflexivity. }
  destruct (trim v) as [|c r] eqn:Htrim; [discriminate|].
  pose proof Hd as Hall.
  cbn [allOf] in Hd. apply andb_prop in Hd. destruct Hd as [Hc Hr].
  unfold parseInt10. rewrite Hstart, trimStart_digit by exact Hc.
  cbn [append]. rewrite !stripSign_digit by exact Hc.
  change (String c (r ++ untokens after)) with (String c r ++ untokens after).
  rewrite parseDigits_tail; [reflexivity|apply allOf_isNumeral, Hall|].
  apply (after_not_digit v (before ++ middle) after);
    [rewrite <- app_assoc; exact Hl|exact Ha].
Qed.

Lemma fieldError_count (name value : string) :
  isCountField name = true ->
  fieldError name value
  = if digitsOnly value then None else Some "Must be an integer".
Proof.
  unfold isCountField. intros H. apply orb_prop in H.
  destruct H as [H|H]; apply String.eqb_eq in H; subst name; reflexivity.
Qed.

Lemma getField_strings (name : string) (formData : list (string * string)) :
  getField name (map (fun kv => (fst kv, JString (snd kv))) formData)
  = match formValue name formData with
    | Some v => JString v
    | None => JUndefined
    end.
Proof.
  induction formData as [|[k v] formData IH]; [reflexivity|].
  cbn [map getField formValue fst snd]. destruct (String.eqb k name);
    [reflexivity|exact IH].
Qed.

Lemma getField_setField (key name : string) (v : JSValue)
    (fields : list (string * JSValue)) :
  getField key (setField name v fields)
  = if String.eqb name key then v else getField key fields.
Proof.
  induction fields as [|[k old] fields IH]; cbn [setField getField].
  - reflexivity.
  - destruct (String.eqb_spec k name) as [->|Hk]; cbn [getField].
    + destruct (String.eqb name key); reflexivity.
    + rewrite IH. destruct (String.eqb_spec name key) as [->|Hn].
      * apply String.eqb_neq in Hk. rewrite Hk. reflexivity.
      * reflexivity.
Qed.

Lemma flat_map_nil {A B : Type} (f : A -> list B) (l : list A) (x : A) :
  flat_map f l = [] -> In x l -> f x = [].
Proof.
  induction l as [|y l IH]; intros H Hin; [destruct Hin|].
  cbn [flat_map] in H. apply app_eq_nil in H. destruct H as [Hy Hl].
  destruct Hin as [->|Hin]; [exact Hy|apply IH; assumption].
Qed.

(** A count field that passed the field check holds digits once trimmed. *)
Lemma checkField_count (formData : list (string * string)) (name : string) :
  isCountField name = true ->
  checkField formData name = [] ->
  exists v, formValue name formData = Some v
            /\ truthy (trim v) = true /\ allOf isDigit (trim v) = true.
Proof.
  intros Hname. unfold checkField.
  destruct (formValue name formData) as [v|]; [|discriminate].
  destruct (truthy (trim v)) eqn:Ht; [|discriminate]. cbn [negb].
  rewrite fieldError_count by exact Hname. unfold digitsOnly. rewrite Ht.
  cbn [andb]. destruct (allOf isDigit (trim v)) eqn:Hd; [|discriminate].
  intros _. exists v. split; [reflexivity|]. split; assumption.
Qed.

Section WithUpperCase.

Variable toUpperCase : string -> string.

(** X13: what [handleInputChange] stores for a count field
    ([num_of_offspring], [average_lifespan]) is the digits of what was
    typed, in their order, and the error of the field is emptied.  The field
    check can then reject the field only as missing, when no digit was
    typed, and never as not being an integer; and the stored text is read by
    [parseInt (..., 10)] as a number from 0 on. *)
Theorem count_field_typing (formData errors : list (string * string))
    (name value : string) :
  isCountField name = true ->
  let stored := removeNonDigits value in
  let formData' := setValue name stored formData in
  handleInputChange toUpperCase formData errors name value
  = [SetFormData formData'; SetErrors (setValue name EmptyString errors)]
  /\ formValue name formData' = Some stored
  /\ allOf isDigit stored = true
  /\ checkField formData' name
     = (if truthy stored then [] else [(name, "This field is required")])
  /\ (truthy stored = true -> exists n, parseInt10 stored = Some n /\ 0 <= n).
Proof.
  intros Hname stored formData'.
  pose proof (removeNonDigits_digits value) as Hdigits. fold stored in Hdigits.
  split.
  { unfold handleInputChange, processedValue. rewrite Hname. reflexivity. }
  split; [apply formValue_setValue|]. split; [exact Hdigits|]. split.
  - unfold checkField. subst formData'. rewrite formValue_setValue.
    rewrite trim_digits by exact Hdigits.
    destruct (truthy stored) eqn:Ht; cbn [negb]; [|reflexivity].
    rewrite fieldError_count by exact Hname. unfold digitsOnly.
    rewrite Ht, Hdigits. reflexivity.
  - intros Ht. apply parseInt10_digits; assumption.
Qed.

End WithUpperCase.

(** X14: a species form that passed the field check, and whose two counts
    are written up to [Number.MAX_SAFE_INTEGER] (the range in which
    [parseInt] gives the integer written), is posted with these counts as
    numbers from 0 to [Number.MAX_SAFE_INTEGER], never as [NaN] (which would
    be sent as [null]): each is what [parseInt (..., 10)] reads in the text
    of the field.  Every other field is posted as the text the form holds,
    as it was typed: the check trims a value, the submission does not. *)
Theorem species_counts_posted (formData : list (string * string)) :
  validate "species" formData = [] ->
  (forall name v n,
     isCountField name = true -> formValue name formData = Some v ->
     parseInt10 v = Some n -> n <= MAX_SAFE_INTEGER) ->
  let body := parsedDataOf "species" formData in
  (forall name, isCountField name = true ->
     exists v n,
       formValue name formData = Some v
       /\ parseInt10 v = Some n /\ 0 <= n <= MAX_SAFE_INTEGER
       /\ getField name body = JNumber n)
  /\ (forall name, isCountField name = false ->
        getField name body
        = match formValue name formData with
          | Some v => JString v
          | None => JUndefined
          end).
Proof.
  intros Hvalid Hsafe body. subst body.
  assert (forall name, isCountField name = true ->
            exists v n, formValue name formData = Some v
                        /\ parseInt10 v = Some n
                        /\ 0 <= n <= MAX_SAFE_INTEGER) as Hcount.
  { intros name Hname.
    assert (In name speciesFields) as Hin.
    { unfold isCountField in Hname. apply orb_prop in Hname.
      destruct Hname as [H|H]; apply String.eqb_eq in H; subst name;
        cbn; auto 12. }
    pose proof (flat_map_nil (checkField formData) speciesFields name Hvalid Hin)
      as Hfield.
    destruct (checkField_count formData name Hname Hfield) as [v [Hv [Ht Hd]]].
    destruct (parseInt10_digits (trim v) Ht Hd) as [n [Hn Hpos]].
    rewrite <- parseInt10_trim in Hn by assumption.
    exists v, n. split; [exact Hv|]. split; [exact Hn|].
    split; [exact Hpos|]. apply (Hsafe name v n Hname Hv Hn). }
  unfold parsedDataOf. cbn [String.eqb Ascii.eqb Bool.eqb].
  set (parsedData := map (fun kv => (fst kv, JString (snd kv))) formData).
  assert (parsedNumber "num_of_offspring" parsedData
          = match formValue "num_of_offspring" formData with
            | Some v => match parseInt10 v with
                        | Some n => JNumber n
                        | None => JNull
                        end
            | None => JNull
            end) as Hoffspring.
  { unfold parsedNumber. subst parsedData. rewrite getField_strings.
    destruct (Hcount "num_of_offspring" eq_refl) as [v [n [Hv _]]].
    rewrite Hv. reflexivity. }
  split.
  - intros name Hname. destruct (Hcount name Hname) as [v [n [Hv [Hn Hpos]]]].
    exists v, n. split; [exact Hv|]. split; [exact Hn|]. split; [exact Hpos|].
    rewrite !getField_setField.
    unfold isCountField in Hname. apply orb_prop in Hname.
    destruct Hname as [H|H]; apply String.eqb_eq in H; subst name.
    + cbn [String.eqb Ascii.eqb Bool.eqb]. rewrite Hoffspring, Hv, Hn.
      reflexivity.
    + rewrite String.eqb_refl. unfold parsedNumber.
      rewrite getField_setField. cbn [String.eqb Ascii.eqb Bool.eqb].
      subst parsedData. rewrite getField_strings, Hv.
      cbn [ToString]. rewrite Hn. reflexivity.
  - intros name Hname. rewrite !getField_setField.
    unfold isCountField in Hname. apply orb_false_elim in Hname.
    destruct Hname as [H1 H2].
    rewrite String.eqb_sym in H1. rewrite String.eqb_sym in H2.
    rewrite H1, H2. subst parsedData. apply getField_strings.
Qed.

End CountFieldFacts.

Section CountFieldScenarios.

Import JS Control FetchWrapper CreateResource CreateResourceForm.

Local Open Scope string_scope.

Lemma count_field_typing_witness :
  isCountField "average_lifespan" = true
  /\ handleInputChange (fun s => s) [("average_lifespan", "1")] [] "average_lifespan"
       "12 years"
     = [SetFormData [("average_lifespan", "12")];
        SetErrors [("average_lifespan", EmptyString)]].
Proof.
  split; [reflexivity|].
  apply (count_field_typing (fun s => s) [("average_lifespan", "1")] []
           "average_lifespan" "12 years" eq_refl).
Defined.

Lemma species_counts_posted_witness :
  let formData :=
    [("species_id", "SP-001"); ("common_name", "Lion");
     ("description", "A large cat of the savannah");
     ("name_of_offspring", "cub"); ("group_behaviour", "pride");
     ("gestation_period", "110 days"); ("breeding_season", "all year");
     ("num_of_offspring", " 3 "); ("average_lifespan", "14");
     ("diet_id", "DI-001"); ("habitat_id", "HA-001");
     ("classification_id", "CL-001")] in
  validate "species" formData = []
  /\ getField "num_of_offspring" (parsedDataOf "species" formData) = JNumber 3
  /\ getField "common_name" (parsedDataOf "species" formData) = JString "Lion".
Proof.
  cbv zeta. split; [reflexivity|].
  assert (forall name v n,
            isCountField name = true ->
            formValue name
              [("species_id", "SP-001"); ("common_name", "Lion");
               ("description", "A large cat of the savannah");
               ("name_of_offspring", "cub"); ("group_behaviour", "pride");
               ("gestation_period", "110 days"); ("breeding_season", "all year");
               ("num_of_offspring", " 3 "); ("average_lifespan", "14");
               ("diet_id", "DI-001"); ("habitat_id", "HA-001");
               ("classification_id", "CL-001")] = Some v ->
            parseInt10 v = Some n -> n <= MAX_SAFE_INTEGER) as Hsafe.
  { intros name v n Hname Hv Hn. unfold isCountField in Hname.
    apply orb_prop in Hname.
    destruct Hname as [H|H]; apply String.eqb_eq in H; subst name;
      vm_compute in Hv; inversion Hv; subst v;
      vm_compute in Hn; inversion Hn; subst n;
      vm_compute; discriminate. }
  destruct (species_counts_posted
              [("species_id", "SP-001"); ("common_name", "Lion");
               ("description", "A large cat of the savannah");
               ("name_of_offspring", "cub"); ("group_behaviour", "pride");
               ("gestation_period", "110 days"); ("breeding_season", "all year");
               ("num_of_offspring", " 3 "); ("average_lifespan", "14");
               ("diet_id", "DI-001"); ("habitat_id", "HA-001");
               ("classification_id", "CL-001")] eq_refl Hsafe)
    as [Hcounts Htext].
  split.
  - destruct (Hcounts "num_of_offspring" eq_refl) as [v [n [Hv [Hn [_ Hget]]]]].
    vm_compute in Hv. inversion Hv; subst v.
    vm_compute in Hn. inversion Hn; subst n. exact Hget.
  - apply (Htext "common_name" eq_refl).
Defined.

End CountFieldScenarios.

(** ** Facts about the sports page *)

Section SportsFacts.

Import JS Control FetchWrapper ListLoad TheSportsDB.

Local Open Scope string_scope.

Lemma truthy_toLowerCase (s : string) : truthy (toLowerCase s) = truthy s.
Proof. destruct s; reflexivity. Qed.

(** [toLowerCase] leaves no capital letter of the basic alphabet. *)
Lemma toLowerCase_lower (s : string) (c : ascii) :
  In c (list_ascii_of_string (toLowerCase s)) -> ~ (65 <= code c <= 90)%Z.
Proof.
  induction s as [|x s IH]; intros Hc; [destruct Hc|].
  cbn [toLowerCase list_ascii_of_string] in Hc.
  destruct Hc as [<-|Hc]; [|apply IH, Hc].
  unfold lowerChar. pose proof (code_range x) as Hx.
  destruct (Z.leb_spec 65 (code x)); destruct (Z.leb_spec (code x) 90);
    cbn [andb]; try lia.
  rewrite code_char by lia. lia.
Qed.

(** What [updateURL] writes is what the effect reads. *)
Lemma readQuery_updateURL (c s : string) :
  readQuery (updateURL_target c s) = (c, s).
Proof.
  unfold readQuery, updateURL_target. rewrite ofString_toString.
  destruct c as [|c1 c]; destruct s as [|s1 s]; reflexivity.
Qed.

(** X15: the search form of the sports page navigates exactly when one of
    the two fields is not blank and each field is empty or made of letters,
    digits, white space, hyphens and apostrophes; otherwise it opens one
    dialog and does nothing else.  When it navigates, the query is read
    back by the effect on [location.search] as the two fields trimmed and in
    lower case, one of them at least not empty, so that the effect loads;
    no capital letter of the basic alphabet is left in them. *)
Theorem sports_search_round_trip (country sport : string) :
  let c := toLowerCase (trim country) in
  let s := toLowerCase (trim sport) in
  let valid (field : string) :=
    negb (truthy field) || ListView.validPattern_test field in
  (forall x, In x (list_ascii_of_string (c ++ s)) -> ~ (65 <= code x <= 90)%Z)
  /\ if (truthy (trim country) || truthy (trim sport))
        && valid country && valid sport
     then exists to,
            handleSearchSubmit country sport
            = [SetState "setSearchInitiated" (JBool true); NavigateTo to]
            /\ readQuery to = (c, s)
            /\ truthy c || truthy s = true
     else exists title text icon,
            handleSearchSubmit country sport = [Swal title text icon].
Proof.
  intros c s valid. split.
  { intros x Hx. rewrite list_ascii_append in Hx. apply in_app_or in Hx.
    destruct Hx as [Hx|Hx]; eapply toLowerCase_lower; exact Hx. }
  unfold handleSearchSubmit. subst valid. cbv beta.
  destruct (truthy (trim country)) eqn:Hc; destruct (truthy (trim sport)) eqn:Hs;
    cbn [negb andb orb];
    try (destruct (truthy country); destruct (truthy sport);
         destruct (ListView.validPattern_test country);
         destruct (ListView.validPattern_test sport);
         cbn [negb andb orb];
         solve [ eexists; eexists; eexists; reflexivity
               | eexists; split; [reflexivity|]; split;
                 [apply readQuery_updateURL|];
                 subst c s; rewrite !truthy_toLowerCase, ?Hc, ?Hs; reflexivity ]).
Qed.

End SportsFacts.

Section SportsLoadFacts.

Import JS Control FetchWrapper ListLoad TheSportsDB.

Local Open Scope string_scope.

Variable network : Network.
Variable nullReadMessage : string -> string.

Lemma queryOf_parse (c s : string) :
  truthy c || truthy s = true ->
  URLSearchParams.parse (queryOf c s)
  = ((if truthy c then [("c", c)] else [])
     ++ (if truthy s then [("s", s)] else []))%list.
Proof.
  intros Hsome. unfold queryOf.
  change (append "c=" (URI.encodeURIComponent c))
    with (URI.encodeURIComponent "c" ++ String "=" (URI.encodeURIComponent c)).
  change (append "s=" (URI.encodeURIComponent s))
    with (URI.encodeURIComponent "s" ++ String "=" (URI.encodeURIComponent s)).
  assert (forall k v,
            URLSearchParams.noneOf "&"
              (URI.encodeURIComponent k ++ String "=" (URI.encodeURIComponent v)))
    as Hamp.
  { intros k v x Hx. rewrite list_ascii_append in Hx. apply in_app_or in Hx.
    destruct Hx as [Hx|[<-|Hx]]; [|discriminate|];
      revert x Hx; apply encodeURIComponent_noneOf; left; reflexivity. }
  assert (forall k v,
            truthy (URI.encodeURIComponent k
                    ++ String "=" (URI.encodeURIComponent v)) = true)
    as Htruthy.
  { intros k v. destruct (URI.encodeURIComponent k); reflexivity. }
  rewrite parse_join.
  - destruct (truthy c); destruct (truthy s); cbn [app map];
      rewrite ?parseTuple_encoded; reflexivity.
  - destruct (truthy c); destruct (truthy s); try discriminate.
  - destruct (truthy c); destruct (truthy s); cbn [app];
      repeat constructor; apply Hamp.
  - destruct (truthy c); destruct (truthy s); cbn [app];
      repeat constructor; apply Htruthy.
Qed.

(** One run of [loadSports], by what [api.get] settles to. *)
Lemma loadSports_run (c s : string) (log : list Request) :
  truthy c || truthy s = true ->
  let settled := fst (get network TheSportsDB.baseURL (endPointOf c s) [] log) in
  loadSports network nullReadMessage c s log
  = (Returned
       match settled with
       | Threw err =>
           [Swal "Error" ("Could not load sports: " ++ messageOf err) "error"]
       | Returned JNull | Returned JUndefined =>
           [Swal "Error" ("Could not load sports: " ++ nullReadMessage "leagues")
              "error"]
       | Returned res =>
           let data :=
             if isArray (optChain res "leagues") then optChain res "leagues"
             else if isArray (optChain res "countries")
                  then optChain res "countries" else JArray [] in
           ([SetState "setSportsList" data]
            ++ (if strictEqualsNumber (lengthOf data) 0
                then [Swal "No Results" "No leagues found for the given criteria."
                        "info"]
                else []))%list
       end,
     (log ++ [requestOf TheSportsDB.baseURL (endPointOf c s)
                {| Options.method := Some "GET"; Options.headers := [];
                   Options.body := JUndefined |}])%list).
Proof.
  intros Hsome settled. subst settled. unfold loadSports, tryCatch.
  assert (negb (truthy c) && negb (truthy s) = false) as ->.
  { destruct (truthy c); destruct (truthy s); try reflexivity; discriminate. }
  unfold bind at 1. unfold get. rewrite sendRequest_run. cbn [fst snd].
  match goal with
  | |- context [match ?r with Returned _ => _ | Threw _ => _ end] =>
      destruct r as [res|err] eqn:Hsettled
  end; [|reflexivity].
  destruct res; try reflexivity.
  all: unfold bind, readFrom, ret; cbn [fst snd].
  all: destruct (isArray (optChain _ "leagues")); cbn [fst snd]; [reflexivity|].
  all: destruct (isArray (optChain _ "countries")); reflexivity.
Qed.

(** X16: [loadSports] never throws.  Without a country and without a sport
    it sends nothing and opens one dialog; otherwise it sends one GET
    request, whose query is read by a form-urlencoded parser as the country
    under [c] and the sport under [s], each present exactly when it is not
    empty and each as it was given, whatever characters it holds.  When the
    request fails, one dialog with the message of the error is all that
    happens. *)
Theorem loadSports_request (c s : string) (log : list Request) :
  let run := loadSports network nullReadMessage c s log in
  (exists actions, fst run = Returned actions)
  /\ (truthy c || truthy s = false ->
      run = (Returned [Swal "Missing Info"
                         "Please enter at least a sport or country." "warning"],
             log))
  /\ (truthy c || truthy s = true ->
      (exists query,
         snd run
         = (log ++ [requestOf TheSportsDB.baseURL
                      ("/search_all_leagues.php?" ++ query)
                      {| Options.method := Some "GET"; Options.headers := [];
                         Options.body := JUndefined |}])%list
         /\ URLSearchParams.parse query
            = ((if truthy c then [("c", c)] else [])
               ++ (if truthy s then [("s", s)] else []))%list)
      /\ forall err,
           fst (get network TheSportsDB.baseURL (endPointOf c s) [] log)
           = Threw err ->
           fst run
           = Returned [Swal "Error" ("Could not load sports: " ++ messageOf err)
                         "error"]).
Proof.
  intros run. subst run.
  destruct (truthy c || truthy s) eqn:Hsome.
  - rewrite loadSports_run by exact Hsome. cbn [fst snd].
    split; [eexists; reflexivity|]. split; [discriminate|].
    intros _. split.
    + exists (queryOf c s). split; [reflexivity|]. apply queryOf_parse, Hsome.
    + intros err ->. reflexivity.
  - assert (loadSports network nullReadMessage c s log
            = (Returned [Swal "Missing Info"
                           "Please enter at least a sport or country." "warning"],
               log)) as ->.
    { unfold loadSports, tryCatch.
      destruct (truthy c); destruct (truthy s); try discriminate. reflexivity. }
    split; [eexists; reflexivity|]. split; [reflexivity|discriminate].
Qed.

(** X17: when the answer is an object, the list [loadSports] sets is always
    an array: [leagues] when that is an array, else [countries] when that is
    an array, else the empty array (also when both are [null], as for a
    search without a match).  The dialog that nothing was found is opened
    exactly when that array is empty. *)
Theorem loadSports_result (c s : string) (log : list Request)
    (fields : list (string * JSValue)) :
  truthy c || truthy s = true ->
  fst (get network TheSportsDB.baseURL (endPointOf c s) [] log)
  = Returned (JObject fields) ->
  exists data notice,
    fst (loadSports network nullReadMessage c s log)
    = Returned (SetState "setSportsList" (JArray data) :: notice)
    /\ (forall leagues, getField "leagues" fields = JArray leagues ->
          data = leagues)
    /\ (isArray (getField "leagues" fields) = false ->
        (forall countries, getField "countries" fields = JArray countries ->
           data = countries)
        /\ (isArray (getField "countries" fields) = false -> data = []))
    /\ (data = [] ->
        notice = [Swal "No Results" "No leagues found for the given criteria."
                    "info"])
    /\ (data <> [] -> notice = []).
Proof.
  intros Hsome Hget. rewrite loadSports_run by exact Hsome. rewrite Hget.
  cbn [fst optChain].
  set (L := getField "leagues" fields). set (C := getField "countries" fields).
  assert (exists data,
             (if isArray L then L else if isArray C then C else JArray [])
             = JArray data
             /\ (forall leagues, L = JArray leagues -> data = leagues)
             /\ (isArray L = false ->
                 (forall countries, C = JArray countries -> data = countries)
                 /\ (isArray C = false -> data = [])))
    as [data [Hdata [Hleagues Hcountries]]].
  { destruct L as [| | | | |leagues|]; cbn [isArray];
      try (destruct C as [| | | | |countries|]; cbn [isArray]);
      eexists; (split; [reflexivity|]);
      repeat split; intros; try congruence; try discriminate. }
  cbv zeta. rewrite Hdata. exists data.
  cbn [lengthOf strictEqualsNumber app].
  destruct data as [|item data]; cbn [List.length].
  - eexists. split; [reflexivity|]. repeat split; try assumption;
      try (intros; congruence); apply Hcountries; assumption.
  - rewrite Nat2Z.inj_succ.
    destruct (Z.eqb_spec (Z.succ (Z.of_nat (List.length data))) 0); [lia|].
    eexists. split; [reflexivity|]. repeat split; try assumption;
      try (intros; congruence); try discriminate; apply Hcountries; assumption.
Qed.

End SportsLoadFacts.

Section SportsScenarios.

Import JS Control FetchWrapper ListLoad TheSportsDB.

Local Open Scope string_scope.

Lemma loadSports_request_witness :
  fst (loadSports PagedServer.offlineNetwork (fun key => key) "canada" "soccer" [])
  = Returned [Swal "Error" "Could not load sports: Failed to fetch" "error"].
Proof.
  destruct (loadSports_request PagedServer.offlineNetwork (fun key => key)
              "canada" "soccer" []) as [_ [_ Hsent]].
  destruct (Hsent eq_refl) as [_ Hfailed].
  apply (Hfailed (Custom {| CustomError.message := "Failed to fetch";
                            CustomError.statusCode := 0;
                            CustomError.details := JObject [] |})).
  reflexivity.
Defined.

Lemma loadSports_result_witness :
  truthy "canada" || truthy "soccer" = true
  /\ exists notice,
       fst (loadSports SportsServer.network (fun key => key) "canada" "soccer" [])
       = Returned (SetState "setSportsList"
                     (JArray [SportsServer.league "Canadian Premier League"])
                   :: notice).
Proof.
  split; [reflexivity|].
  destruct (loadSports_result SportsServer.network (fun key => key)
              "canada" "soccer" []
              [("countries", JArray [SportsServer.league "Canadian Premier League"])]
              eq_refl eq_refl)
    as [data [notice [Hrun [_ [Hcountries _]]]]].
  destruct (Hcountries eq_refl) as [Hdata _].
  exists notice. rewrite Hrun, (Hdata _ eq_refl). reflexivity.
Defined.

End SportsScenarios.

(** ** Facts about the species of a habitat *)

Section SubCollectionFacts.

Import JS Control FetchWrapper PagedServer ListLoad SubCollection.

Local Open Scope string_scope.

Variable network : Network.

(** Values that [Set] holds to be the same are the same. *)
Lemma sameValueZero_eq (a b : JSValue) : sameValueZero a b = true -> a = b.
Proof.
  destruct a; destruct b; cbn [sameValueZero]; intros H; try discriminate;
    try reflexivity.
  - apply Bool.eqb_prop in H. congruence.
  - apply Z.eqb_eq in H. congruence.
  - apply String.eqb_eq in H. congruence.
Qed.

Lemma existsb_sameValueZero (v : JSValue) (l : list JSValue) :
  sameValueZero v v = true ->
  existsb (sameValueZero v) l = true <-> In v l.
Proof.
  intros Hv. rewrite existsb_exists. split.
  - intros [w [Hw Heq]]. apply sameValueZero_eq in Heq. subst w. exact Hw.
  - intros Hin. exists v. split; assumption.
Qed.

Lemma uniqueFrom_In (v : JSValue) (values : list JSValue) :
  forall seen,
    In v (uniqueFrom seen values)
    <-> In v values /\ existsb (sameValueZero v) seen = false.
Proof.
  induction values as [|x values IH]; intros seen; cbn [uniqueFrom].
  - split; [intros []|intros [[] _]].
  - destruct (existsb (sameValueZero x) seen) eqn:Hx.
    + rewrite IH. split.
      * intros [Hin Hseen]. split; [right; exact Hin|exact Hseen].
      * intros [[->|Hin] Hseen]; [congruence|]. split; assumption.
    + cbn [In]. rewrite IH. cbn [existsb]. split.
      * intros [->|[Hin Hseen]]; [split; [left; reflexivity|exact Hx]|].
        apply orb_false_elim in Hseen. destruct Hseen as [_ Hseen].
        split; [right; exact Hin|exact Hseen].
      * intros [[->|Hin] Hseen]; [left; reflexivity|].
        destruct (sameValueZero v x) eqn:Hvx.
        -- left. symmetry. apply sameValueZero_eq, Hvx.
        -- right. split; [exact Hin|]. rewrite Hseen. reflexivity.
Qed.

Lemma uniqueFrom_filter (v : JSValue) (values : list JSValue) :
  sameValueZero v v = true ->
  forall seen,
    filter (sameValueZero v) (uniqueFrom seen values)
    = if existsb (sameValueZero v) seen
         || negb (existsb (sameValueZero v) values)
      then [] else [v].
Proof.
  intros Hv. induction values as [|x values IH]; intros seen;
    cbn [uniqueFrom existsb].
  - rewrite orb_true_r. reflexivity.
  - destruct (existsb (sameValueZero x) seen) eqn:Hx.
    + rewrite IH. destruct (sameValueZero v x) eqn:Hvx; [|reflexivity].
      apply sameValueZero_eq in Hvx. subst x. rewrite Hx. reflexivity.
    + cbn [filter]. rewrite IH. cbn [existsb].
      destruct (sameValueZero v x) eqn:Hvx.
      * apply sameValueZero_eq in Hvx. subst x. rewrite Hx. reflexivity.
      * reflexivity.
Qed.

(** The loop of [fetchHabitatsId] is the loop of [fetchAllIds] on the
    habitats. *)
Lemma fetchHabitatsId_loop_fetchAllIds (fuel : nat) :
  forall (allData : list JSValue) (page : Z) (log : list Request),
    fetchHabitatsId_loop network fuel allData page log
    = CreateResource.fetchAllIds_loop network fuel "/habitats" allData page log.
Proof.
  induction fuel as [|fuel IH]; intros allData page log; [reflexivity|].
  cbn [fetchHabitatsId_loop CreateResource.fetchAllIds_loop].
  unfold bind at 1 3.
  change (get network SubCollection.baseURL
            ("/habitats?page=" ++ Number_toString page ++ "&pageSize=20") [] log)
    with (get network CreateResource.baseURL
            (CreateResource.pageURI "/habitats" page) [] log).
  destruct (get network CreateResource.baseURL _ [] log) as [[res|e] log'];
    [|reflexivity].
  unfold bind at 1 2.
  destruct (DeleteResource.lift _ log') as [[data|e] log'']; [|reflexivity].
  destruct (lessEq _ _); [apply IH|reflexivity].
Qed.

(** X18: against a server that serves the habitats on [N] pages,
    [fetchHabitatsId] requests the pages 1 to [N] in order (fuel for [N]
    rounds is enough) and fills the dropdown with the identifiers served,
    each once: an identifier is in the dropdown exactly when a record served
    carries it, and one that is a string, a number, a boolean, [null] or
    [undefined] occurs there once, however many records carry it. *)
Theorem fetchHabitatsId_dropdown (fuel : nat) (log : list Request)
    (items : Z -> list (list (string * JSValue))) (N : Z) :
  serves network "/habitats" items N ->
  (1 <= N)%Z ->
  (Z.to_nat N <= fuel)%nat ->
  let pages := Pagination.run (Z.to_nat N) 1 in
  let served := flat_map (fun p => map (getField "habitat_id") (items p)) pages in
  exists ids,
    fetchHabitatsId network fuel log
    = (Returned (Some [SetState "setHabitatsId" (JArray ids)]),
       (log ++ map (fun p => getRequest (CreateResource.pageURI "/habitats" p))
                 pages)%list)
    /\ (forall id, In id ids <-> In id served)
    /\ (forall id, In id served -> sameValueZero id id = true ->
          List.length (filter (sameValueZero id) ids) = 1%nat).
Proof.
  intros Hserves HN Hfuel pages served. exists (unique served).
  split; [|split].
  - unfold fetchHabitatsId, tryCatch, bind at 1.
    rewrite fetchHabitatsId_loop_fetchAllIds.
    assert (Z.to_nat N = S (Z.to_nat (N - 1))) as HS by lia.
    subst served pages. rewrite HS.
    rewrite (fetchAllIds_pages network "/habitats" items N Hserves
               (Z.to_nat (N - 1))) by lia.
    cbn [app]. unfold bind.
    pose proof (mapProperty_flat_map "habitat_id" items
                  (Pagination.run (S (Z.to_nat (N - 1))) 1)) as Hids.
    unfold CreateResource.idsOf in Hids. rewrite Hids. reflexivity.
  - intros id. unfold unique. rewrite uniqueFrom_In. cbn [existsb]. tauto.
  - intros id Hin Hid. unfold unique. rewrite uniqueFrom_filter by exact Hid.
    cbn [existsb orb].
    destruct (existsb_sameValueZero id served Hid) as [_ Hex].
    rewrite (Hex Hin). reflexivity.
Qed.

Lemma sub_get_pair (uri : string) (log : list Request) :
  get network SubCollection.baseURL uri [] log
  = (fst (get network SubCollection.baseURL uri [] log),
     (log ++ [getRequest uri])%list).
Proof. unfold get. rewrite sendRequest_run. reflexivity. Qed.

(** One run of [loadSubCollection], by what [api.get] settles to. *)
Lemma loadSubCollection_run (habitatId : string) (pg size : Z)
    (log : list Request) :
  loadSubCollection network habitatId pg size log
  = (Returned
       match fst (get network SubCollection.baseURL
                    (endPointOf habitatId pg size) [] log) with
       | Threw _ | Returned JNull | Returned JUndefined =>
           [Swal "Error" "Failed to load sub collection." "error"]
       | Returned res =>
           [SetState "setSpeciesList" (valueOr (optChain res "data") (JArray []));
            SetState "setTotalPages" (DeleteResource.totalPagesOf res);
            SetState "setPage" (JNumber pg);
            SetState "setPageSize" (JNumber size)]
       end,
     (log ++ [getRequest (endPointOf habitatId pg size)])%list).
Proof.
  unfold loadSubCollection, tryCatch, bind. rewrite sub_get_pair.
  destruct (fst (get network SubCollection.baseURL _ [] log)) as [res|e];
    [|reflexivity].
  destruct res; reflexivity.
Qed.

(** X19: [loadSubCollection] sends one GET request, for the species of the
    habitat at the page and size given, and never throws.  When the request
    fails it opens one dialog, which does not tell why, and calls no setter.
    When the answer is an object it sets the list to [data] when that is
    truthy, whatever it is, and to the empty array otherwise (missing,
    [null], [false], 0, the empty text); the count of pages to
    [metadata.total_pages] when that is truthy and to 1 otherwise; and the
    page and the size to the ones asked for.  Neither the list nor the
    count set is ever falsy. *)
Theorem loadSubCollection_outcome (habitatId : string) (pg size : Z)
    (log : list Request) :
  let settled := fst (get network SubCollection.baseURL
                        (endPointOf habitatId pg size) [] log) in
  let run := loadSubCollection network habitatId pg size log in
  snd run = (log ++ [getRequest (endPointOf habitatId pg size)])%list
  /\ (exists actions, fst run = Returned actions)
  /\ (forall err, settled = Threw err ->
        fst run = Returned [Swal "Error" "Failed to load sub collection." "error"])
  /\ (forall fields, settled = Returned (JObject fields) ->
        let given := getField "data" fields in
        let count := optChain (getField "metadata" fields) "total_pages" in
        let data := if truthyValue given then given else JArray [] in
        let total := if truthyValue count then count else JNumber 1 in
        fst run
        = Returned [SetState "setSpeciesList" data;
                    SetState "setTotalPages" total;
                    SetState "setPage" (JNumber pg);
                    SetState "setPageSize" (JNumber size)]
        /\ truthyValue data = true /\ truthyValue total = true).
Proof.
  intros settled run. subst run. rewrite loadSubCollection_run.
  fold settled. cbn [fst snd]. split; [reflexivity|].
  split; [eexists; reflexivity|]. split.
  - intros err ->. reflexivity.
  - intros fields Hsettled. rewrite Hsettled. cbv zeta. cbn [optChain].
    unfold DeleteResource.totalPagesOf, valueOr. cbn [optChain].
    split; [reflexivity|]. split.
    + destruct (truthyValue (getField "data" fields)) eqn:H;
        [exact H|reflexivity].
    + destruct (truthyValue (optChain (getField "metadata" fields) "total_pages"))
        eqn:H; [exact H|reflexivity].
Qed.

(** X20: choosing a habitat loads its species from page 1 at the current
    page size.  Choosing none still sends a request: the empty array given
    to [loadSubCollection] is written as the empty text, so the request goes
    to [/habitats//species], at the current page and the current size.  In
    both cases the choice is stored first and one request is sent. *)
Theorem handleHabitatChange_request (page pageSize : Z) (habitatId : string)
    (log : list Request) :
  let run := handleHabitatChange network page pageSize habitatId log in
  (exists loaded,
     fst run = Returned (SetState "setSelectedHabitatId" (JString habitatId)
                         :: loaded))
  /\ (truthy habitatId = true ->
      snd run
      = (log ++ [getRequest ("/habitats/" ++ habitatId ++ "/species?page=1&pageSize="
                             ++ Number_toString pageSize)])%list)
  /\ (truthy habitatId = false ->
      snd run
      = (log ++ [getRequest ("/habitats//species?page=" ++ Number_toString page
                             ++ "&pageSize=" ++ Number_toString pageSize)])%list).
Proof.
  intros run. subst run. unfold handleHabitatChange, bind.
  destruct (truthy habitatId) eqn:Hid; rewrite loadSubCollection_run;
    unfold ret; cbn [fst snd]; (split; [eexists; reflexivity|]).
  - split; [intros _; reflexivity|discriminate].
  - split; [discriminate|intros _; reflexivity].
Qed.

End SubCollectionFacts.

Section SubCollectionScenarios.

Import JS Control FetchWrapper PagedServer ListLoad SubCollection.

Local Open Scope string_scope.

Lemma fetchHabitatsId_dropdown_witness :
  exists ids,
    fetchHabitatsId sampleNetwork 3 []
    = (Returned (Some [SetState "setHabitatsId" (JArray ids)]),
       [getRequest "/habitats?page=1&pageSize=20";
        getRequest "/habitats?page=2&pageSize=20";
        getRequest "/habitats?page=3&pageSize=20"])
    /\ In (JString "HA-004") ids.
Proof.
  destruct (fetchHabitatsId_dropdown sampleNetwork 3 [] sampleItems 3
              sampleNetwork_serves ltac:(lia) ltac:(vm_compute; lia))
    as [ids [Hrun [Hin _]]].
  exists ids. split; [exact Hrun|]. apply Hin. vm_compute. auto 10.
Defined.

End SubCollectionScenarios.

(** ** Facts about the request [sendRequest] builds *)

Section RequestFacts.

Import JS Control FetchWrapper CreateResource.

Local Open Scope string_scope.

Variable network : Network.
Variable baseURL : string.

Lemma formValue_setHeader (key k v : string) (h : list (string * string)) :
  formValue key (setHeader k v h)
  = if String.eqb k key then Some v else formValue key h.
Proof.
  induction h as [|[k' v'] h IH]; cbn [setHeader formValue].
  - reflexivity.
  - destruct (String.eqb_spec k' k) as [->|Hk]; cbn [formValue].
    + destruct (String.eqb k key); reflexivity.
    + rewrite IH. destruct (String.eqb_spec k key) as [->|Hn].
      * apply String.eqb_neq in Hk. rewrite Hk. reflexivity.
      * reflexivity.
Qed.

Lemma formValue_absent (key : string) (h : list (string * string)) :
  ~ In key (map fst h) -> formValue key h = None.
Proof.
  induction h as [|[k v] h IH]; intros Hout; [reflexivity|].
  cbn [formValue]. cbn [map fst In] in Hout.
  destruct (String.eqb_spec k key) as [->|Hk]; [tauto|]. apply IH. tauto.
Qed.

Lemma formValue_spread (key : string) (extra : list (string * string)) :
  NoDup (map fst extra) ->
  forall defaults,
    formValue key (spread defaults extra)
    = match formValue key extra with
      | Some v => Some v
      | None => formValue key defaults
      end.
Proof.
  unfold spread. induction extra as [|[k v] extra IH]; intros Hkeys defaults;
    [reflexivity|].
  cbn [map fst] in Hkeys. inversion Hkeys as [|? ? Hout Hrest]; subst.
  cbn [fold_left fst snd formValue]. rewrite IH by exact Hrest.
  rewrite formValue_setHeader.
  destruct (String.eqb_spec k key) as [->|Hk]; [|reflexivity].
  rewrite formValue_absent by exact Hout. reflexivity.
Qed.

(** X21: the one request [sendRequest] makes goes to the base URL followed
    by the URI.  Its method is the caller's when one is given and is not
    empty, and [GET] otherwise, so it is never empty.  Its headers are the
    caller's over the two defaults: a header the caller gives is sent with
    the caller's value, also when it is [Content-Type] or [Accept], the two
    defaults are sent as [application/json] when the caller does not give
    them, and no other header is sent.  A body is sent exactly when the one
    given is truthy, and is then the one given. *)
Theorem request_headers (uri : string) (options : Options.t)
    (log : list Request) :
  NoDup (map fst (Options.headers options)) ->
  let request := requestOf baseURL uri options in
  snd (sendRequest network baseURL uri options log) = (log ++ [request])%list
  /\ url request = baseURL ++ uri
  /\ (forall m, Options.method options = Some m -> truthy m = true ->
        FetchOptions.method (init request) = m)
  /\ (Options.method options = None
      \/ Options.method options = Some EmptyString ->
      FetchOptions.method (init request) = "GET")
  /\ truthy (FetchOptions.method (init request)) = true
  /\ (forall key,
        formValue key (FetchOptions.headers (init request))
        = match formValue key (Options.headers options) with
          | Some v => Some v
          | None =>
              if String.eqb key "Content-Type" || String.eqb key "Accept"
              then Some "application/json" else None
          end)
  /\ (FetchOptions.body (init request) = None
      <-> truthyValue (Options.body options) = false)
  /\ (truthyValue (Options.body options) = true ->
      FetchOptions.body (init request) = Some (Options.body options)).
Proof.
  intros Hkeys request. subst request.
  rewrite sendRequest_run. cbn [snd].
  split; [reflexivity|]. split; [reflexivity|].
  split; [|split; [|split; [|split; [|split]]]].
  - intros m Hm Ht. unfold requestOf, fetchOptionsOf.
    cbn [init FetchOptions.method]. rewrite Hm, Ht. reflexivity.
  - intros [Hm|Hm]; unfold requestOf, fetchOptionsOf;
      cbn [init FetchOptions.method]; rewrite Hm; reflexivity.
  - unfold requestOf, fetchOptionsOf. cbn [init FetchOptions.method].
    destruct (Options.method options) as [m|]; [|reflexivity].
    destruct (truthy m) eqn:Hm; [exact Hm|reflexivity].
  - intros key. unfold requestOf, fetchOptionsOf. cbn [init FetchOptions.headers].
    rewrite formValue_spread by exact Hkeys.
    destruct (formValue key (Options.headers options)); [reflexivity|].
    cbn [formValue]. rewrite (String.eqb_sym key "Content-Type").
    rewrite (String.eqb_sym key "Accept").
    destruct (String.eqb "Content-Type" key); [reflexivity|].
    destruct (String.eqb "Accept" key); reflexivity.
  - unfold requestOf, fetchOptionsOf. cbn [init FetchOptions.body].
    destruct (truthyValue (Options.body options)); split; intros H;
      try discriminate; reflexivity.
  - intros Hbody. unfold requestOf, fetchOptionsOf.
    cbn [init FetchOptions.body]. rewrite Hbody. reflexivity.
Qed.

End RequestFacts.

Section RequestScenarios.

Import JS Control FetchWrapper CreateResource.

Local Open Scope string_scope.

Lemma request_headers_witness :
  let options := {| Options.method := None;
                    Options.headers := [("Accept", "text/plain");
                                        ("X-Requested-With", "fetch")];
                    Options.body := JNull |} in
  NoDup (map fst (Options.headers options))
  /\ formValue "Accept"
       (FetchOptions.headers (init (requestOf "http://localhost" "/x" options)))
     = Some "text/plain".
Proof.
  cbv zeta.
  assert (NoDup (map fst [("Accept", "text/plain"); ("X-Requested-With", "fetch")]))
    as Hkeys.
  { repeat constructor; cbn; intuition discriminate. }
  split; [exact Hkeys|].
  destruct (request_headers PagedServer.offlineNetwork "http://localhost" "/x"
              {| Options.method := None;
                 Options.headers := [("Accept", "text/plain");
                                     ("X-Requested-With", "fetch")];
                 Options.body := JNull |} [] Hkeys)
    as [_ [_ [_ [_ [_ [Hheaders _]]]]]].
  apply (Hheaders "Accept").
Defined.

End RequestScenarios.

(** ** Facts about the effect on the query of the sports page *)

Section SportsEffectFacts.

Import JS Control FetchWrapper ListLoad TheSportsDB.

Local Open Scope string_scope.

Variable network : Network.
Variable nullReadMessage : string -> string.

(** X22: the effect on [location.search] of the sports page stores the
    country and the sport it reads from the query, and loads exactly when
    one of them is not empty: it then sends one GET request whose query
    holds the two values as they were read.  When both are empty, as they
    are after the form was cleared, it sends nothing and opens no dialog. *)
Theorem sports_effect_loads (search c s : string) (log : list Request) :
  readQuery search = (c, s) ->
  let run := onLocationSearch network nullReadMessage search log in
  (exists loaded,
     fst run = Returned (SetState "setCountry" (JString c)
                         :: SetState "setSport" (JString s) :: loaded))
  /\ (truthy c || truthy s = true ->
      exists query,
        snd run
        = (log ++ [requestOf TheSportsDB.baseURL
                     ("/search_all_leagues.php?" ++ query)
                     {| Options.method := Some "GET"; Options.headers := [];
                        Options.body := JUndefined |}])%list
        /\ URLSearchParams.parse query
           = ((if truthy c then [("c", c)] else [])
              ++ (if truthy s then [("s", s)] else []))%list)
  /\ (truthy c || truthy s = false ->
      run = (Returned [SetState "setCountry" (JString c);
                       SetState "setSport" (JString s)], log)).
Proof.
  intros Hread run. subst run. unfold onLocationSearch. rewrite Hread.
  unfold bind.
  destruct (truthy c || truthy s) eqn:Hsome.
  - rewrite loadSports_run by exact Hsome. cbn [fst snd]. unfold ret.
    cbn [fst snd app].
    split; [eexists; reflexivity|]. split; [|discriminate].
    intros _. exists (queryOf c s). split; [reflexivity|].
    apply queryOf_parse, Hsome.
  - unfold ret. cbn [fst snd app].
    split; [eexists; reflexivity|]. split; [discriminate|].
    intros _. reflexivity.
Qed.

End SportsEffectFacts.

Section SportsEffectScenarios.

Import JS Control FetchWrapper ListLoad TheSportsDB.

Local Open Scope string_scope.

Lemma sports_effect_loads_witness :
  readQuery "?c=canada&s=ice%20hockey" = ("canada", "ice hockey")
  /\ exists loaded,
       fst (onLocationSearch PagedServer.offlineNetwork (fun key => key)
              "?c=canada&s=ice%20hockey" [])
       = Returned (SetState "setCountry" (JString "canada")
                   :: SetState "setSport" (JString "ice hockey") :: loaded).
Proof.
  split; [reflexivity|].
  apply (sports_effect_loads PagedServer.offlineNetwork (fun key => key)
           "?c=canada&s=ice%20hockey" "canada" "ice hockey" [] eq_refl).
Defined.

End SportsEffectScenarios.

(** ** Facts about the identifiers of the two forms *)

Section IdentifierFacts.

Import JS Control FetchWrapper CreateResource DeleteResourcePage.

Local Open Scope string_scope.

Lemma isWhiteSpace1_digit (c : ascii) :
  isDigit c = true -> isWhiteSpace1 (code c) = false /\ code c < 194.
Proof.
  intros H. apply isDigit_bounds in H. split; [|lia].
  unfold isWhiteSpace1.
  destruct (Z.leb_spec (code c) 13); [lia|].
  destruct (Z.eqb_spec (code c) 32); [lia|].
  rewrite andb_false_r. reflexivity.
Qed.

(** The shape of an identifier [isValidIdFormat] accepts. *)
Lemma isValidIdFormat_shape (resourceType id : string) :
  isValidIdFormat resourceType id = true ->
  exists a b d1 d2 d3,
    id = String a (String b (String "-" (String d1 (String d2
           (String d3 EmptyString)))))
    /\ (a, b) = (if String.eqb resourceType "habitats"
                 then ("H", "A") else ("S", "P"))%char
    /\ isDigit d1 = true /\ isDigit d2 = true /\ isDigit d3 = true.
Proof.
  unfold isValidIdFormat.
  destruct id as [|a [|b [|h [|d1 [|d2 [|d3 [|x rest]]]]]]]; try discriminate.
  intros H.
  repeat match type of H with
  | (_ && _ = true) => apply andb_prop in H; destruct H as [H ?]
  end.
  exists a, b, d1, d2, d3.
  match goal with
  | Hh : Ascii.eqb h _ = true |- _ => apply Ascii.eqb_eq in Hh; subst h
  end.
  split; [reflexivity|]. split; [|auto].
  destruct (String.eqb resourceType "habitats");
    apply andb_prop in H; destruct H as [Ha Hb];
    apply Ascii.eqb_eq in Ha; apply Ascii.eqb_eq in Hb; subst; reflexivity.
Qed.

(** X23: an identifier the deletion form accepts ([HA-] or [SP-] and three
    digits, in capitals) is one the creation form accepts for the field of
    that resource: it is left as it is by [trim], and the field check stores
    no error for it.  The creation form is the wider one: it also accepts
    the lower-case spelling, which the deletion form refuses. *)
Theorem deletable_id_is_creatable (resourceType id : string)
    (formData : list (string * string)) :
  isValidIdFormat resourceType id = true ->
  let field := DeleteResource.idKey resourceType in
  formValue field formData = Some id ->
  trim id = id
  /\ checkField formData field = []
  /\ exists lower,
       fieldError field lower = None
       /\ isValidIdFormat resourceType lower = false.
Proof.
  intros Hvalid field Hvalue.
  destruct (isValidIdFormat_shape resourceType id Hvalid)
    as [a [b [d1 [d2 [d3 [-> [Hletters [H1 [H2 H3]]]]]]]]].
  destruct (isWhiteSpace1_digit d1 H1) as [W1 C1].
  destruct (isWhiteSpace1_digit d2 H2) as [W2 C2].
  destruct (isWhiteSpace1_digit d3 H3) as [W3 C3].
  assert (trim (String a (String b (String "-" (String d1 (String d2
                  (String d3 EmptyString))))))
          = String a (String b (String "-" (String d1 (String d2
                  (String d3 EmptyString)))))) as Htrim.
  { unfold trim.
    assert (isWhiteSpace1 (code a) = false /\ code a < 194
            /\ isWhiteSpace1 (code b) = false /\ code b < 194)
      as [Wa [Ca [Wb Cb]]].
    { destruct (String.eqb resourceType "habitats");
        inversion Hletters; subst; vm_compute; repeat split; reflexivity. }
    rewrite (tokens_plain a) by assumption.
    rewrite (tokens_plain b) by assumption.
    rewrite (tokens_plain "-") by (vm_compute; reflexivity).
    rewrite (tokens_plain d1), (tokens_plain d2), (tokens_plain d3)
      by assumption.
    reflexivity. }
  split; [exact Htrim|]. split.
  - unfold checkField. rewrite Hvalue, Htrim. cbn [truthy negb].
    subst field. unfold DeleteResource.idKey.
    destruct (String.eqb resourceType "habitats");
      inversion Hletters; subst;
      cbv beta iota zeta delta [fieldError String.eqb Ascii.eqb Bool.eqb
                                idPattern ciLetter code N_of_ascii N_of_digits
                                andb orb];
      cbn -[isDigit]; rewrite H1, H2, H3; reflexivity.
  - subst field. unfold DeleteResource.idKey.
    unfold isValidIdFormat.
    destruct (String.eqb resourceType "habitats").
    + exists "ha-001". split; reflexivity.
    + exists "sp-001". split; reflexivity.
Qed.

End IdentifierFacts.

Section IdentifierScenarios.

Import JS Control FetchWrapper CreateResource DeleteResourcePage.

Local Open Scope string_scope.

Lemma deletable_id_is_creatable_witness :
  isValidIdFormat "habitats" "HA-001" = true
  /\ formValue "habitat_id" PagedServer.sampleHabitatForm = Some "HA-001"
  /\ checkField PagedServer.sampleHabitatForm "habitat_id" = [].
Proof.
  split; [reflexivity|]. split; [reflexivity|].
  apply (deletable_id_is_creatable "habitats" "HA-001"
           PagedServer.sampleHabitatForm eq_refl eq_refl).
Defined.

End IdentifierScenarios.
